(** * Livora catalogue pipeline: a shallow embedding and its properties

    The development follows the Python sources
    - [backend/beauty_product_manager.py] (module [Manager]),
    - [backend/main.py]                   (module [Main]),
    - [backend/agents/__init__.py]        (module [Agents]).

    Python's [str] is a sequence of Unicode code points, so a string is a
    [list N]; the built-in string methods the sources call ([in], [split],
    [strip], [replace], [lower], [join], slicing, [str()], [float()]) are
    given executable definitions first. *)

From Stdlib Require Import ZArith NArith Bool List Floats.
From Stdlib Require Import Ascii String.
From stdpp Require Import base option list gmap strings.

Local Open Scope N_scope.

(** ** Unicode data (CPython 3.11, Unicode 14.0.0) *)

Module Unicode.

Abbreviation char := N.

Definition range_table := list (N * N).

Fixpoint in_ranges (c : char) (t : range_table) : bool :=
  match t with
  | [] => false
  | (lo, hi) :: t' => ((lo <=? c) && (c <=? hi)) || in_ranges c t'
  end.

(** Code points for which [str.isspace] holds: what [str.strip()] removes. *)
Definition whitespace_table : range_table :=
  [
   (9, 13); (28, 32); (133, 133); (160, 160); (5760, 5760); (8192, 8202);
   (8232, 8233); (8239, 8239); (8287, 8287); (12288, 12288)
  ].

(** General category Nd; every run starts at a digit zero, so the value of a
    digit is its offset in the run modulo ten. *)
Definition decimal_digit_table : range_table :=
  [
   (48, 57); (1632, 1641); (1776, 1785); (1984, 1993); (2406, 2415); (2534,
   2543); (2662, 2671); (2790, 2799); (2918, 2927); (3046, 3055); (3174,
   3183); (3302, 3311); (3430, 3439); (3558, 3567); (3664, 3673); (3792,
   3801); (3872, 3881); (4160, 4169); (4240, 4249); (6112, 6121); (6160,
   6169); (6470, 6479); (6608, 6617); (6784, 6793); (6800, 6809); (6992,
   7001); (7088, 7097); (7232, 7241); (7248, 7257); (42528, 42537); (43216,
   43225); (43264, 43273); (43472, 43481); (43504, 43513); (43600, 43609);
   (44016, 44025); (65296, 65305); (66720, 66729); (68912, 68921); (69734,
   69743); (69872, 69881); (69942, 69951); (70096, 70105); (70384, 70393);
   (70736, 70745); (70864, 70873); (71248, 71257); (71360, 71369); (71472,
   71481); (71904, 71913); (72016, 72025); (72784, 72793); (73040, 73049);
   (73120, 73129); (92768, 92777); (92864, 92873); (93008, 93017); (120782,
   120831); (123200, 123209); (123632, 123641); (125264, 125273); (130032,
   130041)
  ].

(** Simple lower-case mappings as arithmetic runs [(lo, hi, step, target)]:
    the code points [lo, lo+step, ..., hi] map to [target + (c - lo)]. *)
Definition lower_table : list (N * N * N * N) :=
  [
   (65, 90, 1, 97); (192, 214, 1, 224); (216, 222, 1, 248); (256, 302, 2,
   257); (306, 310, 2, 307); (313, 327, 2, 314); (330, 374, 2, 331); (376,
   376, 1, 255); (377, 381, 2, 378); (385, 385, 1, 595); (386, 388, 2, 387);
   (390, 390, 1, 596); (391, 391, 1, 392); (393, 394, 1, 598); (395, 395, 1,
   396); (398, 398, 1, 477); (399, 399, 1, 601); (400, 400, 1, 603); (401,
   401, 1, 402); (403, 403, 1, 608); (404, 404, 1, 611); (406, 406, 1, 617);
   (407, 407, 1, 616); (408, 408, 1, 409); (412, 412, 1, 623); (413, 413, 1,
   626); (415, 415, 1, 629); (416, 420, 2, 417); (422, 422, 1, 640); (423,
   423, 1, 424); (425, 425, 1, 643); (428, 428, 1, 429); (430, 430, 1, 648);
   (431, 431, 1, 432); (433, 434, 1, 650); (435, 437, 2, 436); (439, 439, 1,
   658); (440, 440, 1, 441); (444, 444, 1, 445); (452, 452, 1, 454); (453,
   453, 1, 454); (455, 455, 1, 457); (456, 456, 1, 457); (458, 458, 1, 460);
   (459, 475, 2, 460); (478, 494, 2, 479); (497, 497, 1, 499); (498, 500, 2,
   499); (502, 502, 1, 405); (503, 503, 1, 447); (504, 542, 2, 505); (544,
   544, 1, 414); (546, 562, 2, 547); (570, 570, 1, 11365); (571, 571, 1, 572);
   (573, 573, 1, 410); (574, 574, 1, 11366); (577, 577, 1, 578); (579, 579, 1,
   384); (580, 580, 1, 649); (581, 581, 1, 652); (582, 590, 2, 583); (880,
   882, 2, 881); (886, 886, 1, 887); (895, 895, 1, 1011); (902, 902, 1, 940);
   (904, 906, 1, 941); (908, 908, 1, 972); (910, 911, 1, 973); (913, 929, 1,
   945); (931, 939, 1, 963); (975, 975, 1, 983); (984, 1006, 2, 985); (1012,
   1012, 1, 952); (1015, 1015, 1, 1016); (1017, 1017, 1, 1010); (1018, 1018,
   1, 1019); (1021, 1023, 1, 891); (1024, 1039, 1, 1104); (1040, 1071, 1,
   1072); (1120, 1152, 2, 1121); (1162, 1214, 2, 1163); (1216, 1216, 1, 1231);
   (1217, 1229, 2, 1218); (1232, 1326, 2, 1233); (1329, 1366, 1, 1377); (4256,
   4293, 1, 11520); (4295, 4295, 1, 11559); (4301, 4301, 1, 11565); (5024,
   5103, 1, 43888); (5104, 5109, 1, 5112); (7312, 7354, 1, 4304); (7357, 7359,
   1, 4349); (7680, 7828, 2, 7681); (7838, 7838, 1, 223); (7840, 7934, 2,
   7841); (7944, 7951, 1, 7936); (7960, 7965, 1, 7952); (7976, 7983, 1, 7968);
   (7992, 7999, 1, 7984); (8008, 8013, 1, 8000); (8025, 8031, 2, 8017); (8040,
   8047, 1, 8032); (8072, 8079, 1, 8064); (8088, 8095, 1, 8080); (8104, 8111,
   1, 8096); (8120, 8121, 1, 8112); (8122, 8123, 1, 8048); (8124, 8124, 1,
   8115); (8136, 8139, 1, 8050); (8140, 8140, 1, 8131); (8152, 8153, 1, 8144);
   (8154, 8155, 1, 8054); (8168, 8169, 1, 8160); (8170, 8171, 1, 8058); (8172,
   8172, 1, 8165); (8184, 8185, 1, 8056); (8186, 8187, 1, 8060); (8188, 8188,
   1, 8179); (8486, 8486, 1, 969); (8490, 8490, 1, 107); (8491, 8491, 1, 229);
   (8498, 8498, 1, 8526); (8544, 8559, 1, 8560); (8579, 8579, 1, 8580); (9398,
   9423, 1, 9424); (11264, 11311, 1, 11312); (11360, 11360, 1, 11361); (11362,
   11362, 1, 619); (11363, 11363, 1, 7549); (11364, 11364, 1, 637); (11367,
   11371, 2, 11368); (11373, 11373, 1, 593); (11374, 11374, 1, 625); (11375,
   11375, 1, 592); (11376, 11376, 1, 594); (11378, 11378, 1, 11379); (11381,
   11381, 1, 11382); (11390, 11391, 1, 575); (11392, 11490, 2, 11393); (11499,
   11501, 2, 11500); (11506, 11506, 1, 11507); (42560, 42604, 2, 42561);
   (42624, 42650, 2, 42625); (42786, 42798, 2, 42787); (42802, 42862, 2,
   42803); (42873, 42875, 2, 42874); (42877, 42877, 1, 7545); (42878, 42886,
   2, 42879); (42891, 42891, 1, 42892); (42893, 42893, 1, 613); (42896, 42898,
   2, 42897); (42902, 42920, 2, 42903); (42922, 42922, 1, 614); (42923, 42923,
   1, 604); (42924, 42924, 1, 609); (42925, 42925, 1, 620); (42926, 42926, 1,
   618); (42928, 42928, 1, 670); (42929, 42929, 1, 647); (42930, 42930, 1,
   669); (42931, 42931, 1, 43859); (42932, 42946, 2, 42933); (42948, 42948, 1,
   42900); (42949, 42949, 1, 642); (42950, 42950, 1, 7566); (42951, 42953, 2,
   42952); (42960, 42960, 1, 42961); (42966, 42968, 2, 42967); (42997, 42997,
   1, 42998); (65313, 65338, 1, 65345); (66560, 66599, 1, 66600); (66736,
   66771, 1, 66776); (66928, 66938, 1, 66967); (66940, 66954, 1, 66979);
   (66956, 66962, 1, 66995); (66964, 66965, 1, 67003); (68736, 68786, 1,
   68800); (71840, 71871, 1, 71872); (93760, 93791, 1, 93792); (125184,
   125217, 1, 125218)
  ].

(** Cased code points that are not case-ignorable, and the case-ignorable
    ones: the two classes that the Final_Sigma rule of [str.lower] reads. *)
Definition cased_table : range_table :=
  [
   (65, 90); (97, 122); (170, 170); (181, 181); (186, 186); (192, 214); (216,
   246); (248, 442); (444, 447); (452, 659); (661, 687); (880, 883); (886,
   887); (891, 893); (895, 895); (902, 902); (904, 906); (908, 908); (910,
   929); (931, 1013); (1015, 1153); (1162, 1327); (1329, 1366); (1376, 1416);
   (4256, 4293); (4295, 4295); (4301, 4301); (4304, 4346); (4349, 4351);
   (5024, 5109); (5112, 5117); (7296, 7304); (7312, 7354); (7357, 7359);
   (7424, 7467); (7531, 7543); (7545, 7578); (7680, 7957); (7960, 7965);
   (7968, 8005); (8008, 8013); (8016, 8023); (8025, 8025); (8027, 8027);
   (8029, 8029); (8031, 8061); (8064, 8116); (8118, 8124); (8126, 8126);
   (8130, 8132); (8134, 8140); (8144, 8147); (8150, 8155); (8160, 8172);
   (8178, 8180); (8182, 8188); (8450, 8450); (8455, 8455); (8458, 8467);
   (8469, 8469); (8473, 8477); (8484, 8484); (8486, 8486); (8488, 8488);
   (8490, 8493); (8495, 8500); (8505, 8505); (8508, 8511); (8517, 8521);
   (8526, 8526); (8544, 8575); (8579, 8580); (9398, 9449); (11264, 11387);
   (11390, 11492); (11499, 11502); (11506, 11507); (11520, 11557); (11559,
   11559); (11565, 11565); (42560, 42605); (42624, 42651); (42786, 42863);
   (42865, 42887); (42891, 42894); (42896, 42954); (42960, 42961); (42963,
   42963); (42965, 42969); (42997, 42998); (43002, 43002); (43824, 43866);
   (43872, 43880); (43888, 43967); (64256, 64262); (64275, 64279); (65313,
   65338); (65345, 65370); (66560, 66639); (66736, 66771); (66776, 66811);
   (66928, 66938); (66940, 66954); (66956, 66962); (66964, 66965); (66967,
   66977); (66979, 66993); (66995, 67001); (67003, 67004); (68736, 68786);
   (68800, 68850); (71840, 71903); (93760, 93823); (119808, 119892); (119894,
   119964); (119966, 119967); (119970, 119970); (119973, 119974); (119977,
   119980); (119982, 119993); (119995, 119995); (119997, 120003); (120005,
   120069); (120071, 120074); (120077, 120084); (120086, 120092); (120094,
   120121); (120123, 120126); (120128, 120132); (120134, 120134); (120138,
   120144); (120146, 120485); (120488, 120512); (120514, 120538); (120540,
   120570); (120572, 120596); (120598, 120628); (120630, 120654); (120656,
   120686); (120688, 120712); (120714, 120744); (120746, 120770); (120772,
   120779); (122624, 122633); (122635, 122654); (125184, 125251); (127280,
   127305); (127312, 127337); (127344, 127369)
  ].

Definition case_ignorable_table : range_table :=
  [
   (39, 39); (46, 46); (58, 58); (94, 94); (96, 96); (168, 168); (173, 173);
   (175, 175); (180, 180); (183, 184); (688, 879); (884, 885); (890, 890);
   (900, 901); (903, 903); (1155, 1161); (1369, 1369); (1375, 1375); (1425,
   1469); (1471, 1471); (1473, 1474); (1476, 1477); (1479, 1479); (1524,
   1524); (1536, 1541); (1552, 1562); (1564, 1564); (1600, 1600); (1611,
   1631); (1648, 1648); (1750, 1757); (1759, 1768); (1770, 1773); (1807,
   1807); (1809, 1809); (1840, 1866); (1958, 1968); (2027, 2037); (2042,
   2042); (2045, 2045); (2070, 2093); (2137, 2139); (2184, 2184); (2192,
   2193); (2200, 2207); (2249, 2306); (2362, 2362); (2364, 2364); (2369,
   2376); (2381, 2381); (2385, 2391); (2402, 2403); (2417, 2417); (2433,
   2433); (2492, 2492); (2497, 2500); (2509, 2509); (2530, 2531); (2558,
   2558); (2561, 2562); (2620, 2620); (2625, 2626); (2631, 2632); (2635,
   2637); (2641, 2641); (2672, 2673); (2677, 2677); (2689, 2690); (2748,
   2748); (2753, 2757); (2759, 2760); (2765, 2765); (2786, 2787); (2810,
   2815); (2817, 2817); (2876, 2876); (2879, 2879); (2881, 2884); (2893,
   2893); (2901, 2902); (2914, 2915); (2946, 2946); (3008, 3008); (3021,
   3021); (3072, 3072); (3076, 3076); (3132, 3132); (3134, 3136); (3142,
   3144); (3146, 3149); (3157, 3158); (3170, 3171); (3201, 3201); (3260,
   3260); (3263, 3263); (3270, 3270); (3276, 3277); (3298, 3299); (3328,
   3329); (3387, 3388); (3393, 3396); (3405, 3405); (3426, 3427); (3457,
   3457); (3530, 3530); (3538, 3540); (3542, 3542); (3633, 3633); (3636,
   3642); (3654, 3662); (3761, 3761); (3764, 3772); (3782, 3782); (3784,
   3789); (3864, 3865); (3893, 3893); (3895, 3895); (3897, 3897); (3953,
   3966); (3968, 3972); (3974, 3975); (3981, 3991); (3993, 4028); (4038,
   4038); (4141, 4144); (4146, 4151); (4153, 4154); (4157, 4158); (4184,
   4185); (4190, 4192); (4209, 4212); (4226, 4226); (4229, 4230); (4237,
   4237); (4253, 4253); (4348, 4348); (4957, 4959); (5906, 5908); (5938,
   5939); (5970, 5971); (6002, 6003); (6068, 6069); (6071, 6077); (6086,
   6086); (6089, 6099); (6103, 6103); (6109, 6109); (6155, 6159); (6211,
   6211); (6277, 6278); (6313, 6313); (6432, 6434); (6439, 6440); (6450,
   6450); (6457, 6459); (6679, 6680); (6683, 6683); (6742, 6742); (6744,
   6750); (6752, 6752); (6754, 6754); (6757, 6764); (6771, 6780); (6783,
   6783); (6823, 6823); (6832, 6862); (6912, 6915); (6964, 6964); (6966,
   6970); (6972, 6972); (6978, 6978); (7019, 7027); (7040, 7041); (7074,
   7077); (7080, 7081); (7083, 7085); (7142, 7142); (7144, 7145); (7149,
   7149); (7151, 7153); (7212, 7219); (7222, 7223); (7288, 7293); (7376,
   7378); (7380, 7392); (7394, 7400); (7405, 7405); (7412, 7412); (7416,
   7417); (7468, 7530); (7544, 7544); (7579, 7679); (8125, 8125); (8127,
   8129); (8141, 8143); (8157, 8159); (8173, 8175); (8189, 8190); (8203,
   8207); (8216, 8217); (8228, 8228); (8231, 8231); (8234, 8238); (8288,
   8292); (8294, 8303); (8305, 8305); (8319, 8319); (8336, 8348); (8400,
   8432); (11388, 11389); (11503, 11505); (11631, 11631); (11647, 11647);
   (11744, 11775); (11823, 11823); (12293, 12293); (12330, 12333); (12337,
   12341); (12347, 12347); (12441, 12446); (12540, 12542); (40981, 40981);
   (42232, 42237); (42508, 42508); (42607, 42610); (42612, 42621); (42623,
   42623); (42652, 42655); (42736, 42737); (42752, 42785); (42864, 42864);
   (42888, 42890); (42994, 42996); (43000, 43001); (43010, 43010); (43014,
   43014); (43019, 43019); (43045, 43046); (43052, 43052); (43204, 43205);
   (43232, 43249); (43263, 43263); (43302, 43309); (43335, 43345); (43392,
   43394); (43443, 43443); (43446, 43449); (43452, 43453); (43471, 43471);
   (43493, 43494); (43561, 43566); (43569, 43570); (43573, 43574); (43587,
   43587); (43596, 43596); (43632, 43632); (43644, 43644); (43696, 43696);
   (43698, 43700); (43703, 43704); (43710, 43711); (43713, 43713); (43741,
   43741); (43756, 43757); (43763, 43764); (43766, 43766); (43867, 43871);
   (43881, 43883); (44005, 44005); (44008, 44008); (44013, 44013); (64286,
   64286); (64434, 64450); (65024, 65039); (65043, 65043); (65056, 65071);
   (65106, 65106); (65109, 65109); (65279, 65279); (65287, 65287); (65294,
   65294); (65306, 65306); (65342, 65342); (65344, 65344); (65392, 65392);
   (65438, 65439); (65507, 65507); (65529, 65531); (66045, 66045); (66272,
   66272); (66422, 66426); (67456, 67461); (67463, 67504); (67506, 67514);
   (68097, 68099); (68101, 68102); (68108, 68111); (68152, 68154); (68159,
   68159); (68325, 68326); (68900, 68903); (69291, 69292); (69446, 69456);
   (69506, 69509); (69633, 69633); (69688, 69702); (69744, 69744); (69747,
   69748); (69759, 69761); (69811, 69814); (69817, 69818); (69821, 69821);
   (69826, 69826); (69837, 69837); (69888, 69890); (69927, 69931); (69933,
   69940); (70003, 70003); (70016, 70017); (70070, 70078); (70089, 70092);
   (70095, 70095); (70191, 70193); (70196, 70196); (70198, 70199); (70206,
   70206); (70367, 70367); (70371, 70378); (70400, 70401); (70459, 70460);
   (70464, 70464); (70502, 70508); (70512, 70516); (70712, 70719); (70722,
   70724); (70726, 70726); (70750, 70750); (70835, 70840); (70842, 70842);
   (70847, 70848); (70850, 70851); (71090, 71093); (71100, 71101); (71103,
   71104); (71132, 71133); (71219, 71226); (71229, 71229); (71231, 71232);
   (71339, 71339); (71341, 71341); (71344, 71349); (71351, 71351); (71453,
   71455); (71458, 71461); (71463, 71467); (71727, 71735); (71737, 71738);
   (71995, 71996); (71998, 71998); (72003, 72003); (72148, 72151); (72154,
   72155); (72160, 72160); (72193, 72202); (72243, 72248); (72251, 72254);
   (72263, 72263); (72273, 72278); (72281, 72283); (72330, 72342); (72344,
   72345); (72752, 72758); (72760, 72765); (72767, 72767); (72850, 72871);
   (72874, 72880); (72882, 72883); (72885, 72886); (73009, 73014); (73018,
   73018); (73020, 73021); (73023, 73029); (73031, 73031); (73104, 73105);
   (73109, 73109); (73111, 73111); (73459, 73460); (78896, 78904); (92912,
   92916); (92976, 92982); (92992, 92995); (94031, 94031); (94095, 94111);
   (94176, 94177); (94179, 94180); (110576, 110579); (110581, 110587);
   (110589, 110590); (113821, 113822); (113824, 113827); (118528, 118573);
   (118576, 118598); (119143, 119145); (119155, 119170); (119173, 119179);
   (119210, 119213); (119362, 119364); (121344, 121398); (121403, 121452);
   (121461, 121461); (121476, 121476); (121499, 121503); (121505, 121519);
   (122880, 122886); (122888, 122904); (122907, 122913); (122915, 122916);
   (122918, 122922); (123184, 123197); (123566, 123566); (123628, 123631);
   (125136, 125142); (125252, 125259); (127995, 127999); (917505, 917505);
   (917536, 917631); (917760, 917999)
  ].

Definition isspace (c : char) : bool := in_ranges c whitespace_table.

Fixpoint digit_in (c : char) (t : range_table) : option N :=
  match t with
  | [] => None
  | (lo, hi) :: t' =>
      if (lo <=? c) && (c <=? hi) then Some ((c - lo) mod 10) else digit_in c t'
  end.

Definition decimal_digit (c : char) : option N := digit_in c decimal_digit_table.

Fixpoint lower_in (c : char) (t : list (N * N * N * N)) : char :=
  match t with
  | [] => c
  | (lo, hi, step, target) :: t' =>
      if (lo <=? c) && (c <=? hi) && ((c - lo) mod step =? 0)
      then target + (c - lo) else lower_in c t'
  end.

Definition to_lower (c : char) : char := lower_in c lower_table.
Definition is_cased (c : char) : bool := in_ranges c cased_table.
Definition is_case_ignorable (c : char) : bool := in_ranges c case_ignorable_table.

End Unicode.

(** ** Python strings *)

Module PyStr.
Import Unicode.

Abbreviation pystr := (list char).

(** Decoding of a UTF-8 literal into code points, so that the sources'
    literals can be written as they stand. *)
Fixpoint utf8_go (pending : N) (need : nat) (s : string) : pystr :=
  match s with
  | EmptyString => []
  | String a rest =>
      let b := N_of_ascii a in
      match need with
      | O =>
          if b <? 128 then b :: utf8_go 0 0 rest
          else if b <? 224 then utf8_go (b - 192) 1 rest
          else if b <? 240 then utf8_go (b - 224) 2 rest
          else utf8_go (b - 240) 3 rest
      | S O => (pending * 64 + (b - 128)) :: utf8_go 0 0 rest
      | S n => utf8_go (pending * 64 + (b - 128)) n rest
      end
  end.

Definition u (s : string) : pystr := utf8_go 0 0 s.
Arguments u s%_string.

(** Truthiness of a string: non-empty. *)
Definition nonempty (s : pystr) : bool :=
  match s with [] => false | _ :: _ => true end.

Fixpoint startswith (p s : pystr) : bool :=
  match p, s with
  | [], _ => true
  | _ :: _, [] => false
  | a :: p', b :: s' => (a =? b) && startswith p' s'
  end.

(** [sep in s] *)
Fixpoint contains (sep s : pystr) : bool :=
  startswith sep s ||
  match s with
  | [] => false
  | _ :: s' => contains sep s'
  end.

(** [s.split(sep)] for a non-empty [sep] (Python raises ValueError on an
    empty separator; every separator in the sources is a non-empty literal).
    Occurrences are found left to right and do not overlap: [skip] counts the
    characters of a matched separator still to be passed over. *)
Fixpoint split_go (sep : pystr) (skip : nat) (s : pystr) : list pystr :=
  match s with
  | [] => [[]]
  | c :: s' =>
      match skip with
      | S k => split_go sep k s'
      | O =>
          if startswith sep s then [] :: split_go sep (length sep - 1) s'
          else match split_go sep 0 s' with
               | piece :: pieces => (c :: piece) :: pieces
               | [] => [[c]]
               end
      end
  end.

Definition split (sep s : pystr) : list pystr := split_go sep 0 s.

(** [s.replace(old, new)] for a non-empty [old]. *)
Fixpoint replace_go (old new : pystr) (skip : nat) (s : pystr) : pystr :=
  match s with
  | [] => []
  | c :: s' =>
      match skip with
      | S k => replace_go old new k s'
      | O =>
          if startswith old s then new ++ replace_go old new (length old - 1) s'
          else c :: replace_go old new 0 s'
      end
  end.

Definition replace (old new s : pystr) : pystr := replace_go old new 0 s.

(** [s.strip()] *)
Fixpoint lstrip (s : pystr) : pystr :=
  match s with
  | c :: s' => if isspace c then lstrip s' else s
  | [] => []
  end.

Definition rstrip (s : pystr) : pystr := rev (lstrip (rev s)).
Definition strip (s : pystr) : pystr := rstrip (lstrip s).

(** [sep.join(l)] *)
Fixpoint join (sep : pystr) (l : list pystr) : pystr :=
  match l with
  | [] => []
  | [x] => x
  | x :: l' => x ++ sep ++ join sep l'
  end.

(** [s[:n]] *)
Definition slice_to (n : nat) (s : pystr) : pystr := take n s.

(** [s.lower()]: the simple mapping of each code point, the one special
    casing (U+0130), and the Final_Sigma rule for U+03A3, which looks at the
    neighbours in the original string. *)
Fixpoint skip_ignorable (s : pystr) : pystr :=
  match s with
  | c :: s' => if is_case_ignorable c then skip_ignorable s' else s
  | [] => []
  end.

Definition cased_next (s : pystr) : bool :=
  match skip_ignorable s with
  | c :: _ => is_cased c
  | [] => false
  end.

Definition final_sigma (before after : pystr) : bool :=
  cased_next before && negb (cased_next after).

Definition lower_char (before : pystr) (c : char) (after : pystr) : pystr :=
  if c =? 931 then [if final_sigma before after then 962 else 963]
  else if c =? 304 then [105; 775]
  else [to_lower c].

Fixpoint lower_go (before s : pystr) : pystr :=
  match s with
  | [] => []
  | c :: s' => lower_char before c s' ++ lower_go (c :: before) s'
  end.

Definition lower (s : pystr) : pystr := lower_go [] s.

(** [str(z)] for an integer. *)
Fixpoint digits_go (fuel : nat) (n : N) (acc : pystr) : pystr :=
  match fuel with
  | O => acc
  | S fuel' =>
      let acc' := (48 + n mod 10) :: acc in
      if n <? 10 then acc' else digits_go fuel' (n / 10) acc'
  end.

Definition str_of_N (n : N) : pystr := digits_go (S (N.to_nat (N.log2 n))) n [].

Definition str_of_Z (z : Z) : pystr :=
  match z with
  | Zneg p => 45 :: str_of_N (Npos p)
  | _ => str_of_N (Z.to_N z)
  end.

End PyStr.

(** ** Python floats

    A Python [float] is an IEEE binary64, here a primitive float.  [float(s)]
    and [repr] are written out over exact integer arithmetic. *)

Module PyFloat.
Import Unicode PyStr.
Local Open Scope Z_scope.

(** [float(z)]: the nearest double, ties to even. *)
Definition float_of_Z (z : Z) : float :=
  SF2Prim (binary_normalize prec emax z 0 false).

(** An integer that [float()] refuses with OverflowError ("int too large to
    convert to float"): one whose nearest double would be infinite. *)
Definition int_overflows (z : Z) : bool := PrimFloat.is_infinity (float_of_Z z).

(** The double nearest to [m * 10^e].  For a negative [e] the quotient is
    taken with at least 64 significant bits and a sticky bit below them, so
    the single rounding of [binary_normalize] is the correct one. *)
Definition float_of_decimal (neg : bool) (m : N) (e : Z) : float :=
  let sgn (z : Z) := if neg then - z else z in
  match m with
  | N0 => if neg then PrimFloat.neg_zero else PrimFloat.zero
  | Npos p =>
      if 0 <=? e
      then SF2Prim (binary_normalize prec emax (sgn (Zpos p * 10 ^ e)) 0 false)
      else
        let d := 10 ^ (- e) in
        let k := Z.max 0 (64 + Z.log2 d - Z.log2 (Zpos p)) in
        let n := Zpos p * 2 ^ k in
        let sticky := if n mod d =? 0 then 0 else 1 in
        SF2Prim (binary_normalize prec emax (sgn (2 * (n / d) + sticky)) (- (k + 1)) false)
  end.

(** *** [float(s)] for a string

    CPython first maps every non-ASCII white space to a blank and every
    non-ASCII decimal digit to its ASCII digit (anything else above ASCII can
    no longer parse), strips ASCII white space, removes underscores that
    stand between two digits, and then reads a sign, [inf], [infinity], [nan]
    or a decimal literal that must use up the whole string. *)

Definition to_ascii_form (c : char) : N :=
  (if c <? 127 then c
   else if isspace c then 32
   else match decimal_digit c with
        | Some d => 48 + d
        | None => 63
        end)%N.

Definition ascii_space (c : N) : bool := ((c =? 32) || ((9 <=? c) && (c <=? 13)))%N.
Definition ascii_digit (c : N) : bool := ((48 <=? c) && (c <=? 57))%N.

Fixpoint lstrip_ascii (s : list N) : list N :=
  match s with
  | c :: s' => if ascii_space c then lstrip_ascii s' else s
  | [] => []
  end.

Definition strip_ascii (s : list N) : list N :=
  rev (lstrip_ascii (rev (lstrip_ascii s))).

Fixpoint drop_underscores (prev : N) (s : list N) : option (list N) :=
  match s with
  | [] => if (prev =? 95)%N then None else Some []
  | c :: s' =>
      if (c =? 95)%N
      then (if ascii_digit prev then drop_underscores c s' else None)
      else if (prev =? 95)%N && negb (ascii_digit c) then None
      else cons c <$> drop_underscores c s'
  end.

Definition ascii_lower (c : N) : N :=
  (if (65 <=? c) && (c <=? 90) then c + 32 else c)%N.

(** The rest of [s] after the lower-case literal [lit], matched without
    regard to case. *)
Fixpoint imatch (lit s : list N) : option (list N) :=
  match lit, s with
  | [], _ => Some s
  | _ :: _, [] => None
  | a :: lit', b :: s' => if (a =? ascii_lower b)%N then imatch lit' s' else None
  end.

Definition parse_sign (s : list N) : bool * list N :=
  match s with
  | c :: r => if (c =? 45)%N then (true, r) else if (c =? 43)%N then (false, r) else (false, s)
  | [] => (false, [])
  end.

Fixpoint take_digits (s : list N) : list N * list N :=
  match s with
  | c :: s' =>
      if ascii_digit c
      then let (ds, r) := take_digits s' in ((c - 48)%N :: ds, r)
      else ([], s)
  | [] => ([], [])
  end.

Definition digits_value (ds : list N) : N :=
  fold_left (fun acc d => (acc * 10 + d)%N) ds 0%N.

Definition parse_inf_or_nan (s : list N) : option (float * list N) :=
  let (neg, r) := parse_sign s in
  match imatch (u "inf") r with
  | Some r1 =>
      let r2 := match imatch (u "inity") r1 with Some r2 => r2 | None => r1 end in
      Some (if neg then PrimFloat.neg_infinity else PrimFloat.infinity, r2)
  | None =>
      match imatch (u "nan") r with
      | Some r1 => Some (PrimFloat.nan, r1)
      | None => None
      end
  end.

(** An exponent part, or nothing consumed when no digit follows the [e]. *)
Definition parse_exponent (s : list N) : Z * list N :=
  match s with
  | c :: r =>
      if ((c =? 101) || (c =? 69))%N
      then
        let (neg, r1) := parse_sign r in
        let (ds, r2) := take_digits r1 in
        match ds with
        | [] => (0, s)
        | _ :: _ => let v := Z.of_N (digits_value ds) in ((if neg then - v else v), r2)
        end
      else (0, s)
  | [] => (0, [])
  end.

Definition strtod (s : list N) : option (float * list N) :=
  let (neg, r) := parse_sign s in
  let (ip, r1) := take_digits r in
  let (fp, r2) :=
    match r1 with
    | c :: r' => if (c =? 46)%N then take_digits r' else ([], r1)
    | [] => ([], [])
    end in
  match ip ++ fp with
  | [] => None
  | ds =>
      let (e, r3) := parse_exponent r2 in
      Some (float_of_decimal neg (digits_value ds) (e - Z.of_nat (length fp)), r3)
  end.

(** [float(s)]; [None] stands for ValueError. *)
Definition float_of_str (s : pystr) : option float :=
  match drop_underscores 0%N (strip_ascii (map to_ascii_form s)) with
  | None => None
  | Some t =>
      match (match parse_inf_or_nan t with Some r => Some r | None => strtod t end) with
      | Some (f, []) => Some f
      | _ => None
      end
  end.

(** *** [repr(x)]: the shortest decimal string that reads back as [x] *)

(** [10^k <= m * 2^e] *)
Definition pow10_le (m e k : Z) : bool :=
  10 ^ Z.max 0 k * 2 ^ Z.max 0 (- e) <=? m * 2 ^ Z.max 0 e * 10 ^ Z.max 0 (- k).

(** The largest [k] with [10^k <= m * 2^e], searched downwards from an
    estimate that is never too small by more than two. *)
Definition floor_log10 (m e : Z) : Z :=
  let est := (Z.log2 m + e) * 30103 / 100000 in
  if pow10_le m e (est + 2) then est + 2
  else if pow10_le m e (est + 1) then est + 1
  else if pow10_le m e est then est
  else if pow10_le m e (est - 1) then est - 1
  else est - 2.

(** The [n]-digit decimals just below and just above [m * 2^e]; the first
    [n] at which one of them reads back as [x] gives the digits, and of two
    that do, the nearer one (the even one on a tie). The result [(d, q)]
    stands for [d * 10^q]. *)
Fixpoint shortest (fuel : nat) (n : Z) (x : float) (m e E : Z) : Z * Z :=
  let s := n - 1 - E in
  let P := m * 2 ^ Z.max 0 e * 10 ^ Z.max 0 s in
  let Q := 2 ^ Z.max 0 (- e) * 10 ^ Z.max 0 (- s) in
  let lo := P / Q in
  let r := P mod Q in
  let hi := lo + 1 in
  let reads d := PrimFloat.eqb (float_of_decimal false (Z.to_N d) (- s)) x in
  match fuel with
  | O => (lo, - s)
  | S fuel' =>
      match reads lo, reads hi with
      | true, true =>
          if 2 * r <? Q then (lo, - s)
          else if Q <? 2 * r then (hi, - s)
          else if Z.even lo then (lo, - s) else (hi, - s)
      | true, false => (lo, - s)
      | false, true => (hi, - s)
      | false, false => shortest fuel' (n + 1) x m e E
      end
  end.

Fixpoint strip_zeros (rev_digits : pystr) : pystr :=
  match rev_digits with
  | c :: s' => if (c =? 48)%N then strip_zeros s' else rev_digits
  | [] => []
  end.

Definition zeros (n : Z) : pystr := repeat 48%N (Z.to_nat n).

(** Python's layout of the digits [ds] with the decimal point after the
    first [decpt] of them: scientific when [decpt <= -4] or [decpt > 16]. *)
Definition format_repr (ds : pystr) (decpt : Z) : pystr :=
  let n := Z.of_nat (length ds) in
  if (decpt <=? -4) || (16 <? decpt)
  then
    let ex := decpt - 1 in
    let mant := match ds with
                | [] => []
                | [d] => [d]
                | d :: rest => d :: 46%N :: rest
                end in
    let exs := str_of_Z (Z.abs ex) in
    mant ++ [101%N; if ex <? 0 then 45%N else 43%N]
         ++ (if Z.abs ex <? 10 then 48%N :: exs else exs)
  else if decpt <=? 0 then u "0." ++ zeros (- decpt) ++ ds
  else if n <=? decpt then ds ++ zeros (decpt - n) ++ u ".0"
  else take (Z.to_nat decpt) ds ++ 46%N :: drop (Z.to_nat decpt) ds.

Definition float_repr (x : float) : pystr :=
  match Prim2SF x with
  | S754_nan => u "nan"
  | S754_infinity s => if s then u "-inf" else u "inf"
  | S754_zero s => if s then u "-0.0" else u "0.0"
  | S754_finite s m e =>
      let '(d, q) := shortest 17 1 (PrimFloat.abs x) (Zpos m) e (floor_log10 (Zpos m) e) in
      let all := str_of_Z d in
      let ds := rev (strip_zeros (rev all)) in
      (if s then [45%N] else []) ++ format_repr ds (Z.of_nat (length all) + q)
  end.

End PyFloat.

(** ** Python values, exceptions and insertion-ordered dictionaries *)

Module Py.
Import Unicode PyStr PyFloat.

Inductive exn :=
| ValueError
| TypeError
| AttributeError
| KeyError
| UnboundLocalError
| OSError
| OverflowError.

(** The outcome of a computation that may raise. *)
Inductive res (A : Type) :=
| Ok (a : A)
| Raise (e : exn).
Arguments Ok {A} a.
Arguments Raise {A} e.

#[export] Instance res_ret : MRet res := fun _ a => Ok a.
#[export] Instance res_bind : MBind res := fun _ _ f m =>
  match m with
  | Ok a => f a
  | Raise e => Raise e
  end.

(** Values as JSON carries them into the web layer, and as the cells of the
    exported tables. Dictionary keys are strings. *)
#[warnings="-register-all"]
Inductive pyval :=
| VNone
| VBool (b : bool)
| VInt (z : Z)
| VFloat (f : float)
| VStr (s : pystr)
| VList (l : list pyval)
| VDict (d : list (string * pyval)).

(** Truthiness, as [if v], [not v] and [v or w] read it. *)
Definition truthy (v : pyval) : bool :=
  match v with
  | VNone => false
  | VBool b => b
  | VInt z => negb (z =? 0)%Z
  | VFloat f => negb (PrimFloat.eqb f PrimFloat.zero)
  | VStr s => nonempty s
  | VList l => match l with [] => false | _ => true end
  | VDict d => match d with [] => false | _ => true end
  end.

(** [v or w] *)
Definition py_or (v w : pyval) : pyval := if truthy v then v else w.

(** A JSON object, read only through [get]. *)
Abbreviation pydict := (gmap string pyval).

(** [d.get(k)] and [d.get(k, default)] *)
Definition get (d : pydict) (k : string) : pyval := default VNone (d !! k).
Definition get_or (d : pydict) (k : string) (dflt : pyval) : pyval := default dflt (d !! k).

(** *** Insertion-ordered dictionaries with string keys

    A [dict] iterates in the order in which its keys were first inserted;
    assigning to an existing key keeps the key's place. *)
Abbreviation odict V := (list (pystr * V)).

Section Odict.
Context {V : Type}.

Definition keys (d : odict V) : list pystr := d.*1.

(** [k in d] *)
Fixpoint od_mem (k : pystr) (d : odict V) : bool :=
  match d with
  | [] => false
  | (k', _) :: d' => if decide (k = k') then true else od_mem k d'
  end.

(** [d[k]] as an option; the caller raises KeyError on [None]. *)
Fixpoint od_get (k : pystr) (d : odict V) : option V :=
  match d with
  | [] => None
  | (k', v) :: d' => if decide (k = k') then Some v else od_get k d'
  end.

(** [d[k] = v] *)
Fixpoint od_set (k : pystr) (v : V) (d : odict V) : odict V :=
  match d with
  | [] => [(k, v)]
  | (k', v') :: d' =>
      if decide (k = k') then (k', v) :: d' else (k', v') :: od_set k v d'
  end.

(** In-place mutation of the object stored under [k]. *)
Fixpoint od_alter (f : V → V) (k : pystr) (d : odict V) : odict V :=
  match d with
  | [] => []
  | (k', v') :: d' =>
      if decide (k = k') then (k', f v') :: d' else (k', v') :: od_alter f k d'
  end.
(** [d.setdefault(k, v)] without its result: the pattern
    [if k not in d: d[k] = v]. *)
Definition od_setdefault (k : pystr) (v : V) (d : odict V) : odict V :=
  if od_mem k d then d else od_set k v d.
End Odict.

(** A value used as a key of such a dictionary, on the paths where a new key
    is at once asked for [.lower()]: no dictionary there ever holds a key
    that is not a string, so a hashable value of another type is found
    absent and fails on [.lower()], and an unhashable one fails on the
    membership test. *)
Definition as_str_key (v : pyval) : res pystr :=
  match v with
  | VStr s => Ok s
  | VList _ | VDict _ => Raise TypeError
  | VNone | VBool _ | VInt _ | VFloat _ => Raise AttributeError
  end.

(** *** The grouping loops

    Every aggregation loop of the sources has the same body: create the
    aggregate of the key when the key is new, then append to the list of the
    aggregate stored under the key. *)
Section Grouping.
Context {V X A : Type} (fresh : pystr → V) (push : X → V → V).

Definition group_step (d : odict V) (kx : pystr * X) : odict V :=
  od_alter (push kx.2) kx.1 (od_setdefault kx.1 (fresh kx.1) d).

(** A [for] loop whose body may raise. *)
Fixpoint for_each {S B : Type} (body : S → B → res S) (s : S) (l : list B) : res S :=
  match l with
  | [] => Ok s
  | b :: l' => s' ← body s b; for_each body s' l'
  end.

(** The body that first works out the key and the item, which may raise. *)
Definition classified_step (classify : A → res (pystr * X)) (d : odict V) (a : A)
    : res (odict V) :=
  kx ← classify a; mret (group_step d kx).
End Grouping.

(** *** Site map entries, built alike by the web layer and by the agent *)
Record sitemap_entry := {
  url : pystr;
  changefreq : pystr;
  priority : pystr
}.

Definition bootstrap_entries : list sitemap_entry :=
  [ {| url := u "/"; changefreq := u "daily"; priority := u "1.0" |};
    {| url := u "/products"; changefreq := u "daily"; priority := u "0.9" |};
    {| url := u "/brands"; changefreq := u "weekly"; priority := u "0.8" |};
    {| url := u "/categories"; changefreq := u "weekly"; priority := u "0.8" |} ].

Section Sitemap.
Context {V : Type} (slug_of : V → pystr).

(** [for key in d.keys(): sitemap.append({"url": f"{prefix}{d[key]['slug']}", ...})] *)
Fixpoint append_entries (prefix : pystr) (d : odict V) (ks : list pystr)
    (sitemap : list sitemap_entry) : res (list sitemap_entry) :=
  match ks with
  | [] => Ok sitemap
  | k :: ks' =>
      match od_get k d with
      | Some v =>
          append_entries prefix d ks'
            (sitemap ++ [ {| url := prefix ++ slug_of v;
                             changefreq := u "weekly";
                             priority := u "0.7" |} ])
      | None => Raise KeyError
      end
  end.

(** The "Generate sitemap" block. *)
Definition build_sitemap (brands categories : odict V) : res (list sitemap_entry) :=
  sitemap ← append_entries (u "/brand/") brands (keys brands) bootstrap_entries;
  append_entries (u "/category/") categories (keys categories) sitemap.
End Sitemap.

End Py.

(** ** backend/beauty_product_manager.py *)

Module Manager.
Import Unicode PyStr PyFloat Py.

(** A scalar as [pandas] hands it out of a row: a [str] of an object
    column, an integer, a double (NaN for a missing cell) or a
    boolean. *)
Inductive cell :=
| CStr (s : pystr)
| CInt (z : Z)
| CFloat (f : float)
| CBool (b : bool).

(** A row of the data frame, by column name. *)
Abbreviation row := (gmap string cell).

(** [row.get(column, default)] *)
Definition row_get (r : row) (column : string) (dflt : cell) : cell :=
  default dflt (r !! column).

Definition cell_truthy (c : cell) : bool :=
  match c with
  | CStr s => nonempty s
  | CInt z => negb (z =? 0)%Z
  | CFloat f => negb (PrimFloat.eqb f PrimFloat.zero)
  | CBool b => b
  end.

(** [str(c)] *)
Definition str_of_cell (c : cell) : pystr :=
  match c with
  | CStr s => s
  | CInt z => str_of_Z z
  | CFloat f => float_repr f
  | CBool b => if b then u "True" else u "False"
  end.

(** [float(c)]: ValueError for a string that does not parse, OverflowError
    for an integer beyond the range of a double. *)
Definition float_of_cell (c : cell) : res float :=
  match c with
  | CStr s =>
      match float_of_str s with
      | Some f => Ok f
      | None => Raise ValueError
      end
  | CInt z => if int_overflows z then Raise OverflowError else Ok (float_of_Z z)
  | CFloat f => Ok f
  | CBool b => Ok (float_of_Z (if b then 1 else 0))
  end.

Record Product := {
  id : pystr;
  name : pystr;
  brand : pystr;
  category : pystr;
  price : float;
  description : pystr;
  sku : pystr;
  skin_types : list pystr;
  ingredients : list pystr;
  usage : pystr;
  image_urls : option (list pystr);
  seo_content : option (gmap string pyval);
  enhanced_description : option pystr
}.

(** [[s.strip() for s in raw.split(sep) if s.strip()]] *)
Definition split_strip (sep raw : pystr) : list pystr :=
  omap (fun s => if nonempty (strip s) then Some (strip s) else None) (split sep raw).

(** The loop over [separators] with its early return, and the line after
    the loop. *)
Fixpoint split_on_first (separators : list pystr) (raw : pystr) : list pystr :=
  match separators with
  | sep :: rest =>
      if contains sep raw then split_strip sep raw else split_on_first rest raw
  | [] => if nonempty (strip raw) then [strip raw] else []
  end.

Definition skin_type_separators : list pystr :=
  [u ","; u ";"; u "|"; u "،"].

Definition ingredient_separators : list pystr :=
  [u ","; u ";"; u "|"; u "،"; u " | "].

(** [sep in raw] raises TypeError when [raw] is not a string, which is the
    case of a truthy number or of NaN. *)
Definition parse_skin_types (skin_types_str : cell) : res (list pystr) :=
  if negb (cell_truthy skin_types_str) then Ok []
  else match skin_types_str with
       | CStr s => Ok (split_on_first skin_type_separators s)
       | _ => Raise TypeError
       end.

Definition parse_ingredients (ingredients_str : cell) : res (list pystr) :=
  if negb (cell_truthy ingredients_str) then Ok []
  else match ingredients_str with
       | CStr s => Ok (split_on_first ingredient_separators s)
       | _ => Raise TypeError
       end.

(** The [Product(...)] call of [load_csv]; its arguments are evaluated in
    the order written, so that a bad price raises before a bad list field. *)
Definition make_product (r : row) : res Product :=
  let id_ := str_of_cell (row_get r "ID" (CStr [])) in
  let name_ := str_of_cell (row_get r "Name" (CStr [])) in
  let brand_ :=
    str_of_cell (row_get r "Meta: _livora_brand_name" (row_get r "Brand" (CStr []))) in
  let category_ := str_of_cell (row_get r "Categories" (CStr [])) in
  price_ ← float_of_cell (row_get r "Regular price" (CInt 0));
  let description_ := str_of_cell (row_get r "Description" (CStr [])) in
  let sku_ := str_of_cell (row_get r "SKU" (CStr [])) in
  skin_types_ ← parse_skin_types (row_get r "Meta: _livora_skin_type" (CStr []));
  ingredients_ ← parse_ingredients (row_get r "Meta: ingredients" (CStr []));
  let usage_ := str_of_cell (row_get r "Meta: usage_instructions" (CStr [])) in
  mret {| id := id_; name := name_; brand := brand_; category := category_;
          price := price_; description := description_; sku := sku_;
          skin_types := skin_types_; ingredients := ingredients_; usage := usage_;
          image_urls := None; seo_content := None; enhanced_description := None |}.

(** The [for _, row in df.iterrows()] loop. *)
Fixpoint make_products (rows : list row) : res (list Product) :=
  match rows with
  | [] => Ok []
  | r :: rows' =>
      product ← make_product r;
      products ← make_products rows';
      mret (product :: products)
  end.

(** What [pd.read_csv] did with the file: it raised, or it gave a frame. *)
Inductive read_csv_result :=
| ReadRaises (e : exn)
| DataFrame (rows : list row).

(** The manager's mutable state that [load_csv] touches. *)
Record manager := {
  products : list Product;
  processed_products : list Product
}.

(** [BeautyProductManager.__init__] *)
Definition init : manager := {| products := []; processed_products := [] |}.

(** [load_csv]: the returned list and the manager afterwards. Whatever is
    raised inside the [try] is logged and answered with the empty list, the
    manager left as it was. *)
Definition load_csv (self : manager) (file : read_csv_result) : list Product * manager :=
  let body :=
    match file with
    | ReadRaises e => Raise e
    | DataFrame rows => make_products rows
    end in
  match body with
  | Ok loaded =>
      (loaded, {| products := loaded; processed_products := processed_products self |})
  | Raise _ => ([], self)
  end.

(** *** [export_to_csv] *)

Definition woocommerce_headers : list pystr :=
    [u "ID"; u "Type"; u "SKU"; u "Name"; u "Published"; u "Is featured?";
     u "Visibility in catalog"; u "Short description"; u "Description";
     u "Tax status"; u "In stock?"; u "Stock"; u "Regular price"; u "Categories";
     u "Tags"; u "Images"; u "Meta: _yoast_wpseo_title";
     u "Meta: _yoast_wpseo_metadesc"; u "Meta: _yoast_wpseo_focuskw"].

Definition enhanced_headers : list pystr :=
    [u "ID"; u "SKU"; u "Name"; u "Brand"; u "Category"; u "Price";
     u "Original Description"; u "Enhanced Description"; u "SEO Title";
     u "SEO Description"; u "Keywords"; u "Image URLs"].

(** [product.seo_content] when it is truthy: set and not the empty dict. *)
Definition seo_if_set (product : Product) : option (gmap string pyval) :=
  match seo_content product with
  | Some seo => if Nat.eqb (size seo) 0 then None else Some seo
  | None => None
  end.

(** [product.seo_content.get(key, '') if product.seo_content else ''] *)
Definition seo_get (product : Product) (key : string) : pyval :=
  match seo_if_set product with
  | Some seo => get_or seo key (VStr [])
  | None => VStr []
  end.

(** [product.seo_content.get('keywords', '').split(',')[0] if product.seo_content else ''] *)
Definition seo_focus_keyword (product : Product) : res pyval :=
  match seo_if_set product with
  | Some seo =>
      match get_or seo "keywords" (VStr []) with
      | VStr keywords => Ok (VStr (hd [] (split (u ",") keywords)))
      | _ => Raise AttributeError
      end
  | None => Ok (VStr [])
  end.

(** [product.enhanced_description or product.description] *)
Definition description_or_enhanced (product : Product) : pystr :=
  match enhanced_description product with
  | Some enhanced => if nonempty enhanced then enhanced else description product
  | None => description product
  end.

(** [';'.join(product.image_urls or [])] *)
Definition joined_images (product : Product) : pystr :=
  join (u ";") (default [] (image_urls product)).

Definition woocommerce_row (i : Z) (product : Product) : res (list pyval) :=
  focus ← seo_focus_keyword product;
  mret [ VInt i;
         VStr (u "simple");
         VStr (sku product);
         VStr (name product);
         VInt 1;
         VInt 0;
         VStr (u "visible");
         VStr (slice_to 200 (description product));
         VStr (description_or_enhanced product);
         VStr (u "taxable");
         VInt 1;
         VInt 10;
         VFloat (price product);
         VStr (category product);
         VStr [];
         VStr (joined_images product);
         seo_get product "meta_title";
         seo_get product "meta_description";
         focus ].

Definition enhanced_row (i : Z) (product : Product) : res (list pyval) :=
  mret [ VInt i;
         VStr (sku product);
         VStr (name product);
         VStr (brand product);
         VStr (category product);
         VFloat (price product);
         VStr (description product);
         VStr (match enhanced_description product with
               | Some enhanced => if nonempty enhanced then enhanced else []
               | None => []
               end);
         seo_get product "meta_title";
         seo_get product "meta_description";
         seo_get product "keywords";
         VStr (joined_images product) ].

(** [for i, product in enumerate(products, i): writer.writerow(row)] *)
Fixpoint write_rows (make_row : Z → Product → res (list pyval)) (i : Z)
    (products : list Product) : res (list (list pyval)) :=
  match products with
  | [] => Ok []
  | product :: products' =>
      r ← make_row i product;
      rows ← write_rows make_row (i + 1) products';
      mret (r :: rows)
  end.

(** The rows written to the file, header first. For a [format] that is
    neither of the two, no branch binds [filename] and the [return] raises. *)
Definition export_to_csv (products : list Product) (format : pystr)
    : res (list (list pyval)) :=
  if decide (format = u "woocommerce") then
    rows ← write_rows woocommerce_row 1 products;
    mret ((VStr <$> woocommerce_headers) :: rows)
  else if decide (format = u "enhanced") then
    rows ← write_rows enhanced_row 1 products;
    mret ((VStr <$> enhanced_headers) :: rows)
  else Raise UnboundLocalError.

(** *** [generate_brand_pages] *)

(** A brand page. The [categories] are collected in a set, whose order as
    a list Python leaves open. *)
Record brand_page := {
  page_name : pystr;
  page_products : list Product;
  page_categories : gset pystr;
  about : pystr;
  philosophy : pystr;
  products_count : nat
}.

Definition new_brand_page (brand : pystr) : brand_page :=
  {| page_name := brand;
     page_products := [];
     page_categories := ∅;
     about := u "About " ++ brand;
     philosophy := brand ++ u " philosophy";
     products_count := 0 |}.

Definition add_product (product : Product) (page : brand_page) : brand_page :=
  {| page_name := page_name page;
     page_products := page_products page ++ [product];
     page_categories := page_categories page ∪ {[ category product ]};
     about := about page;
     philosophy := philosophy page;
     products_count := products_count page |}.

(** The body of [for product in products]. *)
Definition brand_pages_step (brands : odict brand_page) (product : Product)
    : odict brand_page :=
  od_alter (add_product product) (brand product)
    (od_setdefault (brand product) (new_brand_page (brand product)) brands).

(** The body of [for brand_data in brands.values()]. *)
Definition count_products (page : brand_page) : brand_page :=
  {| page_name := page_name page;
     page_products := page_products page;
     page_categories := page_categories page;
     about := about page;
     philosophy := philosophy page;
     products_count := length (page_products page) |}.

Definition generate_brand_pages (products : list Product) : odict brand_page :=
  prod_map Datatypes.id count_products <$> fold_left brand_pages_step products [].

(** *** [run_full_pipeline]

    The steps after the guard (enhancement, export, competitor fetch) are
    taken as [continue]. *)
Definition run_full_pipeline {R : Type} (continue : manager → list Product → R)
    (self : manager) (file : read_csv_result) : (pystr + R) * manager :=
  let '(loaded, self') := load_csv self file in
  match loaded with
  | [] => (inl (u "No products loaded"), self')
  | _ :: _ => (inr (continue self' loaded), self')
  end.

End Manager.

(** ** backend/main.py: [generate_json_pages] *)

Module Main.
Import Unicode PyStr PyFloat Py.

Record meta := {
  title : pystr;
  meta_description : pystr;
  keywords : pystr
}.

(** An entry of [json_pages["brands"]] or [json_pages["categories"]]; the
    items of [products] are the dictionaries built in the loop. *)
Record aggregate := {
  name : pystr;
  slug : pystr;
  products : list pyval;
  description : pystr;
  page_meta : meta
}.

(** [brand.lower().replace(' ', '-').replace("'", '')] *)
Definition brand_slug (brand : pystr) : pystr :=
  replace (u "'") [] (replace (u " ") (u "-") (lower brand)).

(** [category.lower().replace(' ', '-')] *)
Definition category_slug (category : pystr) : pystr :=
  replace (u " ") (u "-") (lower category).

Definition new_brand (brand : pystr) : aggregate :=
  {| name := brand;
     slug := brand_slug brand;
     products := [];
     description := u "Premium " ++ brand ++ u " products at Livora";
     page_meta :=
       {| title := brand ++ u " Products - Livora";
          meta_description :=
            u "Shop authentic " ++ brand ++ u " products with best price guarantee";
          keywords := brand ++ u ", " ++ lower brand ++ u " products, buy " ++ brand |} |}.

Definition new_category (category : pystr) : aggregate :=
  {| name := category;
     slug := category_slug category;
     products := [];
     description := u "Browse " ++ category ++ u " products at Livora";
     page_meta :=
       {| title := category ++ u " Products - Livora";
          meta_description :=
            u "Shop premium " ++ category ++ u " products with authentic brands";
          keywords :=
            category ++ u ", " ++ lower category ++ u " products, buy " ++ category |} |}.

Definition append_item (item : pyval) (a : aggregate) : aggregate :=
  {| name := name a;
     slug := slug a;
     products := products a ++ [item];
     description := description a;
     page_meta := page_meta a |}.

(** [product.get('Meta: _livora_brand_name') or product.get('Brand', 'Unknown')] *)
Definition resolve_brand (product : pydict) : pyval :=
  py_or (get product "Meta: _livora_brand_name")
        (get_or product "Brand" (VStr (u "Unknown"))).

(** [product.get(key, '').split(sep) if product.get(key) else []] *)
Definition split_field (product : pydict) (key : string) (sep : pystr) : res pyval :=
  if truthy (get product key) then
    match get_or product key (VStr []) with
    | VStr s => Ok (VList (VStr <$> split sep s))
    | _ => Raise AttributeError
    end
  else Ok (VList []).

Definition brand_item (product : pydict) : res pyval :=
  skin_types ← split_field product "Meta: _livora_skin_type" (u ",");
  ingredients ← split_field product "Meta: ingredients" (u "|");
  mret (VDict [ ("id", get product "ID");
                ("name", get product "Name");
                ("sku", get product "SKU");
                ("price", get product "Regular price");
                ("description", get product "Short description");
                ("image", get product "Images");
                ("category", get product "Categories");
                ("skin_types", skin_types);
                ("ingredients", ingredients) ]%string).

Definition category_item (product : pydict) : pyval :=
  VDict [ ("id", get product "ID");
          ("name", get product "Name");
          ("sku", get product "SKU");
          ("price", get product "Regular price");
          ("brand", py_or (get product "Meta: _livora_brand_name") (get product "Brand"));
          ("image", get product "Images");
          ("description", get product "Short description") ]%string.

(** The body of the loop under "Organize by brands". *)
Definition brands_step (brands : odict aggregate) (product : pydict)
    : res (odict aggregate) :=
  brand ← as_str_key (resolve_brand product);
  let brands' := od_setdefault brand (new_brand brand) brands in
  item ← brand_item product;
  mret (od_alter (append_item item) brand brands').

(** The body of the loop under "Organize by categories". *)
Definition categories_step (categories : odict aggregate) (product : pydict)
    : res (odict aggregate) :=
  category ← as_str_key (get_or product "Categories" (VStr (u "Unknown")));
  let categories' := od_setdefault category (new_category category) categories in
  mret (od_alter (append_item (category_item product)) category categories').

(** The documents of [json_pages] that depend on the input (the static
    [pages] block and the time stamp are left out). *)
Record json_pages := {
  all_products : list pydict;
  brands : odict aggregate;
  categories : odict aggregate;
  sitemap : list sitemap_entry
}.

Definition generate_json_pages (products : list pydict) : res json_pages :=
  brands_ ← for_each brands_step [] products;
  categories_ ← for_each categories_step [] products;
  sitemap_ ← build_sitemap slug brands_ categories_;
  mret {| all_products := products;
          brands := brands_;
          categories := categories_;
          sitemap := sitemap_ |}.

End Main.

(** ** backend/agents/__init__.py: [DeveloperAgent._generate_json_pages] *)

Module Agents.
Import Unicode PyStr PyFloat Py.

Record meta := {
  title : pystr;
  meta_description : pystr
}.

(** The products here are the dictionaries handed in, kept as they are. *)
Record aggregate := {
  name : pystr;
  slug : pystr;
  products : list pydict;
  description : pystr;
  page_meta : meta
}.

(** [x.lower().replace(' ', '-')], for brands and categories alike. *)
Definition slug_of_name (x : pystr) : pystr :=
  replace (u " ") (u "-") (lower x).

Definition new_brand (brand : pystr) : aggregate :=
  {| name := brand;
     slug := slug_of_name brand;
     products := [];
     description := u "Products from " ++ brand;
     page_meta :=
       {| title := brand ++ u " Products - Livora";
          meta_description := u "Browse " ++ brand ++ u " products at Livora" |} |}.

Definition new_category (category : pystr) : aggregate :=
  {| name := category;
     slug := slug_of_name category;
     products := [];
     description := u "Browse " ++ category ++ u " products";
     page_meta :=
       {| title := category ++ u " Products - Livora";
          meta_description := u "Browse " ++ category ++ u " products at Livora" |} |}.

Definition append_product (product : pydict) (a : aggregate) : aggregate :=
  {| name := name a;
     slug := slug a;
     products := products a ++ [product];
     description := description a;
     page_meta := page_meta a |}.

(** [product.get('brand', 'Unknown')] and [product.get('category', 'Unknown')] *)
Definition brand_of (product : pydict) : pyval := get_or product "brand" (VStr (u "Unknown")).
Definition category_of (product : pydict) : pyval := get_or product "category" (VStr (u "Unknown")).

Definition brands_step (brands : odict aggregate) (product : pydict)
    : res (odict aggregate) :=
  brand ← as_str_key (brand_of product);
  mret (od_alter (append_product product) brand
          (od_setdefault brand (new_brand brand) brands)).

Definition categories_step (categories : odict aggregate) (product : pydict)
    : res (odict aggregate) :=
  category ← as_str_key (category_of product);
  mret (od_alter (append_product product) category
          (od_setdefault category (new_category category) categories)).

Record json_pages := {
  all_products : list pydict;
  brands : odict aggregate;
  categories : odict aggregate;
  sitemap : list sitemap_entry
}.

Definition _generate_json_pages (products : list pydict) : res json_pages :=
  brands_ ← for_each brands_step [] products;
  categories_ ← for_each categories_step [] products;
  sitemap_ ← build_sitemap slug brands_ categories_;
  mret {| all_products := products;
          brands := brands_;
          categories := categories_;
          sitemap := sitemap_ |}.

End Agents.

(** ** The vocabulary of the statements

    The derivations as the specification words them (list-field parsing,
    slugs, first-seen order, the site map, the commerce row of a plain
    product), and the conditions under which the theorems are stated. *)

Module Spec.
Import Unicode PyStr PyFloat Py.

(** Test the delimiters in their fixed priority order, pick the first one
    that occurs anywhere in the string and split on it; trim white space
    from each piece; drop empty pieces. If the string contains none of the
    delimiters, the entire trimmed string becomes a single-element list, or
    an empty list if the trimmed string is empty. *)
Definition first_delimiter (delimiters : list pystr) (raw : pystr) : option pystr :=
  List.find (fun d => contains d raw) delimiters.

Definition parse_list (delimiters : list pystr) (raw : pystr) : list pystr :=
  match first_delimiter delimiters raw with
  | Some d => filter (fun piece => piece ≠ []) (strip <$> split d raw)
  | None => if decide (strip raw = []) then [] else [strip raw]
  end.

Definition comma : pystr := [44].
Definition semicolon : pystr := [59].
Definition pipe : pystr := [124].
Definition persian_comma : pystr := [1548].
Definition padded_pipe : pystr := [32; 124; 32].

(** The name in lower case, every space replaced by a hyphen, every
    apostrophe removed. *)
Definition slug (name : pystr) : pystr :=
  replace [39] [] (replace [32] [45] (lower name)).

(** Keys in the order of their first appearance. *)
Fixpoint first_seen (l : list pystr) : list pystr :=
  match l with
  | [] => []
  | k :: l' => k :: filter (fun k' => k' ≠ k) (first_seen l')
  end.

(** The number of occurrences of a character. *)
Definition count_char (c : char) (s : pystr) : nat :=
  length (filter (fun x => x = c) s).

(** The commerce-schema row of a product that carries no enrichment: the
    fixed literals (Type simple, Published 1, Is featured? 0, Visibility
    visible, Tax status taxable, In stock? 1, Stock 10), the short
    description as the first 200 characters of the description, the
    description as it is, and the images and the three SEO columns empty. *)
Definition plain_commerce_row (i : Z) (product : Manager.Product) : list pyval :=
  [ VInt i; VStr (u "simple"); VStr (Manager.sku product); VStr (Manager.name product);
    VInt 1; VInt 0; VStr (u "visible");
    VStr (take 200 (Manager.description product));
    VStr (Manager.description product);
    VStr (u "taxable"); VInt 1; VInt 10;
    VFloat (Manager.price product); VStr (Manager.category product);
    VStr []; VStr []; VStr []; VStr []; VStr [] ].

(** The cell of a table row under the named column. *)
Fixpoint column (headers : list pystr) (cells : list pyval) (name : pystr)
    : option pyval :=
  match headers, cells with
  | h :: headers', c :: cells' =>
      if decide (h = name) then Some c else column headers' cells' name
  | _, _ => None
  end.

(** The four bootstrap entries, then one weekly entry of priority 0.7 per
    brand slug, then one per category slug. *)
Definition weekly_entry (prefix slug : pystr) : sitemap_entry :=
  {| url := prefix ++ slug; changefreq := u "weekly"; priority := u "0.7" |}.

Definition sitemap (brand_slugs category_slugs : list pystr) : list sitemap_entry :=
  [ {| url := u "/"; changefreq := u "daily"; priority := u "1.0" |};
    {| url := u "/products"; changefreq := u "daily"; priority := u "0.9" |};
    {| url := u "/brands"; changefreq := u "weekly"; priority := u "0.8" |};
    {| url := u "/categories"; changefreq := u "weekly"; priority := u "0.8" |} ]
  ++ (weekly_entry (u "/brand/") <$> brand_slugs)
  ++ (weekly_entry (u "/category/") <$> category_slugs).

(** The string held by a value, when it is one. *)
Definition str_key (v : pyval) : option pystr :=
  match v with
  | VStr s => Some s
  | _ => None
  end.

(** An input [a] with its key, when it has one. *)
Definition keyed_by {A : Type} (key : A → option pystr) (a : A) (kx : pystr * A) : Prop :=
  key a = Some kx.1 ∧ kx.2 = a.

(** A product without enrichment. *)
Definition no_enrichment (product : Manager.Product) : Prop :=
  Manager.enhanced_description product = None
  ∧ Manager.seo_content product = None
  ∧ Manager.image_urls product = None.

(** A list-field cell that [parse_skin_types] and [parse_ingredients]
    take without raising: a falsy value or a string. *)
Definition list_cell_ok (c : Manager.cell) : bool :=
  negb (Manager.cell_truthy c) || match c with Manager.CStr _ => true | _ => false end.

(** A price cell that [float()] takes: a string that parses, an integer
    within the range of a double, a double or a boolean. *)
Definition price_cell_ok (c : Manager.cell) : bool :=
  match c with
  | Manager.CStr s => match float_of_str s with Some _ => true | None => false end
  | Manager.CInt z => negb (int_overflows z)
  | Manager.CFloat _ | Manager.CBool _ => true
  end.

(** The rows for which the [Product(...)] call goes through. *)
Definition row_constructs (r : Manager.row) : bool :=
  price_cell_ok (Manager.row_get r "Regular price" (Manager.CInt 0))
  && list_cell_ok (Manager.row_get r "Meta: _livora_skin_type" (Manager.CStr []))
  && list_cell_ok (Manager.row_get r "Meta: ingredients" (Manager.CStr [])).

End Spec.

(** ** Readings used in the proofs *)

Module Invariants.
Import Unicode PyStr Py.

Section Grouped.
Context {V X L : Type} (fresh : pystr → V) (items : V → list X) (label : V → L).

(** What a dictionary holds after the keyed items [done] were taken in:
    its keys are those of [done] in first-seen order, and the aggregate
    under a key lists the items of that key and keeps the label it was
    created with. *)
Definition grouped (d : odict V) (done : list (pystr * X)) : Prop :=
  keys d = Spec.first_seen done.*1
  ∧ ∀ k v, od_get k d = Some v →
      items v = (filter (fun kx => kx.1 = k) done).*2 ∧ label v = label (fresh k).
End Grouped.

(** The key and the item that a loop body works out before it touches the
    dictionary, for the agent and for the web layer. *)
Definition classify_brand (product : pydict) : res (pystr * pydict) :=
  brand ← as_str_key (Agents.brand_of product); mret (brand, product).

Definition classify_category (product : pydict) : res (pystr * pydict) :=
  category ← as_str_key (Agents.category_of product); mret (category, product).

Definition classify_brand_item (product : pydict) : res (pystr * pyval) :=
  brand ← as_str_key (Main.resolve_brand product);
  item ← Main.brand_item product;
  mret (brand, item).

Definition classify_category_item (product : pydict) : res (pystr * pyval) :=
  category ← as_str_key (get_or product "Categories" (VStr (u "Unknown")));
  mret (category, Main.category_item product).

End Invariants.

(** ** Concrete inputs *)

Module Examples.
Import Unicode PyStr Py.

(** Rows of a frame with the columns Name, Brand, Regular price and
    Meta: _livora_skin_type. *)
Definition row_cream : Manager.row :=
  {[ "Name" := Manager.CStr (u "Cream");
     "Brand" := Manager.CStr (u "Acme");
     "Regular price" := Manager.CFloat 12.5;
     "Meta: _livora_skin_type" := Manager.CStr (u "dry, oily") ]}.

Definition row_serum : Manager.row :=
  {[ "Name" := Manager.CStr (u "Serum");
     "Brand" := Manager.CStr (u "Zed");
     "Regular price" := Manager.CFloat 30;
     "Meta: _livora_skin_type" := Manager.CStr (u "normal") ]}.

(** The same row with its skin-type cell left empty in the file: [pandas]
    reads an empty cell as NaN. *)
Definition row_serum_empty_skin_type : Manager.row :=
  {[ "Name" := Manager.CStr (u "Serum");
     "Brand" := Manager.CStr (u "Zed");
     "Regular price" := Manager.CFloat 30;
     "Meta: _livora_skin_type" := Manager.CFloat PrimFloat.nan ]}.

(** Rows of a frame whose price column holds text. *)
Definition row_price_text : Manager.row :=
  {[ "Name" := Manager.CStr (u "Cream");
     "Brand" := Manager.CStr (u "Acme");
     "Regular price" := Manager.CStr (u "10 USD") ]}.

Definition row_price_digits : Manager.row :=
  {[ "Name" := Manager.CStr (u "Serum");
     "Brand" := Manager.CStr (u "Zed");
     "Regular price" := Manager.CStr (u "30") ]}.

(** An empty price cell, or one that reads N/A, comes out of [pandas] as
    NaN. *)
Definition row_price_nan : Manager.row :=
  {[ "Name" := Manager.CStr (u "Cream");
     "Brand" := Manager.CStr (u "Acme");
     "Regular price" := Manager.CFloat PrimFloat.nan ]}.

(** A row of a frame that has neither a price nor a brand column. *)
Definition row_name_only : Manager.row :=
  {[ "Name" := Manager.CStr (u "Cream") ]}.

Definition product_of (brand_ category_ name_ : pystr) : Manager.Product :=
  {| Manager.id := []; Manager.name := name_; Manager.brand := brand_;
     Manager.category := category_; Manager.price := 10;
     Manager.description := u "A plain description"; Manager.sku := name_;
     Manager.skin_types := []; Manager.ingredients := []; Manager.usage := [];
     Manager.image_urls := None; Manager.seo_content := None;
     Manager.enhanced_description := None |}.

Definition three_products : list Manager.Product :=
  [ product_of (u "Acme") (u "Skin") (u "one");
    product_of (u "Zed") (u "Skin") (u "two");
    product_of (u "Acme") (u "Hair") (u "three") ].

Definition dict_of (brand_ category_ name_ : pystr) : pydict :=
  {[ "brand" := VStr brand_; "category" := VStr category_; "name" := VStr name_ ]}.

Definition three_dicts : list pydict :=
  [ dict_of (u "Acme") (u "Skin") (u "one");
    dict_of (u "Zed") (u "Skin") (u "two");
    dict_of (u "Acme") (u "Hair") (u "three") ].

(** Dictionaries with the brands Acme and Zed and the category Skin. *)
Definition acme_zed : odict Main.aggregate :=
  [ (u "Acme", Main.new_brand (u "Acme")); (u "Zed", Main.new_brand (u "Zed")) ].

Definition skin : odict Main.aggregate :=
  [ (u "Skin", Main.new_category (u "Skin")) ].

Definition agent_acme_zed : odict Agents.aggregate :=
  [ (u "Acme", Agents.new_brand (u "Acme")); (u "Zed", Agents.new_brand (u "Zed")) ].

Definition agent_skin : odict Agents.aggregate :=
  [ (u "Skin", Agents.new_category (u "Skin")) ].

End Examples.

(** ** backend/beauty_product_manager.py: enrichment and the pipeline *)

Module Enrich.
Import Unicode PyStr PyFloat Py Manager.

(** [generate_enhanced_description]: the placeholder text (the prompt built
    before it is not used). *)
Definition generate_enhanced_description (product : Product) : pystr :=
  u "Enhanced description for " ++ name product ++ u ": " ++ description product.

(** [generate_seo_content] *)
Definition generate_seo_content (product : Product) : gmap string pyval :=
  {[ "meta_title" := VStr (brand product ++ u " " ++ name product ++ u " | بهترین قیمت | ضمانت اصالت");
     "meta_description" := VStr (u "خرید " ++ brand product ++ u " " ++ name product ++ u " اورجینال با بهترین قیمت. ضمانت اصالت کالا، ارسال سریع.");
     "keywords" := VStr (brand product ++ u ", " ++ name product ++ u ", " ++ category product ++ u ", خرید آنلاین, بهترین قیمت");
     "schema_markup" :=
       VDict [ ("@context", VStr (u "https://schema.org/"));
               ("@type", VStr (u "Product"));
               ("name", VStr (brand product ++ u " " ++ name product));
               ("brand", VDict [ ("@type", VStr (u "Brand"));
                                 ("name", VStr (brand product)) ]);
               ("category", VStr (category product));
               ("offers", VDict [ ("@type", VStr (u "Offer"));
                                  ("price", VStr (float_repr (price product)));
                                  ("priceCurrency", VStr (u "IRR"));
                                  ("availability",
                                   VStr (u "https://schema.org/InStock")) ]) ]%string ]}.

(** [generate_or_scrape_images] *)
Definition generate_or_scrape_images (product : Product) : list pystr :=
  [ u "https://example.com/images/" ++ sku product ++ u ".jpg" ].

(** The body of the inner loop: the three assignments to the product, the
    second and third under their configuration flags. *)
Definition enhance_product (config : pydict) (product : Product) : Product :=
  {| id := id product;
     name := name product;
     brand := brand product;
     category := category product;
     price := price product;
     description := description product;
     sku := sku product;
     skin_types := skin_types product;
     ingredients := ingredients product;
     usage := usage product;
     image_urls :=
       if truthy (get_or config "enable_image_generation" (VBool true))
       then Some (generate_or_scrape_images product)
       else image_urls product;
     seo_content :=
       if truthy (get_or config "enable_seo_generation" (VBool true))
       then Some (generate_seo_content product)
       else seo_content product;
     enhanced_description := Some (generate_enhanced_description product) |}.

(** A value taken as the step of [range]: an integer or a boolean; anything
    else raises TypeError. *)
Definition as_index (v : pyval) : res Z :=
  match v with
  | VInt z => Ok z
  | VBool b => Ok (if b then 1 else 0)%Z
  | _ => Raise TypeError
  end.

(** [range(0, n, step)]: ValueError for the step zero, nothing for a
    negative step, and 0, step, 2 step, ... below [n] otherwise. *)
Definition range_from_zero (n : nat) (step : Z) : res (list nat) :=
  if (step =? 0)%Z then Raise ValueError
  else if (step <? 0)%Z then Ok []
  else Ok ((fun k => (k * Z.to_nat step)%nat)
             <$> seq 0 ((n + Z.to_nat step - 1) / Z.to_nat step)%nat).

(** [enhance_with_ai]: the list it returns, which is also stored in
    [self.processed_products]. The products are enriched in place, so the
    elements of the list handed in are the enriched products afterwards. *)
Definition enhance_with_ai (config : pydict) (products : list Product)
    : res (list Product) :=
  batch_size ← as_index (get_or config "max_products_per_batch" (VInt 10));
  starts ← range_from_zero (length products) batch_size;
  mret (concat ((fun i => enhance_product config
                            <$> take (Z.to_nat batch_size) (drop i products))
                <$> starts)).

(** What [run_full_pipeline] does after its guard, up to the competitor
    fetch: the counts of its result and the rows of the two files. *)
Record pipeline_result := {
  products_processed : nat;
  brands_generated : nat;
  woocommerce_file : list (list pyval);
  enhanced_file : list (list pyval)
}.

Definition pipeline_steps (config : pydict) (self : manager)
    (loaded : list Product) : res pipeline_result :=
  enhanced_products ← enhance_with_ai config loaded;
  let brand_pages := generate_brand_pages enhanced_products in
  woo_csv ← export_to_csv enhanced_products (u "woocommerce");
  enhanced_csv ← export_to_csv enhanced_products (u "enhanced");
  mret {| products_processed := length enhanced_products;
          brands_generated := length brand_pages;
          woocommerce_file := woo_csv;
          enhanced_file := enhanced_csv |}.

End Enrich.

(** ** Conditions used in the further properties *)

Module Conditions.
Import Unicode PyStr PyFloat Py.

(** The text columns that [load_csv] reads without a fallback, each with the
    field it fills. *)
Definition text_columns : list (string * (Manager.Product → pystr)) :=
  [ ("ID", Manager.id);
    ("Name", Manager.name);
    ("Categories", Manager.category);
    ("Description", Manager.description);
    ("SKU", Manager.sku);
    ("Meta: usage_instructions", Manager.usage) ]%string.

(** A product whose SEO content is set, is not empty and holds under
    'keywords' a value that is no string. *)
Definition keywords_not_text (product : Manager.Product) : bool :=
  match Manager.seo_if_set product with
  | Some seo =>
      match get_or seo "keywords" (VStr []) with
      | VStr _ => false
      | _ => true
      end
  | None => false
  end.

(** The fields of a Product that enrichment has no business with. *)
Definition core (p : Manager.Product) :=
  (Manager.id p, Manager.name p, Manager.brand p, Manager.category p,
   Manager.price p, Manager.description p, Manager.sku p,
   Manager.skin_types p, Manager.ingredients p, Manager.usage p).

(** A price cell that makes [float()] raise ValueError: a string that does
    not parse. *)
Definition price_text_rejected (c : Manager.cell) : bool :=
  match c with
  | Manager.CStr s => match float_of_str s with Some _ => false | None => true end
  | _ => false
  end.

(** A price cell that makes [float()] raise OverflowError: an integer beyond
    the range of a double. *)
Definition price_overflows (c : Manager.cell) : bool :=
  match c with
  | Manager.CInt z => int_overflows z
  | _ => false
  end.





(** An input that makes [load_csv] answer from its handler: a file that
    cannot be read, or a frame with a row for which the [Product(...)] call
    raises. *)
Definition load_fails (file : Manager.read_csv_result) : Prop :=
  match file with
  | Manager.ReadRaises _ => True
  | Manager.DataFrame rows => Exists (fun r => Spec.row_constructs r = false) rows
  end.

End Conditions.

(** ** Further concrete inputs *)

Module MoreExamples.
Import Unicode PyStr PyFloat Py.

(** A row with a numeric ID and an empty name cell. *)
Definition row_unnamed : Manager.row :=
  {[ "ID" := Manager.CInt 7;
     "Name" := Manager.CFloat PrimFloat.nan;
     "Brand" := Manager.CStr (u "Acme");
     "Regular price" := Manager.CFloat 12.5 ]}.

(** A row whose price cell is the integer 2^1024, beyond every double. *)
Definition row_price_huge : Manager.row :=
  {[ "Name" := Manager.CStr (u "Cream");
     "Brand" := Manager.CStr (u "Acme");
     "Regular price" := Manager.CInt (2 ^ 1024) ]}.

(** A product whose SEO content holds a number under 'keywords'. *)
Definition product_numeric_keywords : Manager.Product :=
  {| Manager.id := []; Manager.name := u "one"; Manager.brand := u "Acme";
     Manager.category := u "Skin"; Manager.price := 10;
     Manager.description := u "A plain description"; Manager.sku := u "one";
     Manager.skin_types := []; Manager.ingredients := []; Manager.usage := [];
     Manager.image_urls := None;
     Manager.seo_content := Some {[ "keywords" := VInt 3 ]};
     Manager.enhanced_description := None |}.

End MoreExamples.

(** * Properties *)

Import Unicode PyStr PyFloat Py Invariants Examples.

(** ** Strings *)

Lemma omap_cons {A B} (f : A → option B) (x : A) (l : list A) :
  omap f (x :: l) = match f x with Some y => y :: omap f l | None => omap f l end.
Proof. reflexivity. Qed.

Section StringLemmas.
Implicit Types (s p sep : pystr) (c : char).

Lemma startswith_spec p s : startswith p s = true ↔ ∃ t, s = p ++ t.
Proof.
  revert s; induction p as [|a p IH]; intros s; simpl.
  - split; [eauto | done].
  - destruct s as [|b s]; simpl.
    + split; [done | intros [t Ht]; discriminate].
    + rewrite andb_true_iff, N.eqb_eq, IH. split.
      * intros [-> [t ->]]. eauto.
      * intros [t [= -> ->]]. eauto.
Qed.

Lemma contains_spec sep s : contains sep s = true ↔ ∃ a b, s = a ++ sep ++ b.
Proof.
  induction s as [|x s IH]; simpl.
  - rewrite orb_false_r, startswith_spec. split.
    + intros [t Ht]. exists [], t. done.
    + intros (a & b & H). symmetry in H. apply app_eq_nil in H as [-> H].
      apply app_eq_nil in H as [-> ->]. by exists [].
  - rewrite orb_true_iff, startswith_spec, IH. split.
    + intros [[t Ht] | (a & b & ->)].
      * exists [], t. done.
      * exists (x :: a), b. done.
    + intros (a & b & H). destruct a as [|y a]; simpl in H.
      * left. eauto.
      * injection H as -> ->. right. eauto.
Qed.

(** A string that contains a separator contains every part of it. *)
Lemma contains_infix sep1 sep sep2 s :
  contains (sep1 ++ sep ++ sep2) s = true → contains sep s = true.
Proof.
  rewrite !contains_spec. intros (a & b & ->).
  exists (a ++ sep1), (sep2 ++ b). by rewrite <- !app_assoc.
Qed.

Lemma contains_char c s : contains [c] s = true ↔ c ∈ s.
Proof.
  rewrite contains_spec. split.
  - intros (a & b & ->). set_solver.
  - intros (a & b & ->)%list_elem_of_split. by exists a, b.
Qed.

(** Splitting on a single character and gluing the pieces without it
    gives the string without that character. *)
Lemma concat_split_char c s : concat (split [c] s) = filter (fun x => x ≠ c) s.
Proof.
  unfold split. induction s as [|x s IH]; [done|].
  cbn [split_go startswith length Nat.sub]. rewrite andb_true_r.
  destruct (N.eqb_spec c x) as [->|Hne].
  - cbn [concat app]. rewrite IH, filter_cons_False; [done | by intros ?].
  - rewrite filter_cons_True by congruence. rewrite <- IH.
    by destruct (split_go [c] 0 s).
Qed.

Lemma split_go_nonempty sep k s : split_go sep k s ≠ [].
Proof.
  revert k. induction s as [|x s IH]; intros k; simpl; [done|].
  destruct k; [|apply IH]. destruct (startswith sep (x :: s)); [done|].
  by destruct (split_go sep 0 s).
Qed.

Lemma join_cons sep p ps : ps ≠ [] → join sep (p :: ps) = p ++ sep ++ join sep ps.
Proof. by destruct ps. Qed.

(** Joining the pieces of a split with the separator gives the string
    back; [skip] characters of a matched separator are still to be passed. *)
Lemma join_split_go sep k s :
  sep ≠ [] → (k ≤ length s)%nat → join sep (split_go sep k s) = drop k s.
Proof.
  intros Hsep. revert k. induction s as [|x s IH]; intros k Hk.
  - by destruct k; [|simpl in Hk; lia].
  - destruct k as [|k]; [|simpl in *; apply IH; lia].
    cbn [split_go drop]. destruct (startswith sep (x :: s)) eqn:Hst.
    + apply startswith_spec in Hst as [t Ht].
      rewrite join_cons by apply split_go_nonempty.
      destruct sep as [|y sep]; [done|]. simpl in Ht. injection Ht as <- ->.
      rewrite IH by (rewrite length_app; simpl; lia).
      simpl. rewrite Nat.sub_0_r, drop_app_length. reflexivity.
    + specialize (IH 0%nat ltac:(lia)). simpl in IH.
      pose proof (split_go_nonempty sep 0 s) as Hne.
      destruct (split_go sep 0 s) as [|piece pieces]; [done|].
      destruct pieces; simpl in *; by rewrite IH.
Qed.

Lemma join_split sep s : sep ≠ [] → join sep (split sep s) = s.
Proof. intros Hsep. apply (join_split_go sep 0 s Hsep). lia. Qed.

(** [replace] is a split on the old string and a join with the new one. *)
Lemma replace_go_join_split old new k s :
  (k ≤ length s)%nat → replace_go old new k s = join new (split_go old k s).
Proof.
  revert k. induction s as [|x s IH]; intros k Hk.
  - by destruct k; [|simpl in Hk; lia].
  - destruct k as [|k]; [|simpl in *; apply IH; lia].
    cbn [replace_go split_go]. destruct (startswith old (x :: s)) eqn:Hst.
    + rewrite join_cons by apply split_go_nonempty. simpl. f_equal.
      apply IH. apply startswith_spec in Hst as [t Ht].
      destruct old as [|y old]; [simpl; lia|]. simpl in Ht.
      injection Ht as <- ->. rewrite length_app. simpl. lia.
    + rewrite (IH 0%nat) by lia.
      pose proof (split_go_nonempty old 0 s) as Hne.
      destruct (split_go old 0 s) as [|piece pieces]; [done|].
      by destruct pieces.
Qed.

Lemma replace_join_split old new s : replace old new s = join new (split old s).
Proof. apply replace_go_join_split. lia. Qed.

Lemma count_char_app c s t :
  Spec.count_char c (s ++ t) = (Spec.count_char c s + Spec.count_char c t)%nat.
Proof. unfold Spec.count_char. by rewrite filter_app, length_app. Qed.

Lemma count_char_rev c s : Spec.count_char c (rev s) = Spec.count_char c s.
Proof.
  induction s as [|x s IH]; [done|]. cbn [rev].
  rewrite count_char_app, IH. change (x :: s) with ([x] ++ s).
  rewrite count_char_app. lia.
Qed.

(** Stripping removes white space only. *)
Lemma count_char_lstrip c s :
  isspace c = false → Spec.count_char c (lstrip s) = Spec.count_char c s.
Proof.
  intros Hc. induction s as [|x s IH]; [done|]. simpl.
  destruct (isspace x) eqn:Hx; [|done].
  rewrite IH. unfold Spec.count_char.
  rewrite filter_cons_False; [done | congruence].
Qed.

Lemma count_char_strip c s :
  isspace c = false → Spec.count_char c (strip s) = Spec.count_char c s.
Proof.
  intros Hc. unfold strip, rstrip.
  by rewrite count_char_rev, count_char_lstrip, count_char_rev, count_char_lstrip.
Qed.

Lemma count_char_filter_ne c c' s :
  c ≠ c' → Spec.count_char c (filter (fun x => x ≠ c') s) = Spec.count_char c s.
Proof.
  intros Hne. unfold Spec.count_char. induction s as [|x s IH]; [done|].
  destruct (decide (x = c')) as [->|Hx].
  - rewrite filter_cons_False by (by intros ?).
    rewrite (filter_cons_False _ c'); [done | congruence].
  - rewrite filter_cons_True by done.
    destruct (decide (x = c)) as [->|Hxc].
    + rewrite !filter_cons_True by done. simpl. by rewrite IH.
    + by rewrite !filter_cons_False.
Qed.
End StringLemmas.

(** ** Field-list parsing *)

Section ListFields.
Import Manager.
Implicit Types (raw : pystr) (seps : list pystr).

Lemma split_strip_spec sep raw :
  split_strip sep raw = filter (fun piece => piece ≠ []) (strip <$> split sep raw).
Proof.
  unfold split_strip. induction (split sep raw) as [|piece pieces IH]; [done|].
  rewrite fmap_cons, omap_cons, IH.
  destruct (strip piece) eqn:E; simpl.
  - by rewrite filter_cons_False by (by intros ?).
  - by rewrite filter_cons_True.
Qed.

Lemma split_on_first_spec seps raw :
  split_on_first seps raw = Spec.parse_list seps raw.
Proof.
  unfold Spec.parse_list, Spec.first_delimiter.
  induction seps as [|sep seps IH]; simpl.
  - destruct (strip raw); [done|]. by rewrite decide_False.
  - destruct (contains sep raw); [apply split_strip_spec | apply IH].
Qed.

Lemma count_char_split_strip c sep raw :
  isspace c = false →
  Spec.count_char c (concat (split_strip sep raw))
  = Spec.count_char c (concat (split sep raw)).
Proof.
  intros Hc. unfold split_strip.
  induction (split sep raw) as [|piece pieces IH]; [done|].
  rewrite omap_cons. cbn [concat]. rewrite count_char_app, <- IH, <- (count_char_strip c piece) by done.
  destruct (strip piece) eqn:E; simpl; [done|].
  change (n :: l ++ ?t) with ((n :: l) ++ t). by rewrite count_char_app.
Qed.

(** The padded pipe is never reached: the bare pipe, tried before it,
    occurs wherever the padded one does. *)
Lemma padded_pipe_shadowed raw :
  contains (u " | ") raw = true → contains (u "|") raw = true.
Proof. apply (contains_infix [32] [124] [32]). Qed.

Lemma ingredients_as_skin_types raw :
  split_on_first ingredient_separators raw = split_on_first skin_type_separators raw.
Proof.
  unfold ingredient_separators, skin_type_separators. cbn [split_on_first].
  destruct (contains (u ",") raw); [done|].
  destruct (contains (u ";") raw); [done|].
  destruct (contains (u "|") raw) eqn:Hpipe; [done|].
  destruct (contains (u "،") raw); [done|].
  destruct (contains (u " | ") raw) eqn:Hpad; [|done].
  apply padded_pipe_shadowed in Hpad. congruence.
Qed.
End ListFields.

(** The examples of the specification's list of testable properties. *)
Example parse_list_commas :
  Manager.parse_skin_types (Manager.CStr (u "a, b,c")) = Ok [u "a"; u "b"; u "c"].
Proof. vm_compute. reflexivity. Qed.

Example parse_list_empty : Manager.parse_skin_types (Manager.CStr []) = Ok [].
Proof. reflexivity. Qed.

Example parse_list_solo :
  Manager.parse_skin_types (Manager.CStr (u "solo")) = Ok [u "solo"].
Proof. vm_compute. reflexivity. Qed.

Example parse_list_persian_comma :
  Manager.parse_ingredients (Manager.CStr (u "آب ، گلیسیرین")) = Ok [u "آب"; u "گلیسیرین"].
Proof. vm_compute. reflexivity. Qed.

(** C1. List-field parsing tries comma, semicolon, pipe, Persian comma (and
    the padded pipe for ingredients) in that order, splits on the first one
    that occurs in the string, trims every piece and drops the empty ones;
    without any delimiter the trimmed string is the only element, or there is
    none when it is empty. For a string with a semicolon and no comma the
    result is the semicolon split alone, and every pipe of the string is
    still inside the pieces. *)
Theorem C1_list_field_parsing (raw : pystr) :
  Manager.parse_skin_types (Manager.CStr raw)
  = Ok (Spec.parse_list
          [Spec.comma; Spec.semicolon; Spec.pipe; Spec.persian_comma] raw)
  ∧ Manager.parse_ingredients (Manager.CStr raw)
    = Ok (Spec.parse_list
            [Spec.comma; Spec.semicolon; Spec.pipe; Spec.persian_comma;
             Spec.padded_pipe] raw)
  ∧ (contains Spec.semicolon raw = true → contains Spec.comma raw = false →
     ∃ pieces,
       pieces = filter (fun piece => piece ≠ []) (strip <$> split Spec.semicolon raw)
       ∧ Manager.parse_skin_types (Manager.CStr raw) = Ok pieces
       ∧ Manager.parse_ingredients (Manager.CStr raw) = Ok pieces
       ∧ Spec.count_char 124 (concat pieces) = Spec.count_char 124 raw).
Proof.
  assert (Hskin : Manager.parse_skin_types (Manager.CStr raw)
                  = Ok (Manager.split_on_first Manager.skin_type_separators raw)).
  { unfold Manager.parse_skin_types. destruct raw; [|done].
    simpl. vm_compute. done. }
  assert (Hingr : Manager.parse_ingredients (Manager.CStr raw)
                  = Ok (Manager.split_on_first Manager.ingredient_separators raw)).
  { unfold Manager.parse_ingredients. destruct raw; [|done].
    simpl. vm_compute. done. }
  split; [|split].
  - rewrite Hskin, split_on_first_spec. done.
  - rewrite Hingr, split_on_first_spec. done.
  - intros Hsemi Hcomma. eexists. split; [reflexivity|].
    rewrite Hingr, ingredients_as_skin_types, Hskin.
    assert (Manager.split_on_first Manager.skin_type_separators raw
            = Manager.split_strip Spec.semicolon raw) as ->.
    { unfold Manager.skin_type_separators. cbn [Manager.split_on_first].
      change (u ",") with Spec.comma. change (u ";") with Spec.semicolon.
      by rewrite Hcomma, Hsemi. }
    rewrite <- split_strip_spec. split; [done|]. split; [done|].
    rewrite count_char_split_strip by done.
    unfold Spec.semicolon. rewrite concat_split_char.
    by apply count_char_filter_ne.
Qed.

Lemma C1_list_field_parsing_witness :
  contains Spec.semicolon (u "a;b|c") = true
  ∧ contains Spec.comma (u "a;b|c") = false
  ∧ Manager.parse_skin_types (Manager.CStr (u "a;b|c")) = Ok [u "a"; u "b|c"]
  ∧ Manager.parse_ingredients (Manager.CStr (u "a;b|c")) = Ok [u "a"; u "b|c"].
Proof.
  split; [reflexivity|]. split; [reflexivity|].
  destruct (C1_list_field_parsing (u "a;b|c")) as (_ & _ & H).
  destruct (H eq_refl eq_refl) as (pieces & Hp & Hs & Hi & _).
  rewrite Hs, Hi, Hp. split; reflexivity.
Defined.

(** C10. [parse_ingredients] and [parse_skin_types] return the same list on
    every input: the padded pipe of [parse_ingredients] is tried after the
    bare pipe, which occurs in every string that has the padded one. *)
Theorem C10_parse_ingredients_is_parse_skin_types (field : Manager.cell) :
  Manager.parse_ingredients field = Manager.parse_skin_types field
  ∧ ∀ raw : pystr, contains (u " | ") raw = true → contains (u "|") raw = true.
Proof.
  split; [|apply padded_pipe_shadowed].
  unfold Manager.parse_ingredients, Manager.parse_skin_types.
  destruct (negb (Manager.cell_truthy field)); [done|].
  destruct field; try done. by rewrite ingredients_as_skin_types.
Qed.

(** ** The record parser: [load_csv] *)

Section LoadCsv.
Import Manager Spec.
Implicit Types (r : row) (rows : list row) (self : manager).

Lemma float_of_cell_ok c :
  price_cell_ok c = true → ∃ f, float_of_cell c = Ok f.
Proof.
  destruct c as [s|z| |]; simpl; eauto.
  - destruct (float_of_str s); [eauto | done].
  - destruct (int_overflows z); [done | eauto].
Qed.

Lemma float_of_cell_raises c :
  price_cell_ok c = false → ∃ e, float_of_cell c = Raise e.
Proof.
  destruct c as [s|z| |]; simpl; try done.
  - destruct (float_of_str s); [done | eauto].
  - destruct (int_overflows z); [eauto | done].
Qed.

Lemma parse_skin_types_ok c :
  list_cell_ok c = true → ∃ l, parse_skin_types c = Ok l.
Proof.
  unfold list_cell_ok, parse_skin_types.
  destruct (negb (cell_truthy c)); [eauto|]. destruct c; simpl; eauto; done.
Qed.

Lemma parse_skin_types_raises c :
  list_cell_ok c = false → parse_skin_types c = Raise TypeError.
Proof.
  unfold list_cell_ok, parse_skin_types.
  destruct (negb (cell_truthy c)); [done|]. destruct c; simpl; done.
Qed.

Lemma parse_ingredients_eq c : parse_ingredients c = parse_skin_types c.
Proof.
  unfold parse_ingredients, parse_skin_types.
  destruct (negb (cell_truthy c)); [done|].
  destruct c; try done. by rewrite ingredients_as_skin_types.
Qed.

Lemma make_product_ok r :
  row_constructs r = true → ∃ product, make_product r = Ok product.
Proof.
  unfold row_constructs. rewrite !andb_true_iff. intros [[Hp Hs] Hi].
  unfold make_product.
  destruct (float_of_cell_ok _ Hp) as [f ->].
  destruct (parse_skin_types_ok _ Hs) as [l1 ->].
  rewrite parse_ingredients_eq.
  destruct (parse_skin_types_ok _ Hi) as [l2 ->].
  simpl. eauto.
Qed.

Lemma make_product_raises r :
  row_constructs r = false → ∃ e, make_product r = Raise e.
Proof.
  unfold row_constructs, make_product. intros H.
  destruct (price_cell_ok _) eqn:Hp.
  - destruct (float_of_cell_ok _ Hp) as [f ->]. simpl in *.
    destruct (list_cell_ok (row_get r "Meta: _livora_skin_type" _)) eqn:Hs.
    + destruct (parse_skin_types_ok _ Hs) as [l1 ->]. simpl in *.
      rewrite parse_ingredients_eq, (parse_skin_types_raises _ H). eauto.
    + rewrite (parse_skin_types_raises _ Hs). eauto.
  - destruct (float_of_cell_raises _ Hp) as [e ->]. eauto.
Qed.

Lemma make_products_ok rows :
  Forall (fun r => row_constructs r = true) rows →
  ∃ loaded, make_products rows = Ok loaded
            ∧ Forall2 (fun r product => make_product r = Ok product) rows loaded.
Proof.
  induction 1 as [|r rows Hr _ (loaded & IH & Hall)].
  - exists []. by split.
  - destruct (make_product_ok r Hr) as [product Hp].
    exists (product :: loaded). simpl. rewrite Hp, IH. split; [done|].
    by constructor.
Qed.

Lemma make_products_raises rows :
  Exists (fun r => row_constructs r = false) rows →
  ∃ e, make_products rows = Raise e.
Proof.
  induction 1 as [r rows Hr | r rows _ [e IH]]; simpl.
  - destruct (make_product_raises r Hr) as [e ->]. eauto.
  - destruct (make_product r); simpl; [|eauto]. rewrite IH. eauto.
Qed.

Lemma make_products_raises_at before r after e :
  make_product r = Raise e → ∃ e', make_products (before ++ r :: after) = Raise e'.
Proof.
  intros Hr. induction before as [|r' before [e' IH]]; simpl.
  - rewrite Hr. eauto.
  - destruct (make_product r'); simpl; [|eauto]. rewrite IH. eauto.
Qed.

Lemma make_product_price r product :
  make_product r = Ok product →
  float_of_cell (row_get r "Regular price" (CInt 0)) = Ok (price product).
Proof.
  unfold make_product. destruct (float_of_cell _) as [f|]; [|done]. simpl.
  destruct (parse_skin_types _); [|done]. simpl.
  destruct (parse_ingredients _); [|done]. simpl.
  by intros [= <-].
Qed.

Lemma make_product_brand r product :
  make_product r = Ok product →
  brand product
  = str_of_cell (row_get r "Meta: _livora_brand_name" (row_get r "Brand" (CStr []))).
Proof.
  unfold make_product. destruct (float_of_cell _) as [f|]; [|done]. simpl.
  destruct (parse_skin_types _); [|done]. simpl.
  destruct (parse_ingredients _); [|done]. simpl.
  by intros [= <-].
Qed.
End LoadCsv.

Example float_rejects_na : float_of_str (u "N/A") = None.
Proof. vm_compute. reflexivity. Qed.

(** C2, as stated, fails: for a price cell with the text "10 USD" no
    Product is built, [float()] raises ValueError and [load_csv] answers with
    the empty list; and for a NaN price cell, which is how an empty cell is
    read, the Product is built with the price NaN, which is not 0. *)
Lemma C2_counterexample :
  Manager.make_product row_price_text = Raise ValueError
  ∧ (¬ ∃ product, Manager.make_product row_price_text = Ok product
                  ∧ PrimFloat.eqb (Manager.price product) PrimFloat.zero = true)
  ∧ Manager.load_csv Manager.init (Manager.DataFrame [row_price_text])
    = ([], Manager.init)
  ∧ ∃ product, Manager.make_product row_price_nan = Ok product
               ∧ PrimFloat.eqb (Manager.price product) PrimFloat.zero = false.
Proof.
  assert (H : Manager.make_product row_price_text = Raise ValueError)
    by (vm_compute; reflexivity).
  split; [exact H|]. split; [|split].
  - intros (product & Hp & _). rewrite H in Hp. discriminate.
  - unfold Manager.load_csv. cbn [Manager.make_products]. rewrite H. reflexivity.
  - eexists. split; vm_compute; reflexivity.
Qed.

(** C2, amended. The price of a built Product is [float()] of the
    'Regular price' cell, and 0.0 when the column is absent; a string cell
    that [float()] rejects raises ValueError while the Product is built, and
    [load_csv] on a frame with such a row returns the empty list and leaves
    the manager as it was. *)
Theorem C2_price_coercion (r : Manager.row) :
  (∀ product, Manager.make_product r = Ok product →
     Manager.float_of_cell (Manager.row_get r "Regular price" (Manager.CInt 0))
     = Ok (Manager.price product)
     ∧ (r !! "Regular price" = None → Manager.price product = PrimFloat.zero))
  ∧ (∀ s, r !! "Regular price" = Some (Manager.CStr s) → float_of_str s = None →
       Manager.make_product r = Raise ValueError
       ∧ ∀ self before after,
           Manager.load_csv self (Manager.DataFrame (before ++ r :: after))
           = ([], self)).
Proof.
  split.
  - intros product Hp. pose proof (make_product_price r product Hp) as Hprice.
    split; [exact Hprice|]. intros Hnone.
    unfold Manager.row_get in Hprice. rewrite Hnone in Hprice.
    simpl in Hprice. injection Hprice as <-. reflexivity.
  - intros s Hcell Hfloat.
    assert (Hr : Manager.make_product r = Raise ValueError).
    { assert (Hf : Manager.float_of_cell
                     (Manager.row_get r "Regular price" (Manager.CInt 0))
                   = Raise ValueError).
      { unfold Manager.row_get. rewrite Hcell. simpl. by rewrite Hfloat. }
      unfold Manager.make_product. rewrite Hf. reflexivity. }
    split; [exact Hr|]. intros self before after.
    destruct (make_products_raises_at before r after _ Hr) as [e He].
    unfold Manager.load_csv. rewrite He. reflexivity.
Qed.

Lemma C2_price_coercion_witness :
  row_price_text !! "Regular price" = Some (Manager.CStr (u "10 USD"))
  ∧ float_of_str (u "10 USD") = None
  ∧ Manager.make_product row_price_text = Raise ValueError
  ∧ Manager.load_csv Manager.init
      (Manager.DataFrame ([row_price_digits] ++ row_price_text :: [row_price_digits]))
    = ([], Manager.init)
  ∧ (∀ product, Manager.make_product row_name_only = Ok product →
       Manager.price product = PrimFloat.zero).
Proof.
  pose proof (C2_price_coercion row_price_text) as [_ Htext].
  pose proof (C2_price_coercion row_name_only) as [Hzero _].
  assert (H1 : row_price_text !! "Regular price" = Some (Manager.CStr (u "10 USD")))
    by (vm_compute; reflexivity).
  assert (H2 : float_of_str (u "10 USD") = None) by (vm_compute; reflexivity).
  split; [exact H1|]. split; [exact H2|].
  destruct (Htext _ H1 H2) as [Hraise Hload].
  split; [exact Hraise|]. split; [apply Hload|].
  intros product Hp. apply (Hzero product Hp). vm_compute; reflexivity.
Defined.

(** C3, as stated, fails: the second of two rows has a price that is no
    number, and the whole load comes back empty. *)
Lemma C3_counterexample :
  Spec.row_constructs row_cream = true
  ∧ length (Manager.load_csv Manager.init
              (Manager.DataFrame [row_cream; row_price_text])).1
    ≠ length [row_cream; row_price_text]
  ∧ Manager.load_csv Manager.init (Manager.DataFrame [row_cream; row_price_text])
    = ([], Manager.init).
Proof.
  split; [vm_compute; reflexivity|].
  split; [vm_compute; discriminate | vm_compute; reflexivity].
Qed.

(** C3, amended. When in every row the price cell is one that [float()]
    takes and the skin-type and ingredients cells are text or falsy,
    [load_csv] returns one Product per row, in row order, and stores the
    list in the manager; when [float()] refuses the price cell of some row,
    [load_csv] returns the empty list for the whole frame and leaves the
    manager as it was. *)
Theorem C3_load_csv_rows (self : Manager.manager) (rows : list Manager.row) :
  (Forall (fun r => Spec.row_constructs r = true) rows →
     ∃ loaded,
       Manager.load_csv self (Manager.DataFrame rows)
       = (loaded, {| Manager.products := loaded;
                     Manager.processed_products := Manager.processed_products self |})
       ∧ length loaded = length rows
       ∧ Forall2 (fun r product => Manager.make_product r = Ok product) rows loaded)
  ∧ (Exists (fun r => Spec.price_cell_ok
                        (Manager.row_get r "Regular price" (Manager.CInt 0)) = false)
       rows →
       Manager.load_csv self (Manager.DataFrame rows) = ([], self)).
Proof.
  split.
  - intros Hall. destruct (make_products_ok rows Hall) as (loaded & Hl & H2).
    exists loaded. unfold Manager.load_csv. rewrite Hl.
    split; [done|]. split; [|done]. symmetry. by eapply Forall2_length.
  - intros Hex.
    assert (Hex' : Exists (fun r => Spec.row_constructs r = false) rows).
    { eapply Exists_impl; [exact Hex|]. intros r Hr. unfold Spec.row_constructs.
      by rewrite Hr. }
    destruct (make_products_raises rows Hex') as [e He].
    unfold Manager.load_csv. by rewrite He.
Qed.

Lemma C3_load_csv_rows_witness :
  Forall (fun r => Spec.row_constructs r = true) [row_cream; row_serum]
  ∧ length (Manager.load_csv Manager.init
              (Manager.DataFrame [row_cream; row_serum])).1 = 2%nat
  ∧ Exists (fun r => Spec.price_cell_ok
                       (Manager.row_get r "Regular price" (Manager.CInt 0)) = false)
      [row_cream; row_price_text]
  ∧ Manager.load_csv Manager.init (Manager.DataFrame [row_cream; row_price_text])
    = ([], Manager.init).
Proof.
  pose proof (C3_load_csv_rows Manager.init [row_cream; row_serum]) as [Hok _].
  pose proof (C3_load_csv_rows Manager.init [row_cream; row_price_text])
    as [_ Hbad].
  assert (H1 : Forall (fun r => Spec.row_constructs r = true) [row_cream; row_serum]).
  { repeat constructor; vm_compute; reflexivity. }
  assert (H2 : Exists (fun r => Spec.price_cell_ok
                                  (Manager.row_get r "Regular price" (Manager.CInt 0))
                                = false)
                 [row_cream; row_price_text]).
  { apply Exists_cons_tl, Exists_cons_hd. vm_compute; reflexivity. }
  split; [exact H1|]. split.
  - destruct (Hok H1) as (loaded & -> & Hlen & _). exact Hlen.
  - split; [exact H2 | exact (Hbad H2)].
Defined.

(** C4, as stated, fails: a row without either brand column gives the
    empty string as the brand, not "Unknown". *)
Lemma C4_counterexample :
  row_name_only !! "Meta: _livora_brand_name" = None
  ∧ row_name_only !! "Brand" = None
  ∧ ∃ product, Manager.make_product row_name_only = Ok product
               ∧ Manager.brand product = []
               ∧ Manager.brand product ≠ u "Unknown".
Proof.
  split; [vm_compute; reflexivity|]. split; [vm_compute; reflexivity|].
  eexists. split; [vm_compute; reflexivity|]. split; [reflexivity | discriminate].
Qed.

(** C4, amended. The brand of a parsed Product is [str()] of the cell of
    the column 'Meta: _livora_brand_name' when the row has that column, else
    [str()] of the cell of 'Brand' when the row has that one, else the empty
    string. The sentinel "Unknown" belongs to the JSON page generators: the
    web layer takes the metadata value when it is truthy, else the value
    under 'Brand' when that key is present, else "Unknown"; the agent takes
    the value under 'brand' when that key is present, else "Unknown". *)
Theorem C4_brand_resolution (r : Manager.row) (product : Manager.Product)
    (item : pydict) :
  Manager.make_product r = Ok product →
  Manager.brand product
  = match r !! "Meta: _livora_brand_name" with
    | Some c => Manager.str_of_cell c
    | None =>
        match r !! "Brand" with
        | Some c => Manager.str_of_cell c
        | None => []
        end
    end
  ∧ Main.resolve_brand item
    = (if truthy (get item "Meta: _livora_brand_name")
       then get item "Meta: _livora_brand_name"
       else match item !! "Brand" with
            | Some v => v
            | None => VStr (u "Unknown")
            end)
  ∧ Agents.brand_of item
    = match item !! "brand" with
      | Some v => v
      | None => VStr (u "Unknown")
      end.
Proof.
  intros Hp. split; [|split].
  - rewrite (make_product_brand r product Hp). unfold Manager.row_get.
    destruct (r !! "Meta: _livora_brand_name"); [done|].
    by destruct (r !! "Brand").
  - unfold Main.resolve_brand, py_or, get_or. by destruct (item !! "Brand").
  - unfold Agents.brand_of, get_or. by destruct (item !! "brand").
Qed.

Lemma C4_brand_resolution_witness :
  ∃ product,
    Manager.make_product row_cream = Ok product
    ∧ Manager.brand product = u "Acme"
    ∧ Main.resolve_brand ∅ = VStr (u "Unknown").
Proof.
  destruct (Manager.make_product row_cream) as [product|e] eqn:Hp;
    [|vm_compute in Hp; discriminate].
  exists product. split; [reflexivity|].
  destruct (C4_brand_resolution row_cream product ∅ Hp) as (Hb & Hr & _).
  split; [rewrite Hb | rewrite Hr]; vm_compute; reflexivity.
Defined.

(** C9, as stated, fails: on a fresh manager an unreadable file and a
    readable file without rows give the same returned list and the same
    manager, and the pipeline reports the same error for both. *)
Lemma C9_counterexample :
  Manager.load_csv Manager.init (Manager.ReadRaises OSError)
  = Manager.load_csv Manager.init (Manager.DataFrame [])
  ∧ Manager.run_full_pipeline (fun _ loaded => length loaded) Manager.init
      (Manager.ReadRaises OSError)
    = Manager.run_full_pipeline (fun _ loaded => length loaded) Manager.init
        (Manager.DataFrame []).
Proof. split; reflexivity. Qed.

(** C9, amended. Whatever [pd.read_csv] raises, [load_csv] returns the
    empty list and leaves the manager as it was; for a frame without rows it
    returns the empty list too, and stores it; and [run_full_pipeline]
    answers both with the error "No products loaded". *)
Theorem C9_unreadable_input_reads_as_empty (self : Manager.manager) (e : exn)
    (R : Type) (continue : Manager.manager → list Manager.Product → R) :
  Manager.load_csv self (Manager.ReadRaises e) = ([], self)
  ∧ (Manager.load_csv self (Manager.DataFrame [])).1 = []
  ∧ Manager.products (Manager.load_csv self (Manager.DataFrame [])).2 = []
  ∧ (Manager.run_full_pipeline continue self (Manager.ReadRaises e)).1
    = inl (u "No products loaded")
  ∧ (Manager.run_full_pipeline continue self (Manager.DataFrame [])).1
    = inl (u "No products loaded").
Proof. repeat split. Qed.

(** ** Insertion-ordered dictionaries *)

Section OdictLemmas.
Context {V : Type}.
Implicit Types (d : odict V) (k : pystr) (v : V).

Lemma keys_cons k v d : keys ((k, v) :: d) = k :: keys d.
Proof. reflexivity. Qed.

Lemma od_mem_spec k d : od_mem k d = true ↔ k ∈ keys d.
Proof.
  induction d as [|[k' v'] d IH]; cbn [od_mem].
  - split; [done | by intros ?%elem_of_nil].
  - rewrite keys_cons, elem_of_cons. destruct (decide (k = k')) as [->|Hne].
    + split; [by left | done].
    + rewrite IH. split; [by right | by intros [?|?]].
Qed.

Lemma od_get_None k d : od_get k d = None ↔ k ∉ keys d.
Proof.
  induction d as [|[k' v'] d IH]; cbn [od_get].
  - split; [intros _ ?%elem_of_nil; done | done].
  - rewrite keys_cons, elem_of_cons. destruct (decide (k = k')) as [->|Hne].
    + split; [done | intros []; by left].
    + rewrite IH. split; [by intros ? [?|?] | intros H ?; apply H; by right].
Qed.

Lemma od_get_elem k v d : NoDup (keys d) → (k, v) ∈ d → od_get k d = Some v.
Proof.
  induction d as [|[k' v'] d IH]; cbn [od_get].
  - by intros _ ?%elem_of_nil.
  - rewrite keys_cons. intros [Hk' Hnd]%NoDup_cons [[= -> ->]|Hin]%elem_of_cons.
    + by rewrite decide_True.
    + rewrite decide_False; [by apply IH|]. intros ->. apply Hk'.
      apply (list_elem_of_fmap_2 fst) in Hin. done.
Qed.

Lemma od_get_Some_elem k v d : od_get k d = Some v → (k, v) ∈ d.
Proof.
  induction d as [|[k' v'] d IH]; simpl; [done|].
  destruct (decide (k = k')) as [->|Hne].
  - intros [= ->]. left.
  - intros H. right. by apply IH.
Qed.

Lemma keys_od_set k v d :
  keys (od_set k v d) = if od_mem k d then keys d else keys d ++ [k].
Proof.
  induction d as [|[k' v'] d IH]; cbn [od_set od_mem]; [done|].
  destruct (decide (k = k')); [done|]. rewrite !keys_cons, IH.
  by destruct (od_mem k d).
Qed.

Lemma keys_od_alter (f : V → V) k d : keys (od_alter f k d) = keys d.
Proof.
  induction d as [|[k' v'] d IH]; cbn [od_alter]; [done|].
  destruct (decide (k = k')); [done|]. by rewrite !keys_cons, IH.
Qed.

Lemma keys_od_setdefault k v d :
  keys (od_setdefault k v d) = if od_mem k d then keys d else keys d ++ [k].
Proof.
  unfold od_setdefault. pose proof (keys_od_set k v d) as H.
  by destruct (od_mem k d).
Qed.

Lemma od_get_od_set k' k v d :
  od_get k' (od_set k v d) = if decide (k' = k) then Some v else od_get k' d.
Proof.
  induction d as [|[k0 v0] d IH]; simpl.
  - by destruct (decide (k' = k)).
  - destruct (decide (k = k0)) as [->|Hne]; simpl.
    + by destruct (decide (k' = k0)).
    + destruct (decide (k' = k0)) as [->|Hne'].
      * by rewrite decide_False.
      * apply IH.
Qed.

Lemma od_get_od_alter (f : V → V) k' k d :
  od_get k' (od_alter f k d)
  = if decide (k' = k) then f <$> od_get k d else od_get k' d.
Proof.
  induction d as [|[k0 v0] d IH]; simpl.
  - by destruct (decide (k' = k)).
  - destruct (decide (k = k0)) as [->|Hne]; simpl.
    + by destruct (decide (k' = k0)).
    + destruct (decide (k' = k0)) as [->|Hne'].
      * by rewrite decide_False.
      * apply IH.
Qed.

Lemma od_get_od_setdefault k' k v d :
  od_get k' (od_setdefault k v d)
  = if decide (k' = k) then Some (default v (od_get k d)) else od_get k' d.
Proof.
  unfold od_setdefault. destruct (od_mem k d) eqn:Hmem.
  - destruct (decide (k' = k)) as [->|]; [|done].
    apply od_mem_spec in Hmem. destruct (od_get k d) eqn:Hget; [done|].
    by apply od_get_None in Hget.
  - rewrite od_get_od_set. destruct (decide (k' = k)) as [->|]; [|done].
    assert (od_get k d = None) as ->; [|done].
    apply od_get_None. rewrite <- od_mem_spec. congruence.
Qed.
End OdictLemmas.

(** ** Keys in first-seen order *)

Section FirstSeen.
Implicit Types (k : pystr) (l : list pystr).

Lemma elem_of_first_seen k l : k ∈ Spec.first_seen l ↔ k ∈ l.
Proof.
  induction l as [|k' l IH]; simpl; [done|].
  rewrite !elem_of_cons, list_elem_of_filter, IH.
  destruct (decide (k = k')) as [->|Hne]; [split; by left|].
  split; [intros [?|[_ ?]]; [by left | by right] | intros [?|?]; [by left | by right]].
Qed.

Lemma NoDup_first_seen l : NoDup (Spec.first_seen l).
Proof.
  induction l as [|k l IH]; simpl; [constructor|].
  apply NoDup_cons. split.
  - rewrite list_elem_of_filter. by intros [? _].
  - by apply NoDup_filter.
Qed.

Lemma first_seen_snoc l k :
  Spec.first_seen (l ++ [k])
  = if decide (k ∈ l) then Spec.first_seen l else Spec.first_seen l ++ [k].
Proof.
  induction l as [|k' l IH]; simpl; [done|]. rewrite IH.
  destruct (decide (k ∈ l)) as [Hin|Hnin].
  - rewrite decide_True; [done | by right].
  - destruct (decide (k = k')) as [->|Hne].
    + rewrite decide_True by left.
      rewrite filter_app, filter_cons_False by (by intros ?).
      by rewrite app_nil_r.
    + rewrite decide_False by (by intros [?|?]%elem_of_cons).
      by rewrite filter_app, filter_cons_True.
Qed.
End FirstSeen.

(** ** Grouping by key: look up or create the aggregate, then append *)

Section Grouping.
Context {V X L : Type}.
Context (fresh : pystr → V) (push : X → V → V).
Context (items : V → list X) (label : V → L).
Hypothesis items_fresh : ∀ k, items (fresh k) = [].
Hypothesis items_push : ∀ x v, items (push x v) = items v ++ [x].
Hypothesis label_push : ∀ x v, label (push x v) = label v.

Local Abbreviation group_step := (group_step fresh push).

Local Abbreviation grouped := (grouped fresh items label).

Lemma grouped_nil : grouped [] [].
Proof. split; [done | by intros k v [=]]. Qed.

Lemma grouped_step d done kx :
  grouped d done → grouped (group_step d kx) (done ++ [kx]).
Proof.
  destruct kx as [k x]. intros [Hkeys Hitems]. unfold group_step. simpl. split.
  - rewrite keys_od_alter, keys_od_setdefault, fmap_app.
    change ([(k, x)].*1) with [k]. rewrite first_seen_snoc.
    destruct (od_mem k d) eqn:Hmem.
    + apply od_mem_spec in Hmem. rewrite Hkeys, elem_of_first_seen in Hmem.
      by rewrite decide_True.
    + rewrite decide_False; [by rewrite Hkeys|].
      intros Hin. rewrite <- elem_of_first_seen, <- Hkeys, <- od_mem_spec in Hin.
      congruence.
  - intros k' v. rewrite od_get_od_alter, od_get_od_setdefault, filter_app, fmap_app.
    destruct (decide (k' = k)) as [->|Hne].
    + rewrite decide_True by done. simpl. intros [= <-].
      rewrite items_push, label_push, filter_cons_True by done. simpl.
      destruct (od_get k d) as [v0|] eqn:Hget; simpl.
      * destruct (Hitems _ _ Hget) as [-> ->]. done.
      * rewrite items_fresh. split; [|done]. f_equal.
        apply od_get_None in Hget. rewrite Hkeys, elem_of_first_seen in Hget.
        clear -Hget. induction done as [|[k0 x0] done IH]; [done|].
        rewrite fmap_cons, not_elem_of_cons in Hget. destruct Hget as [Hk0 Hget].
        simpl in Hk0. rewrite filter_cons_False; [by apply IH | simpl; congruence].
    + rewrite filter_cons_False by (simpl; congruence). rewrite app_nil_r.
      intros Hget. rewrite od_get_od_setdefault, decide_False in Hget by done.
      by apply Hitems.
Qed.

Lemma grouped_fold d done kxs :
  grouped d done → grouped (fold_left group_step kxs d) (done ++ kxs).
Proof.
  revert d done. induction kxs as [|kx kxs IH]; intros d done H; simpl.
  - by rewrite app_nil_r.
  - rewrite (cons_middle kx), app_assoc. apply IH. by apply grouped_step.
Qed.

Lemma grouped_NoDup d done : grouped d done → NoDup (keys d).
Proof. intros [-> _]. apply NoDup_first_seen. Qed.

Lemma grouped_elem d done k v :
  grouped d done → (k, v) ∈ d →
  items v = (filter (fun kx => kx.1 = k) done).*2 ∧ label v = label (fresh k).
Proof.
  intros H Hin. apply (proj2 H). apply od_get_elem; [|done].
  by eapply grouped_NoDup.
Qed.

(** The loop whose body classifies an input into a key and an item, or
    raises. *)
Context {A : Type} (classify : A → res (pystr * X)).

Local Abbreviation classified_step := (classified_step fresh push classify).

Lemma for_each_classified d inputs kxs :
  Forall2 (fun a kx => classify a = Ok kx) inputs kxs →
  for_each classified_step d inputs = Ok (fold_left group_step kxs d).
Proof.
  intros H. revert d. induction H as [|a kx inputs kxs Ha _ IH]; intros d; simpl.
  - done.
  - unfold classified_step at 2. rewrite Ha. simpl. apply IH.
Qed.

Lemma for_each_classified_inv d inputs d' :
  for_each classified_step d inputs = Ok d' →
  ∃ kxs, Forall2 (fun a kx => classify a = Ok kx) inputs kxs
         ∧ d' = fold_left group_step kxs d.
Proof.
  revert d. induction inputs as [|a inputs IH]; intros d; simpl.
  - intros [= <-]. exists []. by split.
  - unfold classified_step at 2. destruct (classify a) as [kx|e] eqn:Ha; [|done].
    simpl. intros (kxs & H2 & ->)%IH. exists (kx :: kxs). split; [|done].
    by constructor.
Qed.
End Grouping.

(** ** Export in the commerce schema *)

Section CommerceExport.
Import Manager.

Lemma woocommerce_row_plain i product :
  Spec.no_enrichment product →
  woocommerce_row i product = Ok (Spec.plain_commerce_row i product).
Proof.
  intros (Hdesc & Hseo & Himg).
  unfold woocommerce_row, seo_focus_keyword, seo_get, seo_if_set,
    description_or_enhanced, joined_images, Spec.plain_commerce_row, slice_to.
  rewrite Hdesc, Hseo, Himg. reflexivity.
Qed.

Lemma write_rows_plain i products :
  Forall Spec.no_enrichment products →
  write_rows woocommerce_row i products
  = Ok (imap (fun n product => Spec.plain_commerce_row (i + Z.of_nat n) product) products).
Proof.
  intros H. revert i. induction H as [|product products Hp _ IH]; intros i; [done|].
  cbn [write_rows imap]. rewrite (woocommerce_row_plain _ _ Hp). simpl.
  rewrite IH. simpl. rewrite Z.add_0_r. do 2 f_equal.
  apply imap_ext. intros n p _. simpl. f_equal. lia.
Qed.
End CommerceExport.

(** C8. For a Product without enrichment the commerce-schema row has the
    original description under Description, its first 200 characters under
    Short description, the empty string under Images and under the three
    SEO columns, and the fixed literals simple, 1, 0, visible, taxable, 1
    and 10 under Type, Published, Is featured?, Visibility in catalog, Tax
    status, In stock? and Stock; the export of a list of such Products is the
    header row followed by these rows, numbered from 1. *)
Theorem C8_commerce_row_without_enrichment (i : Z) (product : Manager.Product)
    (products : list Manager.Product) :
  Spec.no_enrichment product →
  Forall Spec.no_enrichment products →
  ∃ cells,
    Manager.woocommerce_row i product = Ok cells
    ∧ (let cell := Spec.column Manager.woocommerce_headers cells in
       cell (u "Description") = Some (VStr (Manager.description product))
       ∧ cell (u "Short description")
         = Some (VStr (take 200 (Manager.description product)))
       ∧ cell (u "Meta: _yoast_wpseo_title") = Some (VStr [])
       ∧ cell (u "Meta: _yoast_wpseo_metadesc") = Some (VStr [])
       ∧ cell (u "Meta: _yoast_wpseo_focuskw") = Some (VStr [])
       ∧ cell (u "Images") = Some (VStr [])
       ∧ cell (u "Type") = Some (VStr (u "simple"))
       ∧ cell (u "Published") = Some (VInt 1)
       ∧ cell (u "Is featured?") = Some (VInt 0)
       ∧ cell (u "Visibility in catalog") = Some (VStr (u "visible"))
       ∧ cell (u "Tax status") = Some (VStr (u "taxable"))
       ∧ cell (u "In stock?") = Some (VInt 1)
       ∧ cell (u "Stock") = Some (VInt 10))
    ∧ Manager.export_to_csv products (u "woocommerce")
      = Ok ((VStr <$> Manager.woocommerce_headers)
            :: imap (fun n p => Spec.plain_commerce_row (1 + Z.of_nat n) p) products).
Proof.
  intros Hp Hall. exists (Spec.plain_commerce_row i product).
  split; [by apply woocommerce_row_plain|]. split.
  - repeat split; reflexivity.
  - unfold Manager.export_to_csv. rewrite decide_True by reflexivity.
    by rewrite (write_rows_plain 1 products Hall).
Qed.

Lemma C8_commerce_row_without_enrichment_witness :
  Spec.no_enrichment (product_of (u "Acme") (u "Skin") (u "one"))
  ∧ Forall Spec.no_enrichment three_products
  ∧ Manager.woocommerce_row 1 (product_of (u "Acme") (u "Skin") (u "one"))
    = Ok [ VInt 1; VStr (u "simple"); VStr (u "one"); VStr (u "one"); VInt 1; VInt 0;
           VStr (u "visible"); VStr (u "A plain description");
           VStr (u "A plain description"); VStr (u "taxable"); VInt 1; VInt 10;
           VFloat 10; VStr (u "Skin"); VStr []; VStr []; VStr []; VStr []; VStr [] ]
  ∧ ∃ rows, Manager.export_to_csv three_products (u "woocommerce") = Ok rows
            ∧ length rows = 4%nat.
Proof.
  assert (H1 : Spec.no_enrichment (product_of (u "Acme") (u "Skin") (u "one")))
    by (repeat split).
  assert (H2 : Forall Spec.no_enrichment three_products)
    by (repeat constructor).
  split; [exact H1|]. split; [exact H2|].
  destruct (C8_commerce_row_without_enrichment 1 _ three_products H1 H2)
    as (cells & Hrow & _ & Hexport).
  split.
  - vm_compute. reflexivity.
  - eexists. split; [exact Hexport | reflexivity].
Defined.

(** ** Slugs *)

Lemma brand_slug_spec (brand : pystr) : Main.brand_slug brand = Spec.slug brand.
Proof. reflexivity. Qed.

Lemma brand_slug_strips_category_slug (x : pystr) :
  Main.brand_slug x = replace (u "'") [] (Main.category_slug x).
Proof. reflexivity. Qed.

Lemma agents_slug_is_category_slug (x : pystr) :
  Agents.slug_of_name x = Main.category_slug x.
Proof. reflexivity. Qed.

Example brand_slug_loreal : Main.brand_slug (u "L'Oréal Paris") = u "loréal-paris".
Proof. vm_compute. reflexivity. Qed.

(** C6. The slug of the category "Men's Care" keeps its apostrophe, in the
    web layer and in the agent, where the specification's derivation (and
    the brand slug of the web layer) gives "mens-care". *)
Theorem C6_category_slug_keeps_apostrophe :
  Main.category_slug (u "Men's Care") = u "men's-care"
  ∧ Agents.slug_of_name (u "Men's Care") = u "men's-care"
  ∧ Spec.slug (u "Men's Care") = u "mens-care"
  ∧ Main.brand_slug (u "Men's Care") = u "mens-care".
Proof. repeat split; vm_compute; reflexivity. Qed.

(** ** Aggregation by brand and by category *)

Section Aggregation.
Context {V X B : Type} (fresh : pystr → V) (push : X → V → V).

Lemma for_each_ext {S} (f g : S → B → res S) (s : S) (l : list B) :
  (∀ s b, f s b = g s b) → for_each f s l = for_each g s l.
Proof.
  intros Hfg. revert s. induction l as [|b l IH]; intros s; simpl; [done|].
  rewrite Hfg. destruct (g s b); simpl; [apply IH | done].
Qed.

Lemma fold_left_group_fmap (h : B → pystr * X) (l : list B) (d : odict V) :
  fold_left (fun d b => group_step fresh push d (h b)) l d
  = fold_left (group_step fresh push) (h <$> l) d.
Proof. revert d. induction l as [|b l IH]; intros d; simpl; [done | apply IH]. Qed.
End Aggregation.

Lemma keys_fmap_values {V W : Type} (g : V → W) (d : odict V) :
  keys (prod_map Datatypes.id g <$> d) = keys d.
Proof.
  unfold keys. induction d as [|[k v] d IH]; [done|].
  rewrite !fmap_cons. cbn [prod_map fst]. f_equal. exact IH.
Qed.

Section Keyed.
Context {A : Type} (key : A → option pystr).
Implicit Types (inputs : list A) (kxs : list (pystr * A)).

Lemma keyed_fst inputs kxs :
  Forall2 (Spec.keyed_by key) inputs kxs → kxs.*1 = omap key inputs.
Proof.
  induction 1 as [|a [k x] inputs kxs [Hk _] _ IH]; [done|].
  rewrite fmap_cons, omap_cons, Hk, IH. done.
Qed.

Lemma keyed_filter inputs kxs k :
  Forall2 (Spec.keyed_by key) inputs kxs →
  (filter (fun kx => kx.1 = k) kxs).*2 = filter (fun a => key a = Some k) inputs.
Proof.
  induction 1 as [|a [k' x] inputs kxs [Hk Hx] _ IH]; [done|].
  simpl in Hk, Hx. subst x. destruct (decide (k' = k)) as [->|Hne].
  - rewrite !filter_cons_True by done. by rewrite fmap_cons, IH.
  - rewrite !filter_cons_False; [done | congruence | simpl; congruence].
Qed.

Lemma keyed_total inputs :
  Forall (fun a => is_Some (key a)) inputs →
  ∃ kxs, Forall2 (Spec.keyed_by key) inputs kxs.
Proof.
  induction 1 as [|a inputs [k Hk] _ [kxs IH]].
  - exists []. constructor.
  - exists ((k, a) :: kxs). by constructor.
Qed.
End Keyed.

Section BrandPages.
Import Manager.

Lemma items_new_brand_page k : page_products (new_brand_page k) = [].
Proof. reflexivity. Qed.

Lemma items_add_product p page :
  page_products (add_product p page) = page_products page ++ [p].
Proof. reflexivity. Qed.

Lemma brand_pages_grouped products :
  grouped new_brand_page page_products page_name
    (fold_left brand_pages_step products [])
    ((fun p => (brand p, p)) <$> products).
Proof.
  change brand_pages_step
    with (fun d p => group_step new_brand_page add_product d (brand p, p)).
  rewrite fold_left_group_fmap.
  apply (grouped_fold new_brand_page add_product page_products page_name
           items_new_brand_page items_add_product (fun _ _ => eq_refl)
           [] [] _ (grouped_nil _ _ _)).
Qed.

Lemma brand_pages_keyed products :
  Forall2 (Spec.keyed_by (fun p => Some (brand p))) products
    ((fun p => (brand p, p)) <$> products).
Proof. induction products; constructor; [by split | done]. Qed.

Lemma generate_brand_pages_spec products :
  keys (generate_brand_pages products) = Spec.first_seen (brand <$> products)
  ∧ NoDup (keys (generate_brand_pages products))
  ∧ ∀ k page, (k, page) ∈ generate_brand_pages products →
      page_name page = k
      ∧ page_products page = filter (fun p => brand p = k) products
      ∧ products_count page = length (page_products page).
Proof.
  pose proof (brand_pages_grouped products) as Hg.
  pose proof (brand_pages_keyed products) as Hk.
  assert (Hkeys : keys (generate_brand_pages products)
                  = Spec.first_seen (brand <$> products)).
  { unfold generate_brand_pages. rewrite keys_fmap_values.
    destruct Hg as [Hg _]. rewrite Hg. f_equal.
    clear. induction products as [|p products IH]; [done|].
    by rewrite !fmap_cons, IH. }
  split; [exact Hkeys|]. split; [rewrite Hkeys; apply NoDup_first_seen|].
  intros k page. unfold generate_brand_pages.
  intros ([k' page0] & Heq & Hin)%list_elem_of_fmap.
  cbn [prod_map fst snd Datatypes.id] in Heq. injection Heq as -> ->.
  destruct (grouped_elem _ _ _ _ _ k' page0 Hg Hin) as [Hitems Hname].
  simpl. split; [exact Hname|]. split; [|done].
  rewrite Hitems, (keyed_filter _ _ _ k' Hk).
  apply list_filter_iff. intros p. split; congruence.
Qed.
End BrandPages.

Section AgentPages.
Import Agents.

Lemma brands_step_classified d product :
  brands_step d product
  = classified_step new_brand append_product classify_brand d product.
Proof.
  unfold brands_step, classified_step, classify_brand.
  by destruct (as_str_key (brand_of product)).
Qed.

Lemma categories_step_classified d product :
  categories_step d product
  = classified_step new_category append_product classify_category d product.
Proof.
  unfold categories_step, classified_step, classify_category.
  by destruct (as_str_key (category_of product)).
Qed.

Lemma str_key_Some v k : v = VStr k ↔ Spec.str_key v = Some k.
Proof. destruct v; simpl; split; intros [=]; by subst. Qed.

Lemma as_str_key_str_key v k : as_str_key v = Ok k ↔ Spec.str_key v = Some k.
Proof. destruct v; simpl; split; intros [=]; by subst. Qed.

Lemma classify_keyed (field : pydict → pyval) products kxs :
  Forall2 (Spec.keyed_by (Spec.str_key ∘ field)) products kxs →
  Forall2 (fun p kx => (k ← as_str_key (field p); mret (k, p)) = Ok kx) products kxs.
Proof.
  intros H. eapply Forall2_impl; [exact H|]. clear. intros p [k x] [Hk Hx].
  simpl in *. subst x.
  apply as_str_key_str_key in Hk. by rewrite Hk.
Qed.

Lemma classify_keyed_inv (field : pydict → pyval) products kxs :
  Forall2 (fun p kx => (k ← as_str_key (field p); mret (k, p)) = Ok kx) products kxs →
  Forall2 (Spec.keyed_by (Spec.str_key ∘ field)) products kxs.
Proof.
  intros H. eapply Forall2_impl; [exact H|]. clear. intros p [k x]. simpl.
  destruct (as_str_key (field p)) as [k'|] eqn:Hk; simpl; [|done].
  intros [= -> ->]. apply as_str_key_str_key in Hk. by split.
Qed.
End AgentPages.

(** ** The site map *)

Section SitemapLemmas.
Context {V : Type} (slug_of : V → pystr).
Implicit Types (d : odict V) (acc : list sitemap_entry).

Lemma append_entries_sub prefix d d' acc :
  (∀ k v, (k, v) ∈ d' → od_get k d = Some v) →
  append_entries slug_of prefix d (keys d') acc
  = Ok (acc ++ ((fun kv => Spec.weekly_entry prefix (slug_of kv.2)) <$> d')).
Proof.
  revert acc. induction d' as [|[k v] d' IH]; intros acc Hsub.
  - by rewrite app_nil_r.
  - rewrite keys_cons. cbn [append_entries].
    rewrite (Hsub k v) by left. rewrite IH.
    + rewrite fmap_cons, <- app_assoc. reflexivity.
    + intros k' v' Hin. apply Hsub. by right.
Qed.

Lemma append_entries_all prefix d acc :
  NoDup (keys d) →
  append_entries slug_of prefix d (keys d) acc
  = Ok (acc ++ ((fun kv => Spec.weekly_entry prefix (slug_of kv.2)) <$> d)).
Proof. intros Hnd. apply append_entries_sub. intros k v. by apply od_get_elem. Qed.

Lemma build_sitemap_spec brands categories :
  NoDup (keys brands) → NoDup (keys categories) →
  build_sitemap slug_of brands categories
  = Ok (Spec.sitemap ((fun kv => slug_of kv.2) <$> brands)
                     ((fun kv => slug_of kv.2) <$> categories)).
Proof.
  intros Hb Hc. unfold build_sitemap.
  rewrite (append_entries_all _ _ _ Hb). simpl.
  rewrite (append_entries_all _ _ _ Hc). unfold Spec.sitemap.
  rewrite <- !list_fmap_compose. reflexivity.
Qed.

Lemma slugs_by_key (f : pystr → pystr) d :
  (∀ k v, (k, v) ∈ d → slug_of v = f k) →
  (fun kv => slug_of kv.2) <$> d = f <$> keys d.
Proof.
  induction d as [|[k v] d IH]; intros H; [done|].
  rewrite keys_cons, !fmap_cons. simpl. rewrite (H k v) by left.
  f_equal. apply IH. intros k' v' Hin. apply H. by right.
Qed.
End SitemapLemmas.

Lemma length_sitemap (brand_slugs category_slugs : list pystr) :
  length (Spec.sitemap brand_slugs category_slugs)
  = (4 + length brand_slugs + length category_slugs)%nat.
Proof. unfold Spec.sitemap. rewrite !length_app, !length_fmap. simpl. lia. Qed.

Section MainPages.
Import Main.

Lemma main_brands_step_classified d product :
  brands_step d product
  = classified_step new_brand append_item classify_brand_item d product.
Proof.
  unfold brands_step, classified_step, classify_brand_item.
  destruct (as_str_key (resolve_brand product)); [simpl|done].
  by destruct (brand_item product).
Qed.

Lemma main_categories_step_classified d product :
  categories_step d product
  = classified_step new_category append_item classify_category_item d product.
Proof.
  unfold categories_step, classified_step, classify_category_item.
  by destruct (as_str_key _).
Qed.

(** The brands and categories of a successful run were grouped from the
    classified products. *)
Lemma main_generate_grouped products jp :
  generate_json_pages products = Ok jp →
  (∃ done, grouped new_brand Main.products (fun a => (name a, slug a)) (brands jp) done)
  ∧ (∃ done, grouped new_category Main.products (fun a => (name a, slug a))
               (categories jp) done)
  ∧ build_sitemap slug (brands jp) (categories jp) = Ok (sitemap jp).
Proof.
  unfold generate_json_pages.
  rewrite (for_each_ext brands_step _ [] products main_brands_step_classified).
  rewrite (for_each_ext categories_step _ [] products main_categories_step_classified).
  destruct (for_each (classified_step new_brand _ _) [] products)
    as [bs|] eqn:Hb; [simpl|done].
  destruct (for_each (classified_step new_category _ _) [] products)
    as [cs|] eqn:Hc; [simpl|done].
  destruct (build_sitemap slug bs cs) as [sm|] eqn:Hs; [simpl|done].
  intros [= <-]. simpl.
  apply for_each_classified_inv in Hb as (kb & _ & ->).
  apply for_each_classified_inv in Hc as (kc & _ & ->).
  split; [|split; [|done]].
  - exists kb. apply (grouped_fold new_brand append_item Main.products
                        (fun a => (name a, slug a))
                        (fun _ => eq_refl) (fun _ _ => eq_refl) (fun _ _ => eq_refl)
                        [] [] kb (grouped_nil _ _ _)).
  - exists kc. apply (grouped_fold new_category append_item Main.products
                        (fun a => (name a, slug a))
                        (fun _ => eq_refl) (fun _ _ => eq_refl) (fun _ _ => eq_refl)
                        [] [] kc (grouped_nil _ _ _)).
Qed.
End MainPages.

Section AgentGrouped.
Import Agents.

(** The agent's run goes through when every product's brand and category
    are strings, and its dictionaries are then grouped from the products. *)
Lemma agents_generate_grouped products :
  Forall (fun p => is_Some (Spec.str_key (brand_of p))
                   ∧ is_Some (Spec.str_key (category_of p))) products →
  ∃ jp kb kc,
    _generate_json_pages products = Ok jp
    ∧ Forall2 (Spec.keyed_by (Spec.str_key ∘ brand_of)) products kb
    ∧ Forall2 (Spec.keyed_by (Spec.str_key ∘ category_of)) products kc
    ∧ grouped new_brand Agents.products (fun a => (name a, slug a)) (brands jp) kb
    ∧ grouped new_category Agents.products (fun a => (name a, slug a))
        (categories jp) kc.
Proof.
  intros Hall.
  destruct (keyed_total (Spec.str_key ∘ brand_of) products) as [kb Hkb].
  { eapply Forall_impl; [exact Hall|]. by intros p [? _]. }
  destruct (keyed_total (Spec.str_key ∘ category_of) products) as [kc Hkc].
  { eapply Forall_impl; [exact Hall|]. by intros p [_ ?]. }
  pose proof (grouped_fold new_brand append_product Agents.products
                (fun a => (name a, slug a))
                (fun _ => eq_refl) (fun _ _ => eq_refl) (fun _ _ => eq_refl)
                [] [] kb (grouped_nil _ _ _)) as Gb.
  pose proof (grouped_fold new_category append_product Agents.products
                (fun a => (name a, slug a))
                (fun _ => eq_refl) (fun _ _ => eq_refl) (fun _ _ => eq_refl)
                [] [] kc (grouped_nil _ _ _)) as Gc.
  simpl in Gb, Gc.
  destruct (build_sitemap slug (fold_left (group_step new_brand append_product) kb [])
              (fold_left (group_step new_category append_product) kc []))
    as [sm|] eqn:Hs.
  2: { rewrite build_sitemap_spec in Hs by (by eapply grouped_NoDup). done. }
  exists {| all_products := products;
            brands := fold_left (group_step new_brand append_product) kb [];
            categories := fold_left (group_step new_category append_product) kc [];
            sitemap := sm |}, kb, kc.
  split; [|split; [exact Hkb|]; split; [exact Hkc|]; split; [exact Gb | exact Gc]].
  unfold _generate_json_pages.
  rewrite (for_each_ext brands_step _ [] products brands_step_classified).
  rewrite (for_each_ext categories_step _ [] products categories_step_classified).
  rewrite (for_each_classified _ _ classify_brand _ _ kb)
    by (by apply (classify_keyed brand_of)).
  simpl.
  rewrite (for_each_classified _ _ classify_category _ _ kc)
    by (by apply (classify_keyed category_of)).
  simpl. rewrite Hs. reflexivity.
Qed.
End AgentGrouped.

(** C5. Aggregation puts every Product into the aggregate keyed by its
    brand (and, in the agent, also into the one keyed by its category) and
    into no other: the keys of each dictionary are the distinct key values
    in the order of their first appearance, none twice, and the products of
    the aggregate under a key are the input products with that key, in input
    order. *)
Theorem C5_aggregation (products : list Manager.Product) (dicts : list pydict) :
  Forall (fun p => is_Some (Spec.str_key (Agents.brand_of p))
                   ∧ is_Some (Spec.str_key (Agents.category_of p))) dicts →
  (let pages := Manager.generate_brand_pages products in
   keys pages = Spec.first_seen (Manager.brand <$> products)
   ∧ NoDup (keys pages)
   ∧ (∀ k page, (k, page) ∈ pages →
        Manager.page_name page = k
        ∧ Manager.page_products page
          = filter (fun p => Manager.brand p = k) products)
   ∧ (∀ p k page, p ∈ products → (k, page) ∈ pages →
        p ∈ Manager.page_products page ↔ Manager.brand p = k))
  ∧ ∃ jp,
      Agents._generate_json_pages dicts = Ok jp
      ∧ keys (Agents.brands jp)
        = Spec.first_seen (omap (Spec.str_key ∘ Agents.brand_of) dicts)
      ∧ NoDup (keys (Agents.brands jp))
      ∧ (∀ k a, (k, a) ∈ Agents.brands jp →
           Agents.name a = k
           ∧ Agents.products a
             = filter (fun p => Spec.str_key (Agents.brand_of p) = Some k) dicts)
      ∧ (∀ p k a, p ∈ dicts → (k, a) ∈ Agents.brands jp →
           p ∈ Agents.products a ↔ Agents.brand_of p = VStr k)
      ∧ keys (Agents.categories jp)
        = Spec.first_seen (omap (Spec.str_key ∘ Agents.category_of) dicts)
      ∧ NoDup (keys (Agents.categories jp))
      ∧ (∀ k a, (k, a) ∈ Agents.categories jp →
           Agents.name a = k
           ∧ Agents.products a
             = filter (fun p => Spec.str_key (Agents.category_of p) = Some k) dicts)
      ∧ (∀ p k a, p ∈ dicts → (k, a) ∈ Agents.categories jp →
           p ∈ Agents.products a ↔ Agents.category_of p = VStr k).
Proof.
  intros Hall. split.
  - destruct (generate_brand_pages_spec products) as (Hk & Hnd & Hel).
    split; [exact Hk|]. split; [exact Hnd|]. split.
    + intros k page Hin. destruct (Hel k page Hin) as (Hn & Hp & _). by split.
    + intros p k page Hp Hin. destruct (Hel k page Hin) as (_ & -> & _).
      rewrite list_elem_of_filter. by split; [intros [? _] | intros ?].
  - destruct (agents_generate_grouped dicts Hall)
      as (jp & kb & kc & Hjp & Hkb & Hkc & Gb & Gc).
    assert (Hb : ∀ k a, (k, a) ∈ Agents.brands jp →
              Agents.name a = k
              ∧ Agents.products a
                = filter (fun p => Spec.str_key (Agents.brand_of p) = Some k) dicts).
    { intros k a Hin. destruct (grouped_elem _ _ _ _ _ k a Gb Hin) as [Hi Hl].
      split; [by injection Hl|]. by rewrite Hi, (keyed_filter _ _ _ k Hkb). }
    assert (Hc : ∀ k a, (k, a) ∈ Agents.categories jp →
              Agents.name a = k
              ∧ Agents.products a
                = filter (fun p => Spec.str_key (Agents.category_of p) = Some k) dicts).
    { intros k a Hin. destruct (grouped_elem _ _ _ _ _ k a Gc Hin) as [Hi Hl].
      split; [by injection Hl|]. by rewrite Hi, (keyed_filter _ _ _ k Hkc). }
    exists jp. split; [exact Hjp|].
    split; [by rewrite (proj1 Gb), (keyed_fst _ _ _ Hkb)|].
    split; [by eapply grouped_NoDup|].
    split; [exact Hb|].
    split.
    { intros p k a Hp Hin. destruct (Hb k a Hin) as [_ ->].
      rewrite list_elem_of_filter, <- str_key_Some. by split; [intros [? _] | intros ?]. }
    split; [by rewrite (proj1 Gc), (keyed_fst _ _ _ Hkc)|].
    split; [by eapply grouped_NoDup|].
    split; [exact Hc|].
    intros p k a Hp Hin. destruct (Hc k a Hin) as [_ ->].
    rewrite list_elem_of_filter, <- str_key_Some. by split; [intros [? _] | intros ?].
Qed.

Lemma C5_aggregation_witness :
  Forall (fun p => is_Some (Spec.str_key (Agents.brand_of p))
                   ∧ is_Some (Spec.str_key (Agents.category_of p))) three_dicts
  ∧ keys (Manager.generate_brand_pages three_products) = [u "Acme"; u "Zed"]
  ∧ ∃ jp, Agents._generate_json_pages three_dicts = Ok jp
          ∧ keys (Agents.brands jp) = [u "Acme"; u "Zed"]
          ∧ keys (Agents.categories jp) = [u "Skin"; u "Hair"].
Proof.
  assert (H : Forall (fun p => is_Some (Spec.str_key (Agents.brand_of p))
                               ∧ is_Some (Spec.str_key (Agents.category_of p)))
                three_dicts).
  { repeat constructor; vm_compute; eexists; reflexivity. }
  split; [exact H|].
  destruct (C5_aggregation three_products three_dicts H)
    as [(Hk & _) (jp & Hjp & Hb & _ & _ & _ & Hc & _)].
  split; [rewrite Hk; vm_compute; reflexivity|].
  exists jp. split; [exact Hjp|].
  split; [rewrite Hb | rewrite Hc]; vm_compute; reflexivity.
Defined.

(** C7. The site map built from a brand dictionary and a category
    dictionary is the four bootstrap entries "/" (daily, 1.0), "/products"
    (daily, 0.9), "/brands" (weekly, 0.8), "/categories" (weekly, 0.8), then
    one weekly entry of priority 0.7 with url "/brand/" and the slug per
    brand in the dictionary's order, then one with url "/category/" and the
    slug per category in the dictionary's order: 4 + brands + categories
    entries. This holds for the web layer and for the agent, and in a run of
    [generate_json_pages] the slugs are those derived from the keys. *)
Theorem C7_sitemap (brands categories : odict Main.aggregate)
    (agent_brands agent_categories : odict Agents.aggregate) :
  NoDup (keys brands) → NoDup (keys categories) →
  NoDup (keys agent_brands) → NoDup (keys agent_categories) →
  build_sitemap Main.slug brands categories
  = Ok (Spec.sitemap ((fun kv => Main.slug kv.2) <$> brands)
                     ((fun kv => Main.slug kv.2) <$> categories))
  ∧ length (Spec.sitemap ((fun kv => Main.slug kv.2) <$> brands)
                         ((fun kv => Main.slug kv.2) <$> categories))
    = (4 + length brands + length categories)%nat
  ∧ build_sitemap Agents.slug agent_brands agent_categories
    = Ok (Spec.sitemap ((fun kv => Agents.slug kv.2) <$> agent_brands)
                       ((fun kv => Agents.slug kv.2) <$> agent_categories))
  ∧ length (Spec.sitemap ((fun kv => Agents.slug kv.2) <$> agent_brands)
                         ((fun kv => Agents.slug kv.2) <$> agent_categories))
    = (4 + length agent_brands + length agent_categories)%nat
  ∧ ∀ products jp,
      Main.generate_json_pages products = Ok jp →
      Main.sitemap jp
      = Spec.sitemap (Main.brand_slug <$> keys (Main.brands jp))
                     (Main.category_slug <$> keys (Main.categories jp)).
Proof.
  intros Hb Hc Hab Hac.
  split; [by apply build_sitemap_spec|].
  split; [by rewrite length_sitemap, !length_fmap|].
  split; [by apply build_sitemap_spec|].
  split; [by rewrite length_sitemap, !length_fmap|].
  intros products jp Hjp.
  destruct (main_generate_grouped products jp Hjp) as ([kb Gb] & [kc Gc] & Hs).
  rewrite build_sitemap_spec in Hs by (by eapply grouped_NoDup).
  injection Hs as <-. f_equal.
  - apply slugs_by_key. intros k a Hin.
    destruct (grouped_elem _ _ _ _ _ k a Gb Hin) as [_ Hl]. by injection Hl.
  - apply slugs_by_key. intros k a Hin.
    destruct (grouped_elem _ _ _ _ _ k a Gc Hin) as [_ Hl]. by injection Hl.
Qed.

Lemma C7_sitemap_witness :
  NoDup (keys acme_zed) ∧ NoDup (keys skin)
  ∧ build_sitemap Main.slug acme_zed skin
    = Ok [ {| url := u "/"; changefreq := u "daily"; priority := u "1.0" |};
           {| url := u "/products"; changefreq := u "daily"; priority := u "0.9" |};
           {| url := u "/brands"; changefreq := u "weekly"; priority := u "0.8" |};
           {| url := u "/categories"; changefreq := u "weekly"; priority := u "0.8" |};
           {| url := u "/brand/acme"; changefreq := u "weekly"; priority := u "0.7" |};
           {| url := u "/brand/zed"; changefreq := u "weekly"; priority := u "0.7" |};
           {| url := u "/category/skin"; changefreq := u "weekly"; priority := u "0.7" |} ].
Proof.
  assert (H1 : NoDup (keys acme_zed)).
  { apply (bool_decide_unpack _). vm_compute. exact I. }
  assert (H2 : NoDup (keys skin)).
  { apply (bool_decide_unpack _). vm_compute. exact I. }
  assert (H3 : NoDup (keys agent_acme_zed)).
  { apply (bool_decide_unpack _). vm_compute. exact I. }
  assert (H4 : NoDup (keys agent_skin)).
  { apply (bool_decide_unpack _). vm_compute. exact I. }
  split; [exact H1|]. split; [exact H2|].
  destruct (C7_sitemap acme_zed skin agent_acme_zed agent_skin H1 H2 H3 H4) as [H _].
  rewrite H. vm_compute. reflexivity.
Defined.

(** * Further properties of the sources *)

Import MoreExamples.

(** ** More on list-field parsing *)

Section Stripping.
Implicit Types (s t : pystr) (c : char).

Lemma lstrip_idem s : lstrip (lstrip s) = lstrip s.
Proof.
  induction s as [|x s IH]; [done|]. simpl.
  destruct (isspace x) eqn:Hx; [done|]. simpl. by rewrite Hx.
Qed.

Lemma lstrip_head c t s : lstrip s = c :: t → isspace c = false.
Proof.
  induction s as [|x s IH]; [done|]. simpl.
  destruct (isspace x) eqn:Hx; [done|]. by intros [= <- _].
Qed.

Lemma lstrip_snoc s c : isspace c = false → lstrip (s ++ [c]) = lstrip s ++ [c].
Proof.
  intros Hc. induction s as [|x s IH]; simpl; [by rewrite Hc|].
  by destruct (isspace x).
Qed.

Lemma rstrip_idem s : rstrip (rstrip s) = rstrip s.
Proof. unfold rstrip. by rewrite rev_involutive, lstrip_idem. Qed.

Lemma rstrip_cons c s : isspace c = false → rstrip (c :: s) = c :: rstrip s.
Proof.
  intros Hc. unfold rstrip. cbn [rev]. rewrite lstrip_snoc by done.
  by rewrite rev_app_distr.
Qed.

Lemma lstrip_rstrip_lstrip s : lstrip (rstrip (lstrip s)) = rstrip (lstrip s).
Proof.
  destruct (lstrip s) as [|c t] eqn:Hs; [done|].
  pose proof (lstrip_head _ _ _ Hs) as Hc.
  rewrite rstrip_cons by done. simpl. by rewrite Hc.
Qed.

Lemma strip_idem s : strip (strip s) = strip s.
Proof. unfold strip. by rewrite lstrip_rstrip_lstrip, rstrip_idem. Qed.

Lemma elem_of_lstrip c s : c ∈ lstrip s → c ∈ s.
Proof.
  induction s as [|x s IH]; [done|]. simpl.
  destruct (isspace x); [|done]. intros H. right. by apply IH.
Qed.

Lemma elem_of_rev c s : c ∈ rev s ↔ c ∈ s.
Proof. rewrite !list_elem_of_In. symmetry. apply in_rev. Qed.

Lemma elem_of_strip c s : c ∈ strip s → c ∈ s.
Proof.
  unfold strip, rstrip. rewrite elem_of_rev. intros H%elem_of_lstrip.
  rewrite elem_of_rev in H. by apply elem_of_lstrip.
Qed.

Lemma split_char_free c s : Forall (fun piece => c ∉ piece) (split [c] s).
Proof.
  unfold split. induction s as [|x s IH].
  - repeat constructor. by intros ?%elem_of_nil.
  - cbn [split_go startswith length Nat.sub]. rewrite andb_true_r.
    destruct (N.eqb_spec c x) as [->|Hne].
    + constructor; [by intros ?%elem_of_nil | done].
    + destruct (split_go [c] 0 s) as [|piece pieces].
      * repeat constructor. by intros [?|?%elem_of_nil]%elem_of_cons.
      * apply Forall_cons in IH as [Hp Hps]. constructor; [|done].
        intros [?|?]%elem_of_cons; [congruence | done].
Qed.
End Stripping.

Section ParsedPieces.
Import Manager.

Lemma split_strip_pieces sep raw :
  Forall (fun piece => piece ≠ [] ∧ strip piece = piece) (split_strip sep raw).
Proof.
  unfold split_strip. induction (split sep raw) as [|p ps IH]; [constructor|].
  rewrite omap_cons. destruct (strip p) as [|c t] eqn:Hp; simpl; [done|].
  constructor; [|done]. split; [done|]. rewrite <- Hp. apply strip_idem.
Qed.

Lemma split_on_first_pieces seps raw :
  Forall (fun piece => piece ≠ [] ∧ strip piece = piece) (split_on_first seps raw).
Proof.
  induction seps as [|sep seps IH]; simpl.
  - destruct (strip raw) as [|c t] eqn:Hr; simpl; [constructor|].
    repeat constructor; [done|]. rewrite <- Hr. apply strip_idem.
  - destruct (contains sep raw); [apply split_strip_pieces | apply IH].
Qed.

Lemma split_strip_char_free c raw :
  Forall (fun piece => c ∉ piece) (split_strip [c] raw).
Proof.
  unfold split_strip. pose proof (split_char_free c raw) as H.
  induction H as [|p ps Hp _ IH]; [constructor|].
  rewrite omap_cons. destruct (nonempty (strip p)); [|done].
  constructor; [|done]. by intros ?%elem_of_strip.
Qed.
End ParsedPieces.

(** X1. Whatever the field, every string that [parse_skin_types] or
    [parse_ingredients] returns is non-empty and has no white space at
    either end. *)
Theorem X1_pieces_trimmed (field : Manager.cell) (pieces : list pystr) :
  Manager.parse_skin_types field = Ok pieces
  ∨ Manager.parse_ingredients field = Ok pieces →
  Forall (fun piece => piece ≠ [] ∧ strip piece = piece) pieces.
Proof.
  rewrite parse_ingredients_eq. intros H.
  assert (Hs : Manager.parse_skin_types field = Ok pieces) by (by destruct H).
  clear H. unfold Manager.parse_skin_types in Hs.
  destruct (negb (Manager.cell_truthy field)).
  - injection Hs as <-. constructor.
  - destruct field as [s| | |]; try done. injection Hs as <-.
    exact (split_on_first_pieces Manager.skin_type_separators s).
Qed.

Lemma X1_pieces_trimmed_witness :
  Manager.parse_skin_types (Manager.CStr (u " dry ;; oily skin ; "))
  = Ok [u "dry"; u "oily skin"]
  ∧ Forall (fun piece => piece ≠ [] ∧ strip piece = piece) [u "dry"; u "oily skin"].
Proof.
  assert (H : Manager.parse_skin_types (Manager.CStr (u " dry ;; oily skin ; "))
              = Ok [u "dry"; u "oily skin"]) by (vm_compute; reflexivity).
  split; [exact H|].
  exact (X1_pieces_trimmed _ _ (or_introl H)).
Defined.

(** X2. No string returned for a raw text contains the delimiter the text
    was split on: when [d] is the first of comma, semicolon, pipe and
    Persian comma that occurs in the text, [d] occurs in none of the pieces,
    for [parse_skin_types] and for [parse_ingredients]. *)
Theorem X2_pieces_without_delimiter (raw d : pystr) (pieces : list pystr) :
  Spec.first_delimiter Manager.skin_type_separators raw = Some d →
  Manager.parse_skin_types (Manager.CStr raw) = Ok pieces
  ∨ Manager.parse_ingredients (Manager.CStr raw) = Ok pieces →
  Forall (fun piece => contains d piece = false) pieces.
Proof.
  intros Hd H. rewrite parse_ingredients_eq in H.
  assert (Hs : Manager.parse_skin_types (Manager.CStr raw) = Ok pieces)
    by (by destruct H).
  clear H.
  assert (Hraw : Manager.parse_skin_types (Manager.CStr raw)
                 = Ok (Manager.split_on_first Manager.skin_type_separators raw)).
  { unfold Manager.parse_skin_types. by destruct raw. }
  rewrite Hraw, split_on_first_spec in Hs. injection Hs as <-.
  unfold Spec.parse_list. rewrite Hd. rewrite <- split_strip_spec.
  assert (Hc : ∃ c, d = [c]).
  { unfold Spec.first_delimiter in Hd. apply find_some in Hd as [Hin _].
    unfold Manager.skin_type_separators in Hin. simpl in Hin.
    destruct Hin as [<-|[<-|[<-|[<-|[]]]]]; eauto. }
  destruct Hc as [c ->].
  eapply Forall_impl; [apply split_strip_char_free|].
  intros piece Hp. simpl in Hp. destruct (contains [c] piece) eqn:E; [|done].
  by apply contains_char in E.
Qed.

Lemma X2_pieces_without_delimiter_witness :
  Spec.first_delimiter Manager.skin_type_separators (u "a;b|c") = Some (u ";")
  ∧ Manager.parse_skin_types (Manager.CStr (u "a;b|c")) = Ok [u "a"; u "b|c"]
  ∧ Forall (fun piece => contains (u ";") piece = false) [u "a"; u "b|c"].
Proof.
  assert (H1 : Spec.first_delimiter Manager.skin_type_separators (u "a;b|c")
               = Some (u ";")) by (vm_compute; reflexivity).
  assert (H2 : Manager.parse_skin_types (Manager.CStr (u "a;b|c"))
               = Ok [u "a"; u "b|c"]) by (vm_compute; reflexivity).
  split; [exact H1|]. split; [exact H2|].
  exact (X2_pieces_without_delimiter _ _ _ H1 (or_introl H2)).
Defined.

(** ** More on [load_csv] and [export_to_csv] *)

Lemma float_of_cell_cases c :
  match Manager.float_of_cell c with
  | Ok _ =>
      Spec.price_cell_ok c = true
      ∧ Conditions.price_text_rejected c = false
      ∧ Conditions.price_overflows c = false
  | Raise e =>
      Spec.price_cell_ok c = false
      ∧ ((e = ValueError ∧ Conditions.price_text_rejected c = true
          ∧ Conditions.price_overflows c = false)
         ∨ (e = OverflowError ∧ Conditions.price_overflows c = true
            ∧ Conditions.price_text_rejected c = false))
  end.
Proof.
  destruct c as [s|z|f|b]; simpl; try done.
  - destruct (float_of_str s); [done|]. split; [done|]. by left.
  - destruct (int_overflows z); [|done]. split; [done|]. by right.
Qed.

(** An integer price beyond every double: [float()] raises OverflowError,
    and the load that holds such a row comes back empty. *)
Example float_refuses_huge :
  Manager.make_product row_price_huge = Raise OverflowError
  ∧ Manager.load_csv Manager.init (Manager.DataFrame [row_cream; row_price_huge])
    = ([], Manager.init).
Proof. split; vm_compute; reflexivity. Qed.

(** X3. The [Product(...)] call of [load_csv] fails in three ways only:
    with ValueError exactly when the price cell is a string that [float()]
    rejects, with OverflowError exactly when the price cell is an integer
    beyond the range of a double, and with TypeError exactly when the price
    cell is fine and the skin-type or the ingredients cell is a truthy value
    that is no string (a NaN, a non-zero number, True); in every other case
    a Product is built. *)
Theorem X3_make_product_failures (r : Manager.row) :
  let price_cell := Manager.row_get r "Regular price" (Manager.CInt 0) in
  let skin_cell := Manager.row_get r "Meta: _livora_skin_type" (Manager.CStr []) in
  let ingredients_cell := Manager.row_get r "Meta: ingredients" (Manager.CStr []) in
  (Manager.make_product r = Raise ValueError
   ↔ Conditions.price_text_rejected price_cell = true)
  ∧ (Manager.make_product r = Raise OverflowError
     ↔ Conditions.price_overflows price_cell = true)
  ∧ (Manager.make_product r = Raise TypeError
     ↔ Spec.price_cell_ok price_cell = true
       ∧ (Spec.list_cell_ok skin_cell = false
          ∨ Spec.list_cell_ok ingredients_cell = false))
  ∧ ((∃ product, Manager.make_product r = Ok product)
     ↔ Spec.price_cell_ok price_cell = true
       ∧ Spec.list_cell_ok skin_cell = true
       ∧ Spec.list_cell_ok ingredients_cell = true)
  ∧ (∀ e, Manager.make_product r = Raise e →
       e = ValueError ∨ e = OverflowError ∨ e = TypeError).
Proof.
  intros price_cell skin_cell ingredients_cell.
  unfold Manager.make_product. fold price_cell skin_cell ingredients_cell.
  rewrite parse_ingredients_eq.
  pose proof (float_of_cell_cases price_cell) as Hprice.
  destruct (Manager.float_of_cell price_cell) as [f|e]; simpl.
  - destruct Hprice as (-> & -> & ->).
    destruct (Spec.list_cell_ok skin_cell) eqn:Hs.
    + destruct (parse_skin_types_ok _ Hs) as [l1 ->]. simpl.
      destruct (Spec.list_cell_ok ingredients_cell) eqn:Hi.
      * destruct (parse_skin_types_ok _ Hi) as [l2 ->]. simpl.
        split; [done|]. split; [done|].
        split; [split; [done | by intros [_ [?|?]]]|].
        split; [split; [done | eauto]|]. by intros e [=].
      * rewrite (parse_skin_types_raises _ Hi). simpl.
        split; [done|]. split; [done|]. split; [split; [by auto | done]|].
        split; [split; [by intros [? ?] | by intros (_ & _ & ?)]|].
        intros e [= <-]. auto.
    + rewrite (parse_skin_types_raises _ Hs). simpl.
      split; [done|]. split; [done|]. split; [split; [by auto | done]|].
      split; [split; [by intros [? ?] | by intros (_ & ? & _)]|].
      intros e [= <-]. auto.
  - destruct Hprice as [-> [(-> & -> & ->)|(-> & -> & ->)]].
    + split; [done|]. split; [done|]. split; [split; [done | by intros [? _]]|].
      split; [split; [by intros [? ?] | by intros (? & _)]|].
      intros e [= <-]. auto.
    + split; [done|]. split; [done|]. split; [split; [done | by intros [? _]]|].
      split; [split; [by intros [? ?] | by intros (? & _)]|].
      intros e [= <-]. auto.
Qed.

Section LoadedProducts.
Import Manager.

Lemma make_product_fields r product :
  make_product r = Ok product →
  Spec.no_enrichment product
  ∧ Forall (fun cf : string * (Product → pystr) =>
              cf.2 product = str_of_cell (row_get r cf.1 (CStr [])))
      Conditions.text_columns.
Proof.
  unfold make_product. destruct (float_of_cell _) as [f|]; [|done]. simpl.
  destruct (parse_skin_types _); [|done]. simpl.
  destruct (parse_ingredients _); [|done]. simpl.
  intros [= <-]. split; [done|]. repeat constructor.
Qed.

Lemma make_products_no_enrichment rows loaded :
  make_products rows = Ok loaded → Forall Spec.no_enrichment loaded.
Proof.
  revert loaded. induction rows as [|r rows IH]; intros loaded; simpl.
  - intros [= <-]. constructor.
  - destruct (make_product r) as [p|] eqn:Hp; [|done]. simpl.
    destruct (make_products rows) as [ps|]; [|done]. simpl. intros [= <-].
    constructor; [by apply (make_product_fields r) | by apply IH].
Qed.

Lemma load_csv_no_enrichment self file : Forall Spec.no_enrichment (load_csv self file).1.
Proof.
  unfold load_csv. destruct file as [e|rows]; [constructor|].
  destruct (make_products rows) eqn:H; [|constructor].
  by eapply make_products_no_enrichment.
Qed.

(** The rows of a table: as many as the products, each made from the
    product at its place and its number. *)
Lemma write_rows_lookup make_row i products rows :
  write_rows make_row i products = Ok rows →
  length rows = length products
  ∧ ∀ n p, products !! n = Some p →
      ∃ row, rows !! n = Some row ∧ make_row (i + Z.of_nat n)%Z p = Ok row.
Proof.
  revert i rows. induction products as [|p ps IH]; intros i rows; simpl.
  - intros [= <-]. split; [done|]. by intros n p [=].
  - destruct (make_row i p) as [row|] eqn:Hrow; [|done]. simpl.
    destruct (write_rows make_row (i + 1) ps) as [rows'|] eqn:Hrows; [|done].
    simpl. intros [= <-]. destruct (IH _ _ Hrows) as [Hlen Hlook].
    split; [simpl; by rewrite Hlen|]. intros [|n] p'; simpl.
    + intros [= <-]. exists row. by rewrite Z.add_0_r.
    + intros Hp. destruct (Hlook n p' Hp) as (row' & Hr & Hm).
      exists row'. split; [done|]. rewrite <- Hm. f_equal. lia.
Qed.

Lemma write_rows_enhanced i products :
  ∃ rows, write_rows enhanced_row i products = Ok rows.
Proof.
  revert i. induction products as [|p ps IH]; intros i; simpl; [eauto|].
  destruct (IH (i + 1)%Z) as [rows ->]. simpl. eauto.
Qed.

Lemma woocommerce_row_keywords i p :
  if Conditions.keywords_not_text p
  then woocommerce_row i p = Raise AttributeError
  else ∃ row, woocommerce_row i p = Ok row.
Proof.
  unfold Conditions.keywords_not_text, woocommerce_row, seo_focus_keyword.
  destruct (seo_if_set p) as [seo|]; [|simpl; eauto].
  destruct (get_or seo "keywords" (VStr [])); simpl; eauto.
Qed.

Lemma write_rows_woocommerce_ok i products :
  Forall (fun p => Conditions.keywords_not_text p = false) products →
  ∃ rows, write_rows woocommerce_row i products = Ok rows.
Proof.
  intros H. revert i. induction H as [|p ps Hp _ IH]; intros i; simpl; [eauto|].
  pose proof (woocommerce_row_keywords i p) as Hrow. rewrite Hp in Hrow.
  destruct Hrow as [row ->]. simpl. destruct (IH (i + 1)%Z) as [rows ->].
  simpl. eauto.
Qed.

Lemma write_rows_woocommerce_raises i products :
  Exists (fun p => Conditions.keywords_not_text p = true) products →
  write_rows woocommerce_row i products = Raise AttributeError.
Proof.
  intros H. revert i. induction H as [p ps Hp|p ps _ IH]; intros i; simpl.
  - pose proof (woocommerce_row_keywords i p) as Hrow. rewrite Hp in Hrow.
    by rewrite Hrow.
  - pose proof (woocommerce_row_keywords i p) as Hrow.
    destruct (Conditions.keywords_not_text p).
    + by rewrite Hrow.
    + destruct Hrow as [row ->]. simpl. by rewrite IH.
Qed.
End LoadedProducts.

(** X4. The products that [load_csv] returns carry no enrichment, whatever
    the file; exporting them never raises: the commerce table is the header
    and one plain row per product, and the enhanced table is written too. *)
Theorem X4_loaded_products_export (self : Manager.manager)
    (file : Manager.read_csv_result) :
  let loaded := (Manager.load_csv self file).1 in
  Forall Spec.no_enrichment loaded
  ∧ Manager.export_to_csv loaded (u "woocommerce")
    = Ok ((VStr <$> Manager.woocommerce_headers)
          :: imap (fun n p => Spec.plain_commerce_row (1 + Z.of_nat n) p) loaded)
  ∧ ∃ rows, Manager.export_to_csv loaded (u "enhanced") = Ok rows.
Proof.
  intros loaded. pose proof (load_csv_no_enrichment self file) as Hplain.
  fold loaded in Hplain. split; [exact Hplain|]. split.
  - unfold Manager.export_to_csv. rewrite decide_True by reflexivity.
    by rewrite (write_rows_plain 1 loaded Hplain).
  - unfold Manager.export_to_csv. rewrite decide_False by (by vm_compute).
    rewrite decide_True by reflexivity.
    destruct (write_rows_enhanced 1 loaded) as [rows ->]. simpl. eauto.
Qed.

(** X5. Each of the text fields id, name, category, description, sku and
    usage of a parsed Product is [str()] of the cell of its column: the empty
    string when the row has no such column, the text nan when the cell is
    empty in the file (NaN), and the decimal digits when the cell is an
    integer. *)
Theorem X5_text_fields (r : Manager.row) (product : Manager.Product)
    (column : string) (field : Manager.Product → pystr) :
  Manager.make_product r = Ok product →
  (column, field) ∈ Conditions.text_columns →
  field product = Manager.str_of_cell (Manager.row_get r column (Manager.CStr []))
  ∧ (r !! column = None → field product = [])
  ∧ (r !! column = Some (Manager.CFloat PrimFloat.nan) → field product = u "nan")
  ∧ (∀ z, r !! column = Some (Manager.CInt z) → field product = str_of_Z z).
Proof.
  intros Hp Hin. destruct (make_product_fields r product Hp) as [_ Hall].
  rewrite Forall_forall in Hall. specialize (Hall _ Hin). simpl in Hall.
  split; [exact Hall|]. unfold Manager.row_get in Hall.
  split; [|split]; [intros H | intros H | intros z H]; by rewrite H in Hall.
Qed.

Lemma X5_text_fields_witness :
  ∃ product,
    Manager.make_product row_unnamed = Ok product
    ∧ Manager.name product = u "nan"
    ∧ Manager.id product = u "7"
    ∧ Manager.sku product = [].
Proof.
  destruct (Manager.make_product row_unnamed) as [product|e] eqn:Hp;
    [|vm_compute in Hp; discriminate].
  exists product. split; [reflexivity|].
  assert (Hname : (("Name"%string, Manager.name)) ∈ Conditions.text_columns)
    by (apply list_elem_of_In; simpl; tauto).
  assert (Hid : (("ID"%string, Manager.id)) ∈ Conditions.text_columns)
    by (apply list_elem_of_In; simpl; tauto).
  assert (Hsku : (("SKU"%string, Manager.sku)) ∈ Conditions.text_columns)
    by (apply list_elem_of_In; simpl; tauto).
  destruct (X5_text_fields row_unnamed product _ _ Hp Hname) as (_ & _ & Hnan & _).
  destruct (X5_text_fields row_unnamed product _ _ Hp Hid) as (_ & _ & _ & Hint).
  destruct (X5_text_fields row_unnamed product _ _ Hp Hsku) as (_ & Hnone & _ & _).
  split; [apply Hnan; vm_compute; reflexivity|].
  split; [rewrite (Hint 7%Z); vm_compute; reflexivity|].
  apply Hnone. vm_compute. reflexivity.
Defined.

(** X6. A load that goes through stores the returned list in the manager
    and leaves [processed_products] alone; a later load that fails returns
    the empty list and leaves the manager with the products of the earlier
    load. *)
Theorem X6_failed_load_keeps_products (self : Manager.manager)
    (rows : list Manager.row) (file : Manager.read_csv_result) :
  Forall (fun r => Spec.row_constructs r = true) rows →
  Conditions.load_fails file →
  let '(loaded, self1) := Manager.load_csv self (Manager.DataFrame rows) in
  Manager.products self1 = loaded
  ∧ length loaded = length rows
  ∧ Manager.processed_products self1 = Manager.processed_products self
  ∧ Manager.load_csv self1 file = ([], self1).
Proof.
  intros Hrows Hfile. destruct (make_products_ok rows Hrows) as (loaded & Hl & H2).
  unfold Manager.load_csv at 1. rewrite Hl. simpl.
  split; [done|]. split; [symmetry; by eapply Forall2_length|]. split; [done|].
  destruct file as [e|rows']; [done|]. simpl in Hfile.
  destruct (make_products_raises rows' Hfile) as [e He].
  unfold Manager.load_csv. by rewrite He.
Qed.

Lemma X6_failed_load_keeps_products_witness :
  Forall (fun r => Spec.row_constructs r = true) [row_cream; row_serum]
  ∧ Conditions.load_fails (Manager.DataFrame [row_price_text])
  ∧ length (Manager.products
              (Manager.load_csv
                 (Manager.load_csv Manager.init
                    (Manager.DataFrame [row_cream; row_serum])).2
                 (Manager.DataFrame [row_price_text])).2) = 2%nat.
Proof.
  assert (H1 : Forall (fun r => Spec.row_constructs r = true) [row_cream; row_serum]).
  { repeat constructor; vm_compute; reflexivity. }
  assert (H2 : Conditions.load_fails (Manager.DataFrame [row_price_text])).
  { apply Exists_cons_hd. vm_compute; reflexivity. }
  split; [exact H1|]. split; [exact H2|].
  pose proof (X6_failed_load_keeps_products Manager.init _ _ H1 H2) as H.
  destruct (Manager.load_csv Manager.init (Manager.DataFrame [row_cream; row_serum]))
    as [loaded self1].
  destruct H as (Hp & Hlen & _ & Hfail). simpl. rewrite Hfail. simpl.
  by rewrite Hp.
Defined.

Section ExportShape.
Import Manager.

Lemma woocommerce_row_shape i p row :
  woocommerce_row i p = Ok row →
  length row = length woocommerce_headers ∧ row !! 0%nat = Some (VInt i).
Proof.
  unfold woocommerce_row. destruct (seo_focus_keyword p); [|done].
  simpl. by intros [= <-].
Qed.

Lemma enhanced_row_shape i p row :
  enhanced_row i p = Ok row →
  length row = length enhanced_headers ∧ row !! 0%nat = Some (VInt i).
Proof. unfold enhanced_row. simpl. by intros [= <-]. Qed.

Lemma table_shape make_row (headers : list pystr) products rows :
  (∀ i p row, make_row i p = Ok row →
     length row = length headers ∧ row !! 0%nat = Some (VInt i)) →
  write_rows make_row 1 products = Ok rows →
  length rows = length products
  ∧ Forall (fun row => length row = length headers) rows
  ∧ ∀ n row, rows !! n = Some row → row !! 0%nat = Some (VInt (Z.of_nat (S n))).
Proof.
  intros Hshape Hrows. destruct (write_rows_lookup _ _ _ _ Hrows) as [Hlen Hlook].
  split; [exact Hlen|].
  assert (Hrow : ∀ n row, rows !! n = Some row →
            length row = length headers ∧ row !! 0%nat = Some (VInt (Z.of_nat (S n)))).
  { intros n row Hn.
    destruct (products !! n) as [p|] eqn:Hp.
    - destruct (Hlook n p Hp) as (row' & Hr' & Hm). rewrite Hn in Hr'.
      injection Hr' as <-. destruct (Hshape _ _ _ Hm) as [H1 H2].
      split; [done|]. rewrite H2. do 2 f_equal. lia.
    - apply lookup_ge_None in Hp. apply lookup_lt_Some in Hn. lia. }
  split.
  - apply Forall_lookup. intros n row Hn. by apply (Hrow n).
  - intros n row Hn. by apply (Hrow n).
Qed.
End ExportShape.

(** X7. A table that [export_to_csv] writes, in either format, has the
    header and one row per product; every row has as many cells as the
    header; and the first cell of the n-th data row is the number n, counted
    from 1, whatever the product's own id. *)
Theorem X7_export_shape (products : list Manager.Product) (format : pystr)
    (table : list (list pyval)) :
  Manager.export_to_csv products format = Ok table →
  ∃ header rows,
    table = header :: rows
    ∧ length rows = length products
    ∧ Forall (fun row => length row = length header) rows
    ∧ ∀ n row, rows !! n = Some row → row !! 0%nat = Some (VInt (Z.of_nat (S n))).
Proof.
  unfold Manager.export_to_csv. destruct (decide (format = u "woocommerce")).
  - destruct (Manager.write_rows _ _ _) as [rows|] eqn:Hrows; [|done].
    simpl. intros [= <-]. eexists _, rows. split; [done|].
    destruct (table_shape _ _ _ _ woocommerce_row_shape Hrows) as (H1 & H2 & H3).
    split; [done|]. split; [|done].
    eapply Forall_impl; [exact H2|]. intros row Hr. exact Hr.
  - destruct (decide (format = u "enhanced")); [|done].
    destruct (Manager.write_rows _ _ _) as [rows|] eqn:Hrows; [|done].
    simpl. intros [= <-]. eexists _, rows. split; [done|].
    destruct (table_shape _ _ _ _ enhanced_row_shape Hrows) as (H1 & H2 & H3).
    split; [done|]. split; [|done].
    eapply Forall_impl; [exact H2|]. intros row Hr. exact Hr.
Qed.

Lemma X7_export_shape_witness :
  ∃ table, Manager.export_to_csv three_products (u "enhanced") = Ok table
           ∧ length table = 4%nat.
Proof.
  destruct (Manager.export_to_csv three_products (u "enhanced")) as [table|e] eqn:H;
    [|vm_compute in H; discriminate].
  exists table. split; [reflexivity|].
  destruct (X7_export_shape _ _ _ H) as (header & rows & -> & Hlen & _).
  simpl. by rewrite Hlen.
Defined.

(** X8. The enhanced export never raises. The commerce export raises
    exactly when some product has a non-empty SEO content whose 'keywords'
    is no string, and then with AttributeError. Any other format name
    raises UnboundLocalError, whatever the products. *)
Theorem X8_export_failures (products : list Manager.Product) (format : pystr) :
  (∃ table, Manager.export_to_csv products (u "enhanced") = Ok table)
  ∧ (Exists (fun p => Conditions.keywords_not_text p = true) products →
     Manager.export_to_csv products (u "woocommerce") = Raise AttributeError)
  ∧ (Forall (fun p => Conditions.keywords_not_text p = false) products →
     ∃ table, Manager.export_to_csv products (u "woocommerce") = Ok table)
  ∧ (format ≠ u "woocommerce" → format ≠ u "enhanced" →
     Manager.export_to_csv products format = Raise UnboundLocalError).
Proof.
  split; [|split; [|split]].
  - unfold Manager.export_to_csv. rewrite decide_False by (by vm_compute).
    rewrite decide_True by reflexivity.
    destruct (write_rows_enhanced 1 products) as [rows ->]. simpl. eauto.
  - intros H. unfold Manager.export_to_csv. rewrite decide_True by reflexivity.
    by rewrite (write_rows_woocommerce_raises 1 products H).
  - intros H. unfold Manager.export_to_csv. rewrite decide_True by reflexivity.
    destruct (write_rows_woocommerce_ok 1 products H) as [rows ->]. simpl. eauto.
  - intros H1 H2. unfold Manager.export_to_csv. by rewrite !decide_False.
Qed.

Lemma X8_export_failures_witness :
  Exists (fun p => Conditions.keywords_not_text p = true)
    [product_of (u "Acme") (u "Skin") (u "one"); product_numeric_keywords]
  ∧ Manager.export_to_csv
      [product_of (u "Acme") (u "Skin") (u "one"); product_numeric_keywords]
      (u "woocommerce") = Raise AttributeError
  ∧ Manager.export_to_csv three_products (u "json") = Raise UnboundLocalError.
Proof.
  assert (H : Exists (fun p => Conditions.keywords_not_text p = true)
                [product_of (u "Acme") (u "Skin") (u "one"); product_numeric_keywords]).
  { apply Exists_cons_tl, Exists_cons_hd. vm_compute. reflexivity. }
  split; [exact H|].
  destruct (X8_export_failures
              [product_of (u "Acme") (u "Skin") (u "one"); product_numeric_keywords]
              (u "json")) as (_ & Hraise & _ & _).
  destruct (X8_export_failures three_products (u "json")) as (_ & _ & _ & Hfmt).
  split; [exact (Hraise H)|].
  apply Hfmt; vm_compute; discriminate.
Defined.

(** ** Enrichment and the pipeline *)

Section Batches.
Context {A B : Type} (f : A → B).

Lemma concat_batches (z : nat) (l : list A) (m : nat) :
  concat ((fun i => f <$> take z (drop i l)) <$> ((fun k => (k * z)%nat) <$> seq 0 m))
  = f <$> take (m * z) l.
Proof.
  induction m as [|m IH]; [done|].
  rewrite seq_S, !fmap_app, concat_app, IH. simpl. rewrite app_nil_r.
  rewrite <- fmap_app, take_take_drop. do 2 f_equal. lia.
Qed.

Lemma batches_cover (z n : nat) : (0 < z → n ≤ (n + z - 1) / z * z)%nat.
Proof.
  intros Hz. pose proof (Nat.div_mod_eq (n + z - 1) z) as Hdm.
  pose proof (Nat.mod_upper_bound (n + z - 1) z ltac:(lia)) as Hr. nia.
Qed.
End Batches.

Section Enrichment.
Import Manager Enrich.

Lemma enhance_with_ai_positive config products z :
  as_index (get_or config "max_products_per_batch" (VInt 10)) = Ok z →
  (0 < z)%Z →
  enhance_with_ai config products = Ok (enhance_product config <$> products).
Proof.
  intros Hsize Hz. unfold enhance_with_ai. rewrite Hsize. simpl.
  unfold range_from_zero.
  destruct (Z.eqb_spec z 0) as [->|_]; [lia|].
  destruct (Z.ltb_spec z 0) as [?|_]; [lia|]. simpl.
  rewrite concat_batches, take_ge; [done|].
  apply batches_cover. lia.
Qed.

Lemma enhance_product_core config p :
  Conditions.core (enhance_product config p) = Conditions.core p.
Proof. reflexivity. Qed.

Lemma enhance_product_keywords config p :
  Spec.no_enrichment p →
  Conditions.keywords_not_text (enhance_product config p) = false.
Proof.
  intros (_ & Hseo & _). unfold Conditions.keywords_not_text, seo_if_set.
  unfold enhance_product. cbn [seo_content]. rewrite Hseo.
  by destruct (truthy (get_or config "enable_seo_generation" (VBool true))).
Qed.
End Enrichment.

(** X9. With a positive batch size [enhance_with_ai] returns one product
    per input product, in input order, whatever the batch size: the batches
    lose and reorder nothing. Every returned product has the core fields of
    its input and the placeholder text as its enhanced description. *)
Theorem X9_enhance_keeps_all (config : pydict) (products : list Manager.Product)
    (z : Z) :
  Enrich.as_index (get_or config "max_products_per_batch" (VInt 10)) = Ok z →
  (0 < z)%Z →
  ∃ enhanced,
    Enrich.enhance_with_ai config products = Ok enhanced
    ∧ length enhanced = length products
    ∧ Conditions.core <$> enhanced = Conditions.core <$> products
    ∧ Manager.enhanced_description <$> enhanced
      = (fun p => Some (u "Enhanced description for " ++ Manager.name p
                        ++ u ": " ++ Manager.description p)) <$> products.
Proof.
  intros Hsize Hz. eexists. split; [by eapply enhance_with_ai_positive|].
  split; [by rewrite length_fmap|].
  split; by rewrite <- list_fmap_compose.
Qed.

Lemma X9_enhance_keeps_all_witness :
  Enrich.as_index (get_or ({[ "max_products_per_batch" := VInt 2 ]} : pydict)
                     "max_products_per_batch" (VInt 10)) = Ok 2%Z
  ∧ ∃ enhanced,
      Enrich.enhance_with_ai {[ "max_products_per_batch" := VInt 2 ]} three_products
      = Ok enhanced
      ∧ length enhanced = 3%nat.
Proof.
  assert (H : Enrich.as_index
                (get_or ({[ "max_products_per_batch" := VInt 2 ]} : pydict)
                   "max_products_per_batch" (VInt 10)) = Ok 2%Z)
    by (vm_compute; reflexivity).
  split; [exact H|].
  destruct (X9_enhance_keeps_all _ three_products 2 H ltac:(lia))
    as (enhanced & He & Hlen & _).
  exists enhanced. split; [exact He | exact Hlen].
Defined.

(** X10. The batch size decides whether [enhance_with_ai] enriches
    anything: the size 0 (or False) raises ValueError, a negative size
    returns the empty list whatever the products, a size that is neither an
    integer nor a boolean raises TypeError, and without the key the size is
    10 and every product is enriched. *)
Theorem X10_enhance_batch_size_edges (config : pydict)
    (products : list Manager.Product) :
  let size := get_or config "max_products_per_batch" (VInt 10) in
  (size = VInt 0 ∨ size = VBool false →
   Enrich.enhance_with_ai config products = Raise ValueError)
  ∧ (∀ z, size = VInt z → (z < 0)%Z → Enrich.enhance_with_ai config products = Ok [])
  ∧ (Enrich.as_index size = Raise TypeError →
     Enrich.enhance_with_ai config products = Raise TypeError)
  ∧ (config !! "max_products_per_batch" = None →
     Enrich.enhance_with_ai config products
     = Ok (Enrich.enhance_product config <$> products)).
Proof.
  intros size. split; [|split; [|split]].
  - intros H. unfold Enrich.enhance_with_ai. fold size. by destruct H as [-> | ->].
  - intros z Hsize Hz. unfold Enrich.enhance_with_ai. fold size. rewrite Hsize.
    simpl. unfold Enrich.range_from_zero.
    destruct (Z.eqb_spec z 0) as [->|_]; [lia|].
    by destruct (Z.ltb_spec z 0) as [_|?]; [|lia].
  - intros H. unfold Enrich.enhance_with_ai. fold size. by rewrite H.
  - intros H. apply (enhance_with_ai_positive config products 10); [|lia].
    unfold get_or. by rewrite H.
Qed.

Lemma X10_enhance_batch_size_edges_witness :
  Enrich.enhance_with_ai {[ "max_products_per_batch" := VInt 0 ]} three_products
  = Raise ValueError
  ∧ Enrich.enhance_with_ai {[ "max_products_per_batch" := VInt (-5) ]} three_products
    = Ok []
  ∧ Enrich.enhance_with_ai {[ "max_products_per_batch" := VFloat 2.5 ]} three_products
    = Raise TypeError
  ∧ Enrich.enhance_with_ai ∅ three_products
    = Ok (Enrich.enhance_product ∅ <$> three_products).
Proof.
  destruct (X10_enhance_batch_size_edges {[ "max_products_per_batch" := VInt 0 ]}
              three_products) as (H0 & _).
  destruct (X10_enhance_batch_size_edges {[ "max_products_per_batch" := VInt (-5) ]}
              three_products) as (_ & Hneg & _).
  destruct (X10_enhance_batch_size_edges {[ "max_products_per_batch" := VFloat 2.5 ]}
              three_products) as (_ & _ & Hty & _).
  destruct (X10_enhance_batch_size_edges ∅ three_products) as (_ & _ & _ & Hdef).
  split; [apply H0; left; vm_compute; reflexivity|].
  split; [apply (Hneg (-5)%Z); [vm_compute; reflexivity | lia]|].
  split; [apply Hty; vm_compute; reflexivity|].
  apply Hdef. vm_compute; reflexivity.
Defined.

Section EnrichedExport.
Import Manager Enrich.

(** The first piece of a split at a character is what stands before the
    first occurrence of the character. *)
Lemma hd_split_char c a b :
  hd [] (split [c] (a ++ c :: b)) = hd [] (split [c] a).
Proof.
  unfold split. induction a as [|x a IH]; simpl.
  - by rewrite N.eqb_refl.
  - destruct (c =? x) eqn:Hx; simpl; [done|].
    destruct (split_go [c] 0 (a ++ c :: b)) as [|p ps] eqn:H1;
      [by apply split_go_nonempty in H1|].
    destruct (split_go [c] 0 a) as [|q qs] eqn:H2;
      [by apply split_go_nonempty in H2|].
    simpl in *. by rewrite IH.
Qed.

Lemma split_char_absent c s : c ∉ s → split [c] s = [s].
Proof.
  unfold split. induction s as [|x s IH]; [done|].
  intros Hc. apply not_elem_of_cons in Hc as [Hx Hs]. simpl.
  destruct (N.eqb_spec c x) as [->|_]; [done|]. simpl. by rewrite IH.
Qed.

Lemma seo_if_set_generated config p :
  truthy (get_or config "enable_seo_generation" (VBool true)) = true →
  seo_if_set (enhance_product config p) = Some (generate_seo_content p).
Proof. intros H. unfold seo_if_set, enhance_product. cbn [seo_content]. by rewrite H. Qed.

Lemma woocommerce_row_enriched config i p :
  truthy (get_or config "enable_seo_generation" (VBool true)) = true →
  ∃ row,
    woocommerce_row i (enhance_product config p) = Ok row
    ∧ Spec.column woocommerce_headers row (u "Short description")
      = Some (VStr (take 200 (description p)))
    ∧ Spec.column woocommerce_headers row (u "Description")
      = Some (VStr (generate_enhanced_description p))
    ∧ Spec.column woocommerce_headers row (u "Meta: _yoast_wpseo_focuskw")
      = Some (VStr (hd [] (split (u ",") (brand p)))).
Proof.
  intros H. unfold woocommerce_row, seo_focus_keyword, seo_get.
  rewrite (seo_if_set_generated config p H).
  assert (Hk : get_or (generate_seo_content p) "keywords" (VStr [])
               = VStr (brand p ++ u ", " ++ name p ++ u ", " ++ category p
                       ++ u ", خرید آنلاین, بهترین قیمت")) by reflexivity.
  rewrite Hk. simpl. eexists. split; [reflexivity|].
  split; [reflexivity|]. split; [reflexivity|].
  do 2 f_equal. apply (hd_split_char 44).
Qed.
End EnrichedExport.

(** X11. Enrichment followed by the commerce export, with SEO generation
    on and a positive batch size: the export does not raise, and the row of
    each product carries the placeholder enhanced text as its Description,
    the first 200 characters of the original description as its Short
    description, and as focus keyword the brand up to its first comma, which
    is the whole brand when the brand has no comma. *)
Theorem X11_enriched_export (config : pydict) (products : list Manager.Product)
    (z : Z) :
  Enrich.as_index (get_or config "max_products_per_batch" (VInt 10)) = Ok z →
  (0 < z)%Z →
  truthy (get_or config "enable_seo_generation" (VBool true)) = true →
  ∃ enhanced rows,
    Enrich.enhance_with_ai config products = Ok enhanced
    ∧ Manager.export_to_csv enhanced (u "woocommerce")
      = Ok ((VStr <$> Manager.woocommerce_headers) :: rows)
    ∧ ∀ n p, products !! n = Some p →
        ∃ row,
          rows !! n = Some row
          ∧ Spec.column Manager.woocommerce_headers row (u "Description")
            = Some (VStr (u "Enhanced description for " ++ Manager.name p
                          ++ u ": " ++ Manager.description p))
          ∧ Spec.column Manager.woocommerce_headers row (u "Short description")
            = Some (VStr (take 200 (Manager.description p)))
          ∧ Spec.column Manager.woocommerce_headers row (u "Meta: _yoast_wpseo_focuskw")
            = Some (VStr (hd [] (split (u ",") (Manager.brand p))))
          ∧ (44 ∉ Manager.brand p →
             Spec.column Manager.woocommerce_headers row (u "Meta: _yoast_wpseo_focuskw")
             = Some (VStr (Manager.brand p))).
Proof.
  intros Hsize Hz Hseo.
  assert (Hok : Forall (fun p => Conditions.keywords_not_text p = false)
                  (Enrich.enhance_product config <$> products)).
  { apply Forall_fmap, Forall_forall. intros p _.
    unfold Conditions.keywords_not_text. simpl.
    by rewrite (seo_if_set_generated config p Hseo). }
  destruct (write_rows_woocommerce_ok 1 _ Hok) as [rows Hrows].
  exists (Enrich.enhance_product config <$> products), rows.
  split; [by eapply enhance_with_ai_positive|].
  split.
  { unfold Manager.export_to_csv. rewrite decide_True by reflexivity.
    by rewrite Hrows. }
  intros n p Hp. destruct (write_rows_lookup _ _ _ _ Hrows) as [_ Hlook].
  destruct (Hlook n (Enrich.enhance_product config p)) as (row & Hn & Hrow).
  { by rewrite list_lookup_fmap, Hp. }
  destruct (woocommerce_row_enriched config (1 + Z.of_nat n) p Hseo)
    as (row' & Hrow' & Hshort & Hdesc & Hfocus).
  rewrite Hrow in Hrow'. injection Hrow' as <-.
  exists row. split; [exact Hn|]. split; [exact Hdesc|]. split; [exact Hshort|].
  split; [exact Hfocus|]. intros Hcomma. rewrite Hfocus.
  change (u ",") with [44]. by rewrite (split_char_absent 44 _ Hcomma).
Qed.

Lemma X11_enriched_export_witness :
  Enrich.as_index (get_or (∅ : pydict) "max_products_per_batch" (VInt 10)) = Ok 10%Z
  ∧ truthy (get_or (∅ : pydict) "enable_seo_generation" (VBool true)) = true
  ∧ ∃ enhanced rows,
      Enrich.enhance_with_ai ∅ three_products = Ok enhanced
      ∧ Manager.export_to_csv enhanced (u "woocommerce")
        = Ok ((VStr <$> Manager.woocommerce_headers) :: rows).
Proof.
  assert (H1 : Enrich.as_index (get_or (∅ : pydict) "max_products_per_batch" (VInt 10))
               = Ok 10%Z) by (vm_compute; reflexivity).
  assert (H2 : truthy (get_or (∅ : pydict) "enable_seo_generation" (VBool true)) = true)
    by (vm_compute; reflexivity).
  split; [exact H1|]. split; [exact H2|].
  destruct (X11_enriched_export ∅ three_products 10 H1 ltac:(lia) H2)
    as (enhanced & rows & He & Hx & _).
  by exists enhanced, rows.
Defined.

Section Pipeline.
Import Manager Enrich.

Lemma export_to_csv_length products format table :
  export_to_csv products format = Ok table → length table = S (length products).
Proof.
  unfold export_to_csv. destruct (decide (format = u "woocommerce")).
  - destruct (write_rows _ _ _) as [rows|] eqn:Hrows; [|done]. simpl.
    intros [= <-]. destruct (write_rows_lookup _ _ _ _ Hrows) as [Hlen _].
    simpl. by rewrite Hlen.
  - destruct (decide (format = u "enhanced")); [|done].
    destruct (write_rows _ _ _) as [rows|] eqn:Hrows; [|done]. simpl.
    intros [= <-]. destruct (write_rows_lookup _ _ _ _ Hrows) as [Hlen _].
    simpl. by rewrite Hlen.
Qed.

Lemma export_to_csv_woocommerce_ok products :
  Forall (fun p => Conditions.keywords_not_text p = false) products →
  ∃ table, export_to_csv products (u "woocommerce") = Ok table.
Proof.
  intros H. unfold export_to_csv. rewrite decide_True by reflexivity.
  destruct (write_rows_woocommerce_ok 1 products H) as [rows ->]. simpl. eauto.
Qed.

Lemma export_to_csv_enhanced_ok products :
  ∃ table, export_to_csv products (u "enhanced") = Ok table.
Proof.
  unfold export_to_csv. rewrite decide_False by (by vm_compute).
  rewrite decide_True by reflexivity.
  destruct (write_rows_enhanced 1 products) as [rows ->]. simpl. eauto.
Qed.

Lemma pipeline_steps_positive config self loaded z :
  Forall Spec.no_enrichment loaded →
  as_index (get_or config "max_products_per_batch" (VInt 10)) = Ok z →
  (0 < z)%Z →
  ∃ result,
    pipeline_steps config self loaded = Ok result
    ∧ products_processed result = length loaded
    ∧ brands_generated result = length (Spec.first_seen (brand <$> loaded))
    ∧ length (woocommerce_file result) = S (length loaded)
    ∧ length (enhanced_file result) = S (length loaded).
Proof.
  intros Hplain Hsize Hz. unfold pipeline_steps.
  rewrite (enhance_with_ai_positive config loaded z Hsize Hz). simpl.
  destruct (export_to_csv_woocommerce_ok (enhance_product config <$> loaded))
    as [woo Hwoo].
  { apply Forall_fmap. eapply Forall_impl; [exact Hplain|].
    intros p Hp. by apply enhance_product_keywords. }
  destruct (export_to_csv_enhanced_ok (enhance_product config <$> loaded))
    as [enh Henh].
  rewrite Hwoo, Henh. simpl. eexists. split; [reflexivity|]. simpl.
  split; [by rewrite length_fmap|]. split.
  - destruct (generate_brand_pages_spec (enhance_product config <$> loaded))
      as (Hkeys & _).
    transitivity (length (keys (generate_brand_pages (enhance_product config <$> loaded))));
      [unfold keys; by rewrite length_fmap|].
    by rewrite Hkeys, <- list_fmap_compose.
  - apply export_to_csv_length in Hwoo, Henh.
    rewrite length_fmap in Hwoo, Henh. done.
Qed.
End Pipeline.

(** X12. The full pipeline on a file that loads at least one product, with
    a positive batch size: the steps up to the competitor fetch do not
    raise; the result counts every loaded product as processed and one
    brand per distinct brand text; and each of the two files holds the
    header and one row per loaded product. *)
Theorem X12_pipeline_counts (config : pydict) (self : Manager.manager)
    (file : Manager.read_csv_result) (z : Z) :
  (Manager.load_csv self file).1 ≠ [] →
  Enrich.as_index (get_or config "max_products_per_batch" (VInt 10)) = Ok z →
  (0 < z)%Z →
  let loaded := (Manager.load_csv self file).1 in
  ∃ result,
    (Manager.run_full_pipeline (Enrich.pipeline_steps config) self file).1
    = inr (Ok result)
    ∧ Enrich.products_processed result = length loaded
    ∧ Enrich.brands_generated result
      = length (Spec.first_seen (Manager.brand <$> loaded))
    ∧ length (Enrich.woocommerce_file result) = S (length loaded)
    ∧ length (Enrich.enhanced_file result) = S (length loaded).
Proof.
  intros Hne Hsize Hz loaded.
  pose proof (load_csv_no_enrichment self file) as Hplain. fold loaded in Hplain.
  unfold Manager.run_full_pipeline. subst loaded.
  destruct (Manager.load_csv self file) as [loaded self'] eqn:Hload.
  simpl in *. destruct loaded as [|p ps]; [done|].
  destruct (pipeline_steps_positive config self' (p :: ps) z Hplain Hsize Hz)
    as (result & Hres & H).
  exists result. simpl. by rewrite Hres.
Qed.

Lemma X12_pipeline_counts_witness :
  ∃ result,
    (Manager.run_full_pipeline (Enrich.pipeline_steps ∅) Manager.init
       (Manager.DataFrame [row_cream; row_serum])).1 = inr (Ok result)
    ∧ Enrich.products_processed result = 2%nat.
Proof.
  destruct (X12_pipeline_counts ∅ Manager.init
              (Manager.DataFrame [row_cream; row_serum]) 10)
    as (result & Hres & Hn & _).
  - vm_compute. discriminate.
  - vm_compute. reflexivity.
  - lia.
  - exists result. split; [exact Hres|]. rewrite Hn. vm_compute. reflexivity.
Defined.

(** X13. The edges of the full pipeline. A file that cannot be read, has a
    row that does not construct, or has no rows answers 'No products
    loaded', whatever the configuration. With products loaded, a negative
    batch size still gives a result, which counts no product and no brand
    and whose files hold the header alone; and the batch size 0 raises
    ValueError out of the pipeline. *)
Theorem X13_pipeline_edges (config : pydict) (self : Manager.manager)
    (file : Manager.read_csv_result) :
  let loaded := (Manager.load_csv self file).1 in
  let answer := (Manager.run_full_pipeline (Enrich.pipeline_steps config) self file).1 in
  (Conditions.load_fails file ∨ file = Manager.DataFrame [] →
   answer = inl (u "No products loaded"))
  ∧ (loaded ≠ [] →
     ∀ z, get_or config "max_products_per_batch" (VInt 10) = VInt z →
       ((z < 0)%Z →
        answer = inr (Ok {| Enrich.products_processed := 0;
                            Enrich.brands_generated := 0;
                            Enrich.woocommerce_file := [VStr <$> Manager.woocommerce_headers];
                            Enrich.enhanced_file := [VStr <$> Manager.enhanced_headers] |}))
       ∧ (z = 0%Z → answer = inr (Raise ValueError))).
Proof.
  intros loaded answer. subst loaded answer. split.
  - intros Hfile. unfold Manager.run_full_pipeline.
    assert (Hl : (Manager.load_csv self file).1 = []).
    { destruct Hfile as [Hfail | ->]; [|done].
      unfold Manager.load_csv. destruct file as [e|rows]; [done|].
      simpl in Hfail. by destruct (make_products_raises rows Hfail) as [e ->]. }
    destruct (Manager.load_csv self file) as [loaded self']. simpl in Hl.
    by subst loaded.
  - intros Hne z Hsize. unfold Manager.run_full_pipeline.
    destruct (Manager.load_csv self file) as [loaded self']. simpl in Hne.
    destruct loaded as [|p ps]; [done|]. simpl.
    unfold Enrich.pipeline_steps, Enrich.enhance_with_ai. rewrite Hsize. simpl.
    unfold Enrich.range_from_zero. split.
    + intros Hz. destruct (Z.eqb_spec z 0) as [->|_]; [lia|].
      destruct (Z.ltb_spec z 0) as [_|?]; [|lia]. reflexivity.
    + intros ->. reflexivity.
Qed.

Lemma X13_pipeline_edges_witness :
  (Manager.run_full_pipeline (Enrich.pipeline_steps ∅) Manager.init
     (Manager.DataFrame [row_cream; row_price_text])).1
  = inl (u "No products loaded")
  ∧ (Manager.run_full_pipeline
       (Enrich.pipeline_steps {[ "max_products_per_batch" := VInt (-1) ]})
       Manager.init (Manager.DataFrame [row_cream; row_serum])).1
    = inr (Ok {| Enrich.products_processed := 0;
                 Enrich.brands_generated := 0;
                 Enrich.woocommerce_file := [VStr <$> Manager.woocommerce_headers];
                 Enrich.enhanced_file := [VStr <$> Manager.enhanced_headers] |})
  ∧ (Manager.run_full_pipeline
       (Enrich.pipeline_steps {[ "max_products_per_batch" := VInt 0 ]})
       Manager.init (Manager.DataFrame [row_cream; row_serum])).1
    = inr (Raise ValueError).
Proof.
  destruct (X13_pipeline_edges ∅ Manager.init
              (Manager.DataFrame [row_cream; row_price_text])) as [Hnone _].
  destruct (X13_pipeline_edges {[ "max_products_per_batch" := VInt (-1) ]}
              Manager.init (Manager.DataFrame [row_cream; row_serum])) as [_ Hneg].
  destruct (X13_pipeline_edges {[ "max_products_per_batch" := VInt 0 ]}
              Manager.init (Manager.DataFrame [row_cream; row_serum])) as [_ Hzero].
  split; [|split].
  - apply Hnone. left. apply Exists_cons_tl, Exists_cons_hd. vm_compute. reflexivity.
  - apply (Hneg ltac:(vm_compute; discriminate) (-1)%Z ltac:(vm_compute; reflexivity)).
    lia.
  - apply (Hzero ltac:(vm_compute; discriminate) 0%Z ltac:(vm_compute; reflexivity)).
    reflexivity.
Defined.

(** ** Brand pages *)

Section GroupValues.
Context {V X : Type} (fresh : pystr → V) (push : X → V → V) (P : V → Prop).
Hypothesis P_fresh : ∀ k, P (fresh k).
Hypothesis P_push : ∀ x v, P v → P (push x v).

Lemma Forall_od_set k v (d : odict V) :
  P v → Forall (fun kv => P kv.2) d → Forall (fun kv => P kv.2) (od_set k v d).
Proof.
  intros Hv. induction 1 as [|[k' v'] d Hk Hd IH]; simpl.
  - by repeat constructor.
  - destruct (decide (k = k')); constructor; done.
Qed.

Lemma Forall_od_alter f k (d : odict V) :
  (∀ v, P v → P (f v)) →
  Forall (fun kv => P kv.2) d → Forall (fun kv => P kv.2) (od_alter f k d).
Proof.
  intros Hf. induction 1 as [|[k' v'] d Hk Hd IH]; simpl; [constructor|].
  destruct (decide (k = k')); constructor; simpl; auto.
Qed.

Lemma Forall_group_fold kxs (d : odict V) :
  Forall (fun kv => P kv.2) d →
  Forall (fun kv => P kv.2) (fold_left (group_step fresh push) kxs d).
Proof.
  revert d. induction kxs as [|[k x] kxs IH]; intros d Hd; simpl; [done|].
  apply IH. unfold group_step. apply Forall_od_alter; [by apply P_push|].
  unfold od_setdefault. destruct (od_mem _ d); [done|].
  by apply Forall_od_set.
Qed.
End GroupValues.

Section Counting.
Context {A : Type} (key : A → pystr).

Lemma sum_list_fmap_add {B} (f g : B → nat) (l : list B) :
  sum_list ((fun b => f b + g b)%nat <$> l)
  = (sum_list (f <$> l) + sum_list (g <$> l))%nat.
Proof. induction l as [|b l IH]; csimpl; [done|]. rewrite IH. lia. Qed.

Lemma sum_list_indicator (k : pystr) (ks : list pystr) :
  NoDup ks →
  sum_list ((fun k' => if decide (k = k') then 1 else 0)%nat <$> ks)
  = (if decide (k ∈ ks) then 1 else 0)%nat.
Proof.
  induction 1 as [|k' ks Hk' _ IH]; csimpl; [done|]. rewrite IH.
  destruct (decide (k = k')) as [->|Hne].
  - rewrite (decide_False (P := k' ∈ ks)) by done.
    by rewrite decide_True by left.
  - destruct (decide (k ∈ ks)) as [Hin|Hnin].
    + by rewrite decide_True by (by right).
    + rewrite decide_False; [done|]. by intros [?|?]%elem_of_cons.
Qed.

(** Counting the items key by key, over keys without repetition that
    include every item's key, counts every item once. *)
Lemma sum_filter_lengths (ks : list pystr) (l : list A) :
  NoDup ks → (∀ a, a ∈ l → key a ∈ ks) →
  sum_list ((fun k => length (filter (fun a => key a = k) l)) <$> ks) = length l.
Proof.
  intros Hnd. induction l as [|a l IH]; intros Hin.
  - clear. induction ks as [|k ks IH]; [done|].
    rewrite fmap_cons. cbn [sum_list sum_list_with]. by rewrite IH.
  - transitivity
      (sum_list ((fun k => (if decide (key a = k) then 1 else 0)
                           + length (filter (fun a => key a = k) l))%nat <$> ks)).
    { f_equal. apply list_eq. intros n. rewrite !list_lookup_fmap.
      destruct (ks !! n) as [k|]; [|done]. simpl. f_equal.
      destruct (decide (key a = k)) as [Hk|Hk].
      - by rewrite filter_cons_True by done.
      - by rewrite filter_cons_False by done. }
    rewrite sum_list_fmap_add, sum_list_indicator by done.
    rewrite decide_True by (apply Hin; left).
    rewrite IH; [done|]. intros a' Ha'. apply Hin. by right.
Qed.
End Counting.

Section BrandPageContents.
Import Manager.

Lemma brand_pages_categories products :
  Forall (fun kv : pystr * brand_page =>
            page_categories kv.2 = list_to_set (category <$> page_products kv.2))
    (fold_left brand_pages_step products []).
Proof.
  change brand_pages_step
    with (fun d p => group_step new_brand_page add_product d (brand p, p)).
  rewrite fold_left_group_fmap.
  apply (Forall_group_fold new_brand_page add_product
           (fun page => page_categories page
                        = list_to_set (category <$> page_products page))).
  - done.
  - intros p page Hpage. simpl. rewrite Hpage, fmap_app, list_to_set_app_L.
    simpl. by rewrite (right_id_L ∅ (∪)).
  - constructor.
Qed.

Lemma brand_pages_texts products :
  grouped new_brand_page page_products
    (fun page => (page_name page, about page, philosophy page))
    (fold_left brand_pages_step products [])
    ((fun p => (brand p, p)) <$> products).
Proof.
  change brand_pages_step
    with (fun d p => group_step new_brand_page add_product d (brand p, p)).
  rewrite fold_left_group_fmap.
  apply (grouped_fold new_brand_page add_product page_products
           (fun page => (page_name page, about page, philosophy page))
           items_new_brand_page items_add_product (fun _ _ => eq_refl)
           [] [] _ (grouped_nil _ _ _)).
Qed.

Lemma brand_pages_counts products :
  (products_count ∘ snd) <$> generate_brand_pages products
  = (fun k => length (filter (fun p => brand p = k) products))
      <$> keys (generate_brand_pages products).
Proof.
  destruct (generate_brand_pages_spec products) as (_ & _ & Hel).
  assert (H : Forall (fun kv : pystr * brand_page =>
                        products_count kv.2
                        = length (filter (fun p => brand p = kv.1) products))
                (generate_brand_pages products)).
  { apply Forall_forall. intros [k page] Hin.
    destruct (Hel k page Hin) as (_ & Hp & Hc). simpl. by rewrite Hc, Hp. }
  clear Hel. unfold keys.
  induction H as [|[k page] d Hkv _ IH]; [done|].
  rewrite !fmap_cons. simpl in *. by rewrite Hkv, IH.
Qed.
End BrandPageContents.

(** X14. On every page of [generate_brand_pages] the categories are exactly
    the categories of the page's products, and the two content texts are
    'About ' and ' philosophy' around the brand. The product counts of the
    pages add up to the number of products handed in: every product is
    counted on one page. *)
Theorem X14_brand_page_contents (products : list Manager.Product) :
  (∀ k page, (k, page) ∈ Manager.generate_brand_pages products →
     (∀ c, c ∈ Manager.page_categories page
           ↔ ∃ p, p ∈ products ∧ Manager.brand p = k ∧ Manager.category p = c)
     ∧ Manager.about page = u "About " ++ k
     ∧ Manager.philosophy page = k ++ u " philosophy")
  ∧ sum_list ((Manager.products_count ∘ snd) <$> Manager.generate_brand_pages products)
    = length products.
Proof.
  split.
  - intros k page Hin.
    destruct (generate_brand_pages_spec products) as (_ & _ & Hel).
    destruct (Hel k page Hin) as (_ & Hprods & _).
    unfold Manager.generate_brand_pages in Hin.
    apply list_elem_of_fmap in Hin as ([k' page0] & Heq & Hin).
    cbn [prod_map fst snd Datatypes.id] in Heq. injection Heq as -> ->.
    simpl in Hprods.
    pose proof (brand_pages_categories products) as Hcats.
    rewrite Forall_forall in Hcats. specialize (Hcats _ Hin). simpl in Hcats.
    destruct (grouped_elem _ _ _ _ _ k' page0 (brand_pages_texts products) Hin)
      as [_ Hlabel].
    injection Hlabel as _ Habout Hphil. simpl. split; [|by split].
    intros c. rewrite Hcats, elem_of_list_to_set, list_elem_of_fmap, Hprods.
    split.
    + intros (p & -> & [Hb Hp]%list_elem_of_filter). by exists p.
    + intros (p & Hp & Hb & <-). exists p. split; [done|].
      by apply list_elem_of_filter.
  - rewrite brand_pages_counts.
    destruct (generate_brand_pages_spec products) as (Hkeys & Hnd & _).
    apply sum_filter_lengths; [exact Hnd|].
    intros p Hp. rewrite Hkeys, elem_of_first_seen, list_elem_of_fmap. by exists p.
Qed.

(** ** The page generators *)

Section PageGenerators.









End PageGenerators.

